(** * Suricata application-layer dispatch (src/app-layer.c)

    A shallow embedding of the dispatch core of [app-layer.c]:
    the thread-context lifecycle ([AppLayerGetCtxThread],
    [AppLayerDestroyCtxThread]), the TCP dispatcher
    ([AppLayerHandleTCPData]) and the UDP dispatcher ([AppLayerHandleUdp]).

    Integers are [Z]; C bit operations are [Z.land], [Z.lor], [Z.lnot];
    structs are records; the protocol detector, the L7 parser, the flow
    manager and the TCP reassembler are collaborators whose code lives in
    other files, so they enter as the fields of a record of functions. *)

From Stdlib Require Import ZArith List Bool Lia String.
From Stdlib Require Import Strings.Byte.
Import ListNotations.
Local Open Scope Z_scope.

(** ** C bit idioms *)

(** Truth value of the C expression [x & m]. *)
Definition isset (x m : Z) : bool := negb (Z.land x m =? 0).

(** [x |= m]. *)
Definition setbits (x m : Z) : Z := Z.lor x m.

(** [x &= ~m]. *)
Definition clearbits (x m : Z) : Z := Z.land x (Z.lnot m).

(** Result of a [uint32_t] operation. *)
Definition wrap32 (x : Z) : Z := x mod 2 ^ 32.

(** ** Constants and macros of the included headers

    The headers that define the flag words are not under src/.  The
    numbers below are the ones of the Suricata headers of this version;
    the proofs use only that every named flag is a single nonzero bit,
    that flags of one word are distinct bits, and that the sentinel
    shares no bit with either direction. *)

(** Modelled from the spec: the direction and stream flags of [stream.h]
    (not under src/); [flags] carries one of TOSERVER / TOCLIENT and
    optionally STREAM_START and STREAM_GAP, each a separate bit. *)
Definition STREAM_START : Z := 0x01.
Definition STREAM_TOSERVER : Z := 0x04.
Definition STREAM_TOCLIENT : Z := 0x08.
Definition STREAM_GAP : Z := 0x10.

(** Modelled from the spec: the packet's flow-direction bits of [decode.h]
    (not under src/). *)
Definition FLOW_PKT_TOSERVER : Z := 0x01.
Definition FLOW_PKT_TOCLIENT : Z := 0x02.

(** Modelled from the spec: the flow flag bits of [flow.h] (not under src/):
    ALPROTO_DETECT_DONE, NO_APPLAYER_INSPECTION and the per-direction
    pattern-matcher (PM) and probing-parser (PP) done bits. *)
Definition FLOW_ALPROTO_DETECT_DONE : Z := 0x00008000.
Definition FLOW_NO_APPLAYER_INSPECTION : Z := 0x00010000.
Definition FLOW_TS_PM_ALPROTO_DETECT_DONE : Z := 0x00020000.
Definition FLOW_TS_PP_ALPROTO_DETECT_DONE : Z := 0x00040000.
Definition FLOW_TC_PM_ALPROTO_DETECT_DONE : Z := 0x00100000.
Definition FLOW_TC_PP_ALPROTO_DETECT_DONE : Z := 0x00200000.

(** Modelled from the spec: the stream flag APP_PROTO_DETECTION_COMPLETED
    of [stream-tcp-private.h] (not under src/). *)
Definition STREAMTCP_STREAM_FLAG_APPPROTO_DETECTION_COMPLETED : Z := 0x20.

(** Modelled from the spec: the sentinel of [stream-tcp-private.h] (not
    under src/), a marker value distinct from TOSERVER and TOCLIENT (the
    comment of line 287: neither STREAM_TOSERVER nor STREAM_TOCLIENT);
    the header writes it [(~STREAM_TOSERVER & ~STREAM_TOCLIENT)], so it
    shares no bit with either direction. *)
Definition APP_LAYER_DATA_ALREADY_SENT_TO_APP_LAYER : Z :=
  Z.land (Z.lnot STREAM_TOSERVER) (Z.lnot STREAM_TOCLIENT).

(** Modelled from the spec: [UNKNOWN] is the reserved sentinel of the
    opaque integer type AppProto ([app-layer-protos.h], not under src/). *)
Definition AppProto : Type := Z.
Definition ALPROTO_UNKNOWN : AppProto := 0.

(** The protocol numbers of [netinet/in.h]. *)
Definition IPPROTO_TCP : Z := 6.
Definition IPPROTO_UDP : Z := 17.

(** ** Data model *)

Inductive AppLayerEvent : Type :=
| APPLAYER_MISMATCH_PROTOCOL_BOTH_DIRECTIONS
| APPLAYER_WRONG_DIRECTION_FIRST_DATA
| APPLAYER_DETECT_PROTOCOL_ONLY_ONE_DIRECTION.

(** One directional half of a session; only [flags] is used here. *)
Record TcpStream : Type := mkStream { s_flags : Z }.

(** [noreassembly_ts] / [noreassembly_tc] stand for the two session bits
    written by [StreamTcpSetSessionNoReassemblyFlag]. *)
Record TcpSession : Type := mkSession {
  client : TcpStream;
  server : TcpStream;
  data_first_seen_dir : Z;
  noreassembly_ts : bool;
  noreassembly_tc : bool
}.

Record Packet : Type := mkPacket {
  flowflags : Z;
  payload : list byte;
  payload_len : Z;
  app_layer_events : list AppLayerEvent
}.

(** The flow.  [al] is what the collaborators keep in the flow behind
    opaque pointers (parser state, detector masks); the dispatcher never
    looks inside. *)
Record Flow (A : Type) : Type := mkFlow {
  proto : Z;
  f_flags : Z;
  alproto : AppProto;
  alproto_ts : AppProto;
  alproto_tc : AppProto;
  data_al_so_far : Z * Z;
  al : A
}.
Arguments mkFlow {A}.
Arguments proto {A}.
Arguments f_flags {A}.
Arguments alproto {A}.
Arguments alproto_ts {A}.
Arguments alproto_tc {A}.
Arguments data_al_so_far {A}.
Arguments al {A}.

(** The [stream] argument always points at one of the two streams of the
    session; the code only compares it with [&ssn->client]. *)
Inductive StreamSel : Type := StreamClient | StreamServer.

(** The pointers [alproto] and [alproto_otherdir] point at one of the two
    per-direction slots of the flow. *)
Inductive Slot : Type := SlotTS | SlotTC.

(** Calls made to the collaborators, newest first. *)
Inductive Call : Type :=
| CallAlpdGetProto (data : list byte) (data_len ipproto flags : Z)
| CallAlpParseL7Data (alproto : AppProto) (flags : Z)
                     (data : list byte) (offset len : Z)
| CallReassemble (inline : bool) (opposing : StreamSel) (pkt_flowflags : Z).

(** What persists from one dispatch call to the next. *)
Record State (A : Type) : Type := mkState {
  flow : Flow A;
  ssn : TcpSession;
  calls : list Call
}.
Arguments mkState {A}.
Arguments flow {A}.
Arguments ssn {A}.
Arguments calls {A}.

(** ** Field updates *)

Definition set_f_flags {A} (v : Z) (f : Flow A) : Flow A :=
  mkFlow (proto f) v (alproto f) (alproto_ts f) (alproto_tc f)
         (data_al_so_far f) (al f).

Definition set_alproto {A} (v : AppProto) (f : Flow A) : Flow A :=
  mkFlow (proto f) (f_flags f) v (alproto_ts f) (alproto_tc f)
         (data_al_so_far f) (al f).

Definition deref {A} (f : Flow A) (s : Slot) : AppProto :=
  match s with SlotTS => alproto_ts f | SlotTC => alproto_tc f end.

Definition assign {A} (s : Slot) (v : AppProto) (f : Flow A) : Flow A :=
  match s with
  | SlotTS => mkFlow (proto f) (f_flags f) (alproto f) v (alproto_tc f)
                     (data_al_so_far f) (al f)
  | SlotTC => mkFlow (proto f) (f_flags f) (alproto f) (alproto_ts f) v
                     (data_al_so_far f) (al f)
  end.

(** [a[dir]] and [a[dir] = v] for the two-element array. *)
Definition arr_get (a : Z * Z) (dir : Z) : Z :=
  if dir =? 0 then fst a else snd a.

Definition arr_set (a : Z * Z) (dir : Z) (v : Z) : Z * Z :=
  if dir =? 0 then (v, snd a) else (fst a, v).

Definition set_data_al_so_far {A} (dir v : Z) (f : Flow A) : Flow A :=
  mkFlow (proto f) (f_flags f) (alproto f) (alproto_ts f) (alproto_tc f)
         (arr_set (data_al_so_far f) dir v) (al f).

(** What a collaborator holding the [Flow *] may write: the flag word and
    its own opaque state.  The protocol slots and the carry-over array are
    written by app-layer.c alone. *)
Definition touch {A} (f : Flow A) (x : Z * A) : Flow A :=
  mkFlow (proto f) (fst x) (alproto f) (alproto_ts f) (alproto_tc f)
         (data_al_so_far f) (snd x).

Definition set_flow {A} (f : Flow A) (st : State A) : State A :=
  mkState f (ssn st) (calls st).

Definition set_ssn {A} (s : TcpSession) (st : State A) : State A :=
  mkState (flow st) s (calls st).

Definition log {A} (c : Call) (st : State A) : State A :=
  mkState (flow st) (ssn st) (c :: calls st).

Definition set_data_first_seen_dir (v : Z) (s : TcpSession) : TcpSession :=
  mkSession (client s) (server s) v (noreassembly_ts s) (noreassembly_tc s).

Definition set_client (c : TcpStream) (s : TcpSession) : TcpSession :=
  mkSession c (server s) (data_first_seen_dir s)
            (noreassembly_ts s) (noreassembly_tc s).

Definition set_server (c : TcpStream) (s : TcpSession) : TcpSession :=
  mkSession (client s) c (data_first_seen_dir s)
            (noreassembly_ts s) (noreassembly_tc s).

Definition get_stream (sel : StreamSel) (s : TcpSession) : TcpStream :=
  match sel with StreamClient => client s | StreamServer => server s end.

Definition set_stream (sel : StreamSel) (c : TcpStream) (s : TcpSession)
  : TcpSession :=
  match sel with
  | StreamClient => set_client c s
  | StreamServer => set_server c s
  end.

Definition set_flowflags (v : Z) (p : Packet) : Packet :=
  mkPacket v (payload p) (payload_len p) (app_layer_events p).

(** ** Macros and inline helpers of the headers *)

(** Modelled from the spec: [set_stream_flag_detection_completed(stream)]
    of the reassembler interface ([stream-tcp-private.h], not under src/)
    raises APP_PROTO_DETECTION_COMPLETED on the stream. *)
Definition StreamTcpSetStreamFlagAppProtoDetectionCompleted
  (sel : StreamSel) (s : TcpSession) : TcpSession :=
  set_stream sel
    (mkStream (setbits (s_flags (get_stream sel s))
                 STREAMTCP_STREAM_FLAG_APPPROTO_DETECTION_COMPLETED)) s.

(** Modelled from the spec: [reset_stream_flag_detection_completed(stream)]
    ([stream-tcp-private.h], not under src/) clears the same bit. *)
Definition StreamTcpResetStreamFlagAppProtoDetectionCompleted
  (sel : StreamSel) (s : TcpSession) : TcpSession :=
  set_stream sel
    (mkStream (clearbits (s_flags (get_stream sel s))
                 STREAMTCP_STREAM_FLAG_APPPROTO_DETECTION_COMPLETED)) s.

(** Modelled from the spec: [set_session_no_reassembly(session, dir)]
    ([stream-tcp-private.h], not under src/) disables reassembly for the
    direction [dir] on the session. *)
Definition StreamTcpSetSessionNoReassemblyFlag (s : TcpSession) (dir : Z)
  : TcpSession :=
  if dir =? 0
  then mkSession (client s) (server s) (data_first_seen_dir s)
                 true (noreassembly_tc s)
  else mkSession (client s) (server s) (data_first_seen_dir s)
                 (noreassembly_ts s) true.

(** Modelled from the spec: [set_no_applayer_inspection(flow)] ([flow.h],
    not under src/) raises NO_APPLAYER_INSPECTION on the flow. *)
Definition FlowSetSessionNoApplayerInspectionFlag {A} (f : Flow A) : Flow A :=
  set_f_flags (setbits (f_flags f) FLOW_NO_APPLAYER_INSPECTION) f.

(** Modelled from the spec: the per-direction predicates [pm_done(flow,
    flags)] and [pp_done(flow, flags)] ([flow.h], not under src/); the
    direction is the TOSERVER bit of the second argument. *)
Definition FLOW_IS_PM_DONE {A} (f : Flow A) (dir : Z) : bool :=
  if isset dir STREAM_TOSERVER
  then isset (f_flags f) FLOW_TS_PM_ALPROTO_DETECT_DONE
  else isset (f_flags f) FLOW_TC_PM_ALPROTO_DETECT_DONE.

Definition FLOW_IS_PP_DONE {A} (f : Flow A) (dir : Z) : bool :=
  if isset dir STREAM_TOSERVER
  then isset (f_flags f) FLOW_TS_PP_ALPROTO_DETECT_DONE
  else isset (f_flags f) FLOW_TC_PP_ALPROTO_DETECT_DONE.

(** Modelled from the spec: [reset_pm_done(flow, flags)] and
    [reset_pp_done(flow, flags)] ([flow.h], not under src/). *)
Definition FLOW_RESET_PM_DONE {A} (f : Flow A) (dir : Z) : Flow A :=
  if isset dir STREAM_TOSERVER
  then set_f_flags (clearbits (f_flags f) FLOW_TS_PM_ALPROTO_DETECT_DONE) f
  else set_f_flags (clearbits (f_flags f) FLOW_TC_PM_ALPROTO_DETECT_DONE) f.

Definition FLOW_RESET_PP_DONE {A} (f : Flow A) (dir : Z) : Flow A :=
  if isset dir STREAM_TOSERVER
  then set_f_flags (clearbits (f_flags f) FLOW_TS_PP_ALPROTO_DETECT_DONE) f
  else set_f_flags (clearbits (f_flags f) FLOW_TC_PP_ALPROTO_DETECT_DONE) f.

(** Modelled from the spec: [events_set_raw(event_list, event_id)]
    ([decode-events.h], not under src/) appends to the packet's
    append-only event list. *)
Definition AppLayerDecoderEventsSetEventRaw (p : Packet) (e : AppLayerEvent)
  : Packet :=
  mkPacket (flowflags p) (payload p) (payload_len p)
           (app_layer_events p ++ [e]).

(** ** Collaborators

    The detector, the parser, the flow manager and the reassembler are
    defined in other files.  Each receives the [Flow *] (the reassembler:
    the session and the packet too) and returns what it wrote next to its
    C return value.  The reassembler re-enters the dispatcher for the
    opposing stream, so it may change the whole state and may stop the
    program on an assertion ([None]). *)
Record Collaborators (A : Type) : Type := mkCollaborators {
  AlpdGetProto : Flow A -> list byte -> Z -> Z -> Z -> (Z * A) * AppProto;
  AlpParseL7Data :
    Flow A -> AppProto -> Z -> list byte -> Z -> Z -> (Z * A) * Z;
  AlpGetFirstDataDir : Z -> AppProto -> Z;
  FlowCleanupAppLayer : Flow A -> Z * A;
  StreamTcpInlineMode : bool;
  StreamTcpReassembleAppLayer :
    State A -> Packet -> StreamSel -> option (State A * Packet * Z);
  StreamTcpReassembleInlineAppLayer :
    State A -> Packet -> StreamSel -> option (State A * Packet * Z)
}.
Arguments mkCollaborators {A}.
Arguments AlpdGetProto {A}.
Arguments AlpParseL7Data {A}.
Arguments AlpGetFirstDataDir {A}.
Arguments FlowCleanupAppLayer {A}.
Arguments StreamTcpInlineMode {A}.
Arguments StreamTcpReassembleAppLayer {A}.
Arguments StreamTcpReassembleInlineAppLayer {A}.

(** ** The TCP dispatcher *)

Section Dispatch.

Context {A : Type}.
Variable E : Collaborators A.

(** A dispatch call returns the new state, the packet as it leaves it and
    the C return value; [None] is a failed [BUG_ON]. *)
Definition Result : Type := option (State A * Packet * Z).

(** The label [failure]: [r = -1]. *)
Definition failure (st : State A) (p : Packet) : Result := Some (st, p, -1).

Definition opposing_of (stream : StreamSel) : StreamSel :=
  match stream with StreamClient => StreamServer | StreamServer => StreamClient end.

(** Lines 210-228: point the packet at the opposing stream. *)
Definition flip_flowflags (stream : StreamSel) (inline : bool) (v : Z) : Z :=
  match stream, inline with
  | StreamClient, true => setbits (clearbits v FLOW_PKT_TOSERVER) FLOW_PKT_TOCLIENT
  | StreamClient, false => setbits (clearbits v FLOW_PKT_TOCLIENT) FLOW_PKT_TOSERVER
  | StreamServer, true => setbits (clearbits v FLOW_PKT_TOCLIENT) FLOW_PKT_TOSERVER
  | StreamServer, false => setbits (clearbits v FLOW_PKT_TOSERVER) FLOW_PKT_TOCLIENT
  end.

(** Lines 237-253: point the packet back at the current stream. *)
Definition restore_flowflags (stream : StreamSel) (inline : bool) (v : Z) : Z :=
  match stream, inline with
  | StreamClient, true => setbits (clearbits v FLOW_PKT_TOCLIENT) FLOW_PKT_TOSERVER
  | StreamClient, false => setbits (clearbits v FLOW_PKT_TOSERVER) FLOW_PKT_TOCLIENT
  | StreamServer, true => setbits (clearbits v FLOW_PKT_TOSERVER) FLOW_PKT_TOCLIENT
  | StreamServer, false => setbits (clearbits v FLOW_PKT_TOCLIENT) FLOW_PKT_TOSERVER
  end.

(** Lines 209-253: the forced reassembly of the opposing stream, between
    the two rewrites of [p->flowflags]. *)
Definition replay_opposing (st : State A) (p : Packet) (stream : StreamSel)
  : option (State A * Packet * Z) :=
  let inline := StreamTcpInlineMode E in
  let opposing_stream := opposing_of stream in
  let p1 := set_flowflags (flip_flowflags stream inline (flowflags p)) p in
  let st1 := log (CallReassemble inline opposing_stream (flowflags p1)) st in
  match (if inline
         then StreamTcpReassembleInlineAppLayer E st1 p1 opposing_stream
         else StreamTcpReassembleAppLayer E st1 p1 opposing_stream) with
  | None => None
  | Some (st2, p2, ret) =>
      Some (st2,
            set_flowflags (restore_flowflags stream inline (flowflags p2)) p2,
            ret)
  end.

(** Both streams marked, server first (lines 285-286, 339-340, 363-364);
    lines 256-257 mark the client first, with the same result. *)
Definition both_streams_completed (s : TcpSession) : TcpSession :=
  StreamTcpSetStreamFlagAppProtoDetectionCompleted StreamClient
    (StreamTcpSetStreamFlagAppProtoDetectionCompleted StreamServer s).

(** Lines 309-315: hand the chunk to the parser of the detected protocol. *)
Definition parse_detected (st : State A) (p : Packet) (alproto_p : Slot)
  (dir data_al_so_far : Z) (data : list byte) (data_len flags : Z) : Result :=
  let st1 :=
    set_ssn (set_data_first_seen_dir
               APP_LAYER_DATA_ALREADY_SENT_TO_APP_LAYER (ssn st)) st in
  let f := flow st1 in
  let len := wrap32 (data_len - data_al_so_far) in
  let res := AlpParseL7Data E f (deref f alproto_p) flags
               data data_al_so_far len in
  let st2 :=
    log (CallAlpParseL7Data (deref f alproto_p) flags data data_al_so_far len)
        st1 in
  Some (set_flow (set_data_al_so_far dir 0 (touch f (fst res))) st2,
        p, snd res).

(** Lines 278-315: the direction-of-first-data check, the retry reset and
    the parser call. *)
Definition first_data_check (st : State A) (p : Packet) (stream : StreamSel)
  (alproto_p alproto_otherdir_p : Slot) (dir data_al_so_far : Z)
  (data : list byte) (data_len flags : Z) : Result :=
  if negb (data_first_seen_dir (ssn st)
           =? APP_LAYER_DATA_ALREADY_SENT_TO_APP_LAYER)
  then
    let f := flow st in
    let first_data_dir := AlpGetFirstDataDir E (proto f) (deref f alproto_p) in
    if negb (first_data_dir =? 0)
       && negb (isset first_data_dir (data_first_seen_dir (ssn st)))
    then
      let p1 :=
        AppLayerDecoderEventsSetEventRaw p APPLAYER_WRONG_DIRECTION_FIRST_DATA in
      let st1 := set_flow (FlowSetSessionNoApplayerInspectionFlag f) st in
      let st2 := set_ssn (both_streams_completed (ssn st1)) st1 in
      let st3 :=
        set_ssn (set_data_first_seen_dir
                   APP_LAYER_DATA_ALREADY_SENT_TO_APP_LAYER (ssn st2)) st2 in
      failure st3 p1
    else if negb (first_data_dir =? 0) && negb (isset first_data_dir flags)
    then
      if negb (deref f alproto_otherdir_p =? ALPROTO_UNKNOWN)
      then None
      else
        let f1 := touch f (FlowCleanupAppLayer E f) in
        let f2 := set_alproto ALPROTO_UNKNOWN
                    (assign alproto_p ALPROTO_UNKNOWN f1) in
        let s1 :=
          StreamTcpResetStreamFlagAppProtoDetectionCompleted stream (ssn st) in
        let f3 := FLOW_RESET_PP_DONE f2 flags in
        let f4 := FLOW_RESET_PM_DONE f3 flags in
        failure (set_ssn s1 (set_flow f4 st)) p
    else
      parse_detected st p alproto_p dir data_al_so_far data data_len flags
  else
    parse_detected st p alproto_p dir data_al_so_far data data_len flags.

(** The test of lines 207-208. *)
Definition replay_wanted (s : TcpSession) (flags : Z) : bool :=
  isset (data_first_seen_dir s) (Z.lor STREAM_TOSERVER STREAM_TOCLIENT)
  && negb (isset flags (data_first_seen_dir s)).

(** Lines 207-315: what follows a successful detection. *)
Definition after_detection (st : State A) (p : Packet) (stream : StreamSel)
  (alproto_p alproto_otherdir_p : Slot) (dir data_al_so_far : Z)
  (data : list byte) (data_len flags : Z) : Result :=
  if replay_wanted (ssn st) flags then
    match replay_opposing st p stream with
    | None => None
    | Some (st2, p2, ret) =>
        if ret <? 0 then
          let st3 :=
            set_flow (FlowSetSessionNoApplayerInspectionFlag (flow st2)) st2 in
          let st4 :=
            set_ssn (StreamTcpSetStreamFlagAppProtoDetectionCompleted
                       StreamServer
                       (StreamTcpSetStreamFlagAppProtoDetectionCompleted
                          StreamClient (ssn st3))) st3 in
          failure st4 p2
        else
          first_data_check st2 p2 stream alproto_p alproto_otherdir_p
            dir data_al_so_far data data_len flags
    end
  else
    first_data_check st p stream alproto_p alproto_otherdir_p
      dir data_al_so_far data data_len flags.

(** Lines 183-195: the two directions disagree. *)
Definition resolve_mismatch (f : Flow A) (s : TcpSession) (p : Packet)
  (alproto_p alproto_otherdir_p : Slot) (flags : Z) : Flow A * Packet :=
  if negb (deref f alproto_otherdir_p =? ALPROTO_UNKNOWN)
     && negb (deref f alproto_otherdir_p =? deref f alproto_p)
  then
    let p1 :=
      AppLayerDecoderEventsSetEventRaw p
        APPLAYER_MISMATCH_PROTOCOL_BOTH_DIRECTIONS in
    if data_first_seen_dir s =? APP_LAYER_DATA_ALREADY_SENT_TO_APP_LAYER then
      let v := deref f alproto_otherdir_p in
      (set_alproto v (assign alproto_p v f), p1)
    else if isset flags STREAM_TOCLIENT then
      let v := deref f alproto_p in
      (set_alproto v (assign alproto_otherdir_p v f), p1)
    else
      let v := deref f alproto_otherdir_p in
      (set_alproto v (assign alproto_p v f), p1)
  else (f, p).

(** Lines 317-358: this direction failed, the other one is known. *)
Definition other_direction_known (st : State A) (p : Packet)
  (stream : StreamSel) (alproto_otherdir_p : Slot) (dir data_al_so_far : Z)
  (data : list byte) (data_len flags : Z) : Result :=
  let f := flow st in
  let first_data_dir :=
    AlpGetFirstDataDir E (proto f) (deref f alproto_otherdir_p) in
  if negb (data_first_seen_dir (ssn st)
           =? APP_LAYER_DATA_ALREADY_SENT_TO_APP_LAYER)
     && negb (first_data_dir =? 0)
     && negb (isset first_data_dir flags)
  then
    let st1 := set_flow (FlowSetSessionNoApplayerInspectionFlag f) st in
    failure (set_ssn (both_streams_completed (ssn st1)) st1) p
  else
    let st1 :=
      if data_len >? 0
      then set_ssn (set_data_first_seen_dir
                      APP_LAYER_DATA_ALREADY_SENT_TO_APP_LAYER (ssn st)) st
      else st in
    let len := wrap32 (data_len - data_al_so_far) in
    let res := AlpParseL7Data E f (deref f alproto_otherdir_p) flags
                 data data_al_so_far len in
    let st2 :=
      log (CallAlpParseL7Data (deref f alproto_otherdir_p) flags
             data data_al_so_far len) st1 in
    let f1 := touch f (fst res) in
    if FLOW_IS_PM_DONE f1 flags && FLOW_IS_PP_DONE f1 flags then
      let p1 :=
        AppLayerDecoderEventsSetEventRaw p
          APPLAYER_DETECT_PROTOCOL_ONLY_ONE_DIRECTION in
      let s1 :=
        StreamTcpSetStreamFlagAppProtoDetectionCompleted stream (ssn st2) in
      Some (set_ssn s1 (set_flow (set_data_al_so_far dir 0 f1) st2),
            p1, snd res)
    else
      Some (set_flow (set_data_al_so_far dir data_len f1) st2, p, snd res).

(** Lines 360-366: neither direction is known. *)
Definition neither_direction_known (st : State A) (p : Packet) : Result :=
  let f := flow st in
  if FLOW_IS_PM_DONE f STREAM_TOSERVER && FLOW_IS_PP_DONE f STREAM_TOSERVER
     && FLOW_IS_PM_DONE f STREAM_TOCLIENT && FLOW_IS_PP_DONE f STREAM_TOCLIENT
  then
    let st1 := set_flow (FlowSetSessionNoApplayerInspectionFlag f) st in
    let st2 := set_ssn (both_streams_completed (ssn st1)) st1 in
    Some (set_ssn (set_data_first_seen_dir
                     APP_LAYER_DATA_ALREADY_SENT_TO_APP_LAYER (ssn st2)) st2,
          p, 0)
  else Some (st, p, 0).

(** Lines 159-368: a stream initializer before the protocol is known. *)
Definition stream_start (st : State A) (p : Packet) (stream : StreamSel)
  (alproto_p alproto_otherdir_p : Slot) (dir : Z)
  (data : list byte) (data_len flags : Z) : Result :=
  let f := flow st in
  let data_al_so_far_v :=
    if data_len =? 0 then 0 else arr_get (data_al_so_far f) dir in
  let res := AlpdGetProto E f data data_len IPPROTO_TCP flags in
  let f1 := assign alproto_p (snd res) (touch f (fst res)) in
  let st1 :=
    log (CallAlpdGetProto data data_len IPPROTO_TCP flags) (set_flow f1 st) in
  if negb (deref f1 alproto_p =? ALPROTO_UNKNOWN) then
    let fp := resolve_mismatch f1 (ssn st1) p
                alproto_p alproto_otherdir_p flags in
    let f2 := set_alproto (deref (fst fp) alproto_p) (fst fp) in
    let st2 :=
      set_ssn (StreamTcpSetStreamFlagAppProtoDetectionCompleted stream
                 (ssn st1)) (set_flow f2 st1) in
    after_detection st2 (snd fp) stream alproto_p alproto_otherdir_p
      dir data_al_so_far_v data data_len flags
  else if negb (deref f1 alproto_otherdir_p =? ALPROTO_UNKNOWN) then
    other_direction_known st1 p stream alproto_otherdir_p
      dir data_al_so_far_v data data_len flags
  else neither_direction_known st1 p.

(** Lines 116-397. *)
Definition AppLayerHandleTCPData (st : State A) (p : Packet)
  (stream : StreamSel) (data : list byte) (data_len flags : Z) : Result :=
  let f := flow st in
  if isset (f_flags f) FLOW_NO_APPLAYER_INSPECTION then Some (st, p, 0)
  else
    let toserver := isset flags STREAM_TOSERVER in
    let alproto_p := if toserver then SlotTS else SlotTC in
    let alproto_otherdir_p := if toserver then SlotTC else SlotTS in
    let dir := if toserver then 0 else 1 in
    if (deref f alproto_p =? ALPROTO_UNKNOWN) && isset flags STREAM_GAP then
      let s1 :=
        StreamTcpSetStreamFlagAppProtoDetectionCompleted stream (ssn st) in
      Some (set_ssn (StreamTcpSetSessionNoReassemblyFlag s1 dir) st, p, 0)
    else if (deref f alproto_p =? ALPROTO_UNKNOWN) && isset flags STREAM_START
    then
      stream_start st p stream alproto_p alproto_otherdir_p
        dir data data_len flags
    else if negb (alproto f =? ALPROTO_UNKNOWN) then
      let res := AlpParseL7Data E f (alproto f) flags data 0 data_len in
      Some (log (CallAlpParseL7Data (alproto f) flags data 0 data_len)
              (set_flow (touch f (fst res)) st),
            p, snd res)
    else Some (st, p, 0).

(** ** The UDP dispatcher *)

(** Lines 470-535.  The flow lock and the profiling macros have no effect
    on the flow; a UDP flow has no session, so the state is the flow and
    the call log. *)
Definition AppLayerHandleUdp (p : Packet) (f : Flow A) (cs : list Call)
  : Flow A * list Call * Z :=
  let flags :=
    if isset (flowflags p) FLOW_PKT_TOSERVER
    then setbits 0 STREAM_TOSERVER
    else setbits 0 STREAM_TOCLIENT in
  if (alproto f =? ALPROTO_UNKNOWN)
     && negb (isset (f_flags f) FLOW_ALPROTO_DETECT_DONE)
  then
    let res := AlpdGetProto E f (payload p) (payload_len p) IPPROTO_UDP flags in
    let f1 := set_alproto (snd res) (touch f (fst res)) in
    let cs1 :=
      CallAlpdGetProto (payload p) (payload_len p) IPPROTO_UDP flags :: cs in
    if negb (alproto f1 =? ALPROTO_UNKNOWN) then
      let f2 := set_f_flags (setbits (f_flags f1) FLOW_ALPROTO_DETECT_DONE) f1 in
      let pr := AlpParseL7Data E f2 (alproto f2) flags
                  (payload p) 0 (payload_len p) in
      (touch f2 (fst pr),
       CallAlpParseL7Data (alproto f2) flags (payload p) 0 (payload_len p)
         :: cs1,
       snd pr)
    else
      (set_f_flags (setbits (f_flags f1) FLOW_ALPROTO_DETECT_DONE) f1, cs1, 0)
  else if negb (alproto f =? ALPROTO_UNKNOWN) then
    let pr := AlpParseL7Data E f (alproto f) flags
                (payload p) 0 (payload_len p) in
    (touch f (fst pr),
     CallAlpParseL7Data (alproto f) flags (payload p) 0 (payload_len p) :: cs,
     snd pr)
  else (f, cs, 0).

End Dispatch.

(** ** Thread-context lifecycle *)

Module ThreadCtx.

(** The handles are opaque pointers; [None] is NULL. *)
Definition Handle : Type := Z.

Record AppLayerCtxThread : Type := mkCtx {
  alpd_tctx : option Handle;
  alp_tctx : option Handle
}.

(** What the allocator and the two subsystems answer during one creation:
    [SCMalloc = false] is a NULL from the allocator. *)
Record Answers : Type := mkAnswers {
  SCMalloc : bool;
  AlpdGetCtxThread : option Handle;
  AlpGetCtxThread : option Handle
}.

(** Resources outstanding: context blocks not yet freed, detector and
    parser thread handles not yet destroyed. *)
Record Heap : Type := mkHeap {
  ctx_blocks : nat;
  alpd_handles : nat;
  alp_handles : nat
}.

(** A call either returns, or reads through a null pointer. *)
Inductive Outcome (T : Type) : Type :=
| NullDeref
| Returns (v : T) (h : Heap).
Arguments NullDeref {T}.
Arguments Returns {T}.

(** Lines 101-114.  The argument is the pointer [tctx]; the first
    statement after the cast reads [app_tctx->alpd_tctx]. *)
Definition AppLayerDestroyCtxThread (tctx : option AppLayerCtxThread)
  (h : Heap) : Outcome unit :=
  match tctx with
  | None => NullDeref
  | Some app_tctx =>
      let h1 :=
        match alpd_tctx app_tctx with
        | Some _ => mkHeap (ctx_blocks h) (pred (alpd_handles h)) (alp_handles h)
        | None => h
        end in
      let h2 :=
        match alp_tctx app_tctx with
        | Some _ =>
            mkHeap (ctx_blocks h1) (alpd_handles h1) (pred (alp_handles h1))
        | None => h1
        end in
      Returns tt (mkHeap (pred (ctx_blocks h2)) (alpd_handles h2)
                         (alp_handles h2))
  end.

(** The label [error] of lines 94-96. *)
Definition error (app_tctx : option AppLayerCtxThread) (h : Heap)
  : Outcome (option AppLayerCtxThread) :=
  match AppLayerDestroyCtxThread app_tctx h with
  | NullDeref => NullDeref
  | Returns _ h' => Returns None h'
  end.

(** Lines 79-99. *)
Definition AppLayerGetCtxThread (a : Answers) (h : Heap)
  : Outcome (option AppLayerCtxThread) :=
  if negb (SCMalloc a) then error None h
  else
    let h1 := mkHeap (S (ctx_blocks h)) (alpd_handles h) (alp_handles h) in
    match AlpdGetCtxThread a with
    | None => error (Some (mkCtx None None)) h1
    | Some d =>
        let h2 :=
          mkHeap (ctx_blocks h1) (S (alpd_handles h1)) (alp_handles h1) in
        match AlpGetCtxThread a with
        | None => error (Some (mkCtx (Some d) None)) h2
        | Some q =>
            Returns (Some (mkCtx (Some d) (Some q)))
                    (mkHeap (ctx_blocks h2) (alpd_handles h2)
                            (S (alp_handles h2)))
        end
    end.

End ThreadCtx.

(** The arguments of one call of [AppLayerHandleTCPData]. *)
Record TcpCall : Type := mkTcpCall {
  c_pkt : Packet;
  c_stream : StreamSel;
  c_data : list byte;
  c_data_len : Z;
  c_flags : Z
}.

(** ** Concrete collaborators for the scenarios *)

Module Scenario.

Definition ALPROTO_HTTP : AppProto := 1.
Definition ALPROTO_SSH : AppProto := 2.

(** A detector that knows two protocols by their first byte and leaves
    the flow alone. *)
Definition detect (f : Flow unit) (data : list byte) (data_len ipproto flags : Z)
  : (Z * unit) * AppProto :=
  ((f_flags f, tt),
   match data with
   | "G"%byte :: _ => ALPROTO_HTTP
   | "S"%byte :: _ => ALPROTO_SSH
   | _ => ALPROTO_UNKNOWN
   end).

(** A detector that also reports both strategies exhausted in both
    directions. *)
Definition detect_exhausted (f : Flow unit) (data : list byte)
  (data_len ipproto flags : Z) : (Z * unit) * AppProto :=
  ((Z.lor (f_flags f)
      (Z.lor (Z.lor FLOW_TS_PM_ALPROTO_DETECT_DONE FLOW_TS_PP_ALPROTO_DETECT_DONE)
             (Z.lor FLOW_TC_PM_ALPROTO_DETECT_DONE FLOW_TC_PP_ALPROTO_DETECT_DONE)),
    tt),
   ALPROTO_UNKNOWN).

(** A parser that answers [r] and leaves the flow alone. *)
Definition parse (r : Z) (f : Flow unit) (alproto : AppProto) (flags : Z)
  (data : list byte) (offset len : Z) : (Z * unit) * Z :=
  ((f_flags f, tt), r).

(** HTTP wants to see to-server data first; SSH has no constraint. *)
Definition first_data_dir (ipproto : Z) (alproto : AppProto) : Z :=
  if alproto =? ALPROTO_HTTP then STREAM_TOSERVER else 0.

Definition cleanup (f : Flow unit) : Z * unit := (f_flags f, tt).

(** A reassembler with nothing queued on the opposing stream. *)
Definition idle (ret : Z) (st : State unit) (p : Packet) (s : StreamSel)
  : option (State unit * Packet * Z) := Some (st, p, ret).

Definition sniffer (parse_ret replay_ret : Z) : Collaborators unit :=
  mkCollaborators detect (parse parse_ret) first_data_dir cleanup false
                  (idle replay_ret) (idle replay_ret).

(** A reassembler that re-enters the dispatcher with the bytes [queued]
    of the opposing stream, as a stream initializer in the direction the
    flipped packet stands for, and reports success. *)
Definition reenter (E : Collaborators unit) (queued : list byte)
  (st : State unit) (p : Packet) (s : StreamSel)
  : option (State unit * Packet * Z) :=
  let flags :=
    Z.lor STREAM_START
      (if isset (flowflags p) FLOW_PKT_TOSERVER
       then STREAM_TOCLIENT else STREAM_TOSERVER) in
  match AppLayerHandleTCPData E st p s queued
          (Z.of_nat (List.length queued)) flags with
  | None => None
  | Some (st', p', _) => Some (st', p', 0)
  end.

Definition sniffer_reentrant (queued : list byte) : Collaborators unit :=
  mkCollaborators detect (parse 0) first_data_dir cleanup false
                  (reenter (sniffer 0 0) queued)
                  (reenter (sniffer 0 0) queued).

Definition flow0 : Flow unit :=
  mkFlow IPPROTO_TCP 0 ALPROTO_UNKNOWN ALPROTO_UNKNOWN ALPROTO_UNKNOWN (0, 0) tt.

Definition ssn0 (first_seen : Z) : TcpSession :=
  mkSession (mkStream 0) (mkStream 0) first_seen false false.

Definition state0 (first_seen : Z) : State unit :=
  mkState flow0 (ssn0 first_seen) [].

(** A sniffed packet travelling to the client acknowledges to-server
    data, and the other way round. *)
Definition pkt (dirflag : Z) : Packet := mkPacket dirflag [] 0 [].

Definition GET : list byte := list_byte_of_string "GET /".
Definition garbage : list byte := list_byte_of_string "garbage".
Definition SSH_banner : list byte := list_byte_of_string "SSH-2.0".

(** A UDP flow on which NO_APPLAYER_INSPECTION is set and nothing else. *)
Definition udp_flow_no_inspection : Flow unit :=
  mkFlow IPPROTO_UDP FLOW_NO_APPLAYER_INSPECTION
         ALPROTO_UNKNOWN ALPROTO_UNKNOWN ALPROTO_UNKNOWN (0, 0) tt.

Definition udp_flow0 : Flow unit :=
  mkFlow IPPROTO_UDP 0 ALPROTO_UNKNOWN ALPROTO_UNKNOWN ALPROTO_UNKNOWN
         (0, 0) tt.

Definition datagram : Packet := mkPacket FLOW_PKT_TOSERVER GET 5 [].

(** The two calls of the wrong-direction-first scenario: data was first
    seen to the client; call A brings the to-client bytes, call B the
    to-server bytes. *)
Definition flags_A : Z := Z.lor STREAM_TOCLIENT STREAM_START.
Definition flags_B : Z := Z.lor STREAM_TOSERVER STREAM_START.

Definition call_A (E : Collaborators unit) : Result :=
  AppLayerHandleTCPData E (state0 STREAM_TOCLIENT) (pkt FLOW_PKT_TOSERVER)
    StreamServer garbage 7 flags_A.

Definition state_after_A : State unit :=
  mkState flow0 (ssn0 STREAM_TOCLIENT)
          [CallAlpdGetProto garbage 7 IPPROTO_TCP flags_A].

Definition call_B (E : Collaborators unit) : Result :=
  AppLayerHandleTCPData E state_after_A (pkt FLOW_PKT_TOCLIENT)
    StreamClient GET 5 flags_B.

(** A session on which the to-client direction was detected as SSH and
    its bytes were already sent to the parser. *)
Definition state_ssh_seen : State unit :=
  mkState (mkFlow IPPROTO_TCP 0 ALPROTO_SSH ALPROTO_UNKNOWN ALPROTO_SSH
                  (0, 0) tt)
          (mkSession (mkStream 0)
             (mkStream STREAMTCP_STREAM_FLAG_APPPROTO_DETECTION_COMPLETED)
             APP_LAYER_DATA_ALREADY_SENT_TO_APP_LAYER false false)
          [].

(** A session in which the server speaks first (an SSH banner) and the
    client then sends an HTTP request. *)
Definition banner_then_request : list TcpCall :=
  [mkTcpCall (pkt FLOW_PKT_TOSERVER) StreamServer SSH_banner 7 flags_A;
   mkTcpCall (pkt FLOW_PKT_TOCLIENT) StreamClient GET 5 flags_B].

(** A to-server chunk of 7 bytes of which detection has already scanned
    the first 3 while the to-client side was detected as SSH. *)
Definition state_carry : State unit :=
  mkState (mkFlow IPPROTO_TCP 0 ALPROTO_SSH ALPROTO_UNKNOWN ALPROTO_SSH
                  (3, 0) tt)
          (mkSession (mkStream 0)
             (mkStream STREAMTCP_STREAM_FLAG_APPPROTO_DETECTION_COMPLETED)
             APP_LAYER_DATA_ALREADY_SENT_TO_APP_LAYER false false)
          [].

(** Where [banner_then_request] ends when data was first seen to the
    server and the reassembler re-enters with the queued request. *)
Definition state_agreed : State unit :=
  mkState (mkFlow IPPROTO_TCP 0 ALPROTO_SSH ALPROTO_SSH ALPROTO_SSH (0, 0) tt)
          (mkSession
             (mkStream STREAMTCP_STREAM_FLAG_APPPROTO_DETECTION_COMPLETED)
             (mkStream STREAMTCP_STREAM_FLAG_APPPROTO_DETECTION_COMPLETED)
             APP_LAYER_DATA_ALREADY_SENT_TO_APP_LAYER false false)
          [CallAlpParseL7Data ALPROTO_SSH flags_B GET 0 5;
           CallAlpParseL7Data ALPROTO_SSH flags_A SSH_banner 0 7;
           CallAlpParseL7Data ALPROTO_SSH flags_B GET 0 5;
           CallAlpdGetProto GET 5 IPPROTO_TCP flags_B;
           CallReassemble false StreamClient FLOW_PKT_TOCLIENT;
           CallAlpdGetProto SSH_banner 7 IPPROTO_TCP flags_A].

Definition results_agreed : list (Packet * Z) :=
  [(mkPacket FLOW_PKT_TOSERVER [] 0
      [APPLAYER_MISMATCH_PROTOCOL_BOTH_DIRECTIONS], 0);
   (pkt FLOW_PKT_TOCLIENT, 0)].

End Scenario.

(** ** Sequences of dispatch calls *)

(** The calls of [cs] made one after the other on the same flow and
    session; the result lists the packet and return value of each call,
    and is [None] when one of them stops on [BUG_ON]. *)
Fixpoint run_tcp {A} (E : Collaborators A) (cs : list TcpCall) (st : State A)
  : option (State A * list (Packet * Z)) :=
  match cs with
  | [] => Some (st, [])
  | c :: cs' =>
      match AppLayerHandleTCPData E st (c_pkt c) (c_stream c)
              (c_data c) (c_data_len c) (c_flags c) with
      | None => None
      | Some (st1, p1, r1) =>
          match run_tcp E cs' st1 with
          | None => None
          | Some (st2, rs) => Some (st2, (p1, r1) :: rs)
          end
      end
  end.

(** The datagrams of [ps] dispatched one after the other on the same
    flow; only the flow and the call log are kept. *)
Fixpoint run_udp {A} (E : Collaborators A) (ps : list Packet)
  (f : Flow A) (cs : list Call) : Flow A * list Call :=
  match ps with
  | [] => (f, cs)
  | p :: ps' =>
      let out := AppLayerHandleUdp E p f cs in
      run_udp E ps' (fst (fst out)) (snd (fst out))
  end.

(** ** Vocabulary of the statements *)

(** The slot [alproto] points at, and the one [alproto_otherdir] points
    at, for a call with these [flags] (lines 140-148). *)
Definition this_slot (flags : Z) : Slot :=
  if isset flags STREAM_TOSERVER then SlotTS else SlotTC.

Definition other_slot (flags : Z) : Slot :=
  if isset flags STREAM_TOSERVER then SlotTC else SlotTS.

Definition dir_of (flags : Z) : Z :=
  if isset flags STREAM_TOSERVER then 0 else 1.

Definition detection_completed (s : TcpStream) : bool :=
  isset (s_flags s) STREAMTCP_STREAM_FLAG_APPPROTO_DETECTION_COMPLETED.

Definition no_inspection {A} (f : Flow A) : bool :=
  isset (f_flags f) FLOW_NO_APPLAYER_INSPECTION.

(** The direction flag the UDP dispatcher derives from the packet. *)
Definition udp_dir (p : Packet) : Z :=
  if isset (flowflags p) FLOW_PKT_TOSERVER
  then STREAM_TOSERVER else STREAM_TOCLIENT.

(** The parser call a datagram gives rise to once the protocol question
    of the flow is settled. *)
Definition forwarded (a : AppProto) (p : Packet) : list Call :=
  if a =? ALPROTO_UNKNOWN then []
  else [CallAlpParseL7Data a (udp_dir p) (payload p) 0 (payload_len p)].

(** Direction-protocol consistency of a flow. *)
Definition consistent {A} (f : Flow A) : Prop :=
  alproto_ts f <> ALPROTO_UNKNOWN ->
  alproto_tc f <> ALPROTO_UNKNOWN ->
  alproto_ts f = alproto_tc f /\ alproto_ts f = alproto f.

(** The local [data_al_so_far] of lines 159-162. *)
Definition carry_of {A} (f : Flow A) (data_len flags : Z) : Z :=
  if data_len =? 0 then 0 else arr_get (data_al_so_far f) (dir_of flags).

(** The state and the packet with which lines 207-315 start once
    detection has answered a protocol: the detector's writes, the slot,
    the resolution of a mismatch, [f->alproto], the stream flag and the
    log entry of the detection. *)
Definition detected {A} (E : Collaborators A) (st : State A) (p : Packet)
  (stream : StreamSel) (data : list byte) (data_len flags : Z)
  : State A * Packet :=
  let res := AlpdGetProto E (flow st) data data_len IPPROTO_TCP flags in
  let f1 := assign (this_slot flags) (snd res) (touch (flow st) (fst res)) in
  let fp := resolve_mismatch f1 (ssn st) p
              (this_slot flags) (other_slot flags) flags in
  (mkState (set_alproto (deref (fst fp) (this_slot flags)) (fst fp))
           (StreamTcpSetStreamFlagAppProtoDetectionCompleted stream (ssn st))
           (CallAlpdGetProto data data_len IPPROTO_TCP flags :: calls st),
   snd fp).

(** [st_r], [p_r] are the state and packet with which the
    direction-of-first-data check (line 278) is entered from [st2], [p2]:
    either no replay was wanted, or the replay returned a non-negative
    value and left [st_r], [p_r]. *)
Definition enters_check {A} (E : Collaborators A) (st2 : State A)
  (p2 : Packet) (stream : StreamSel) (flags : Z)
  (st_r : State A) (p_r : Packet) : Prop :=
  (replay_wanted (ssn st2) flags = false /\ st_r = st2 /\ p_r = p2)
  \/ (replay_wanted (ssn st2) flags = true
      /\ exists ret, replay_opposing E st2 p2 stream = Some (st_r, p_r, ret)
                     /\ 0 <= ret).

(** The packet travels in the direction to which lines 237-253 set it
    back: toward the server for the client stream when inline and for the
    server stream when sniffing, toward the client otherwise. *)
Definition carries_stream_direction (stream : StreamSel) (inline : bool)
  (v : Z) : Prop :=
  match stream, inline with
  | StreamClient, true | StreamServer, false =>
      isset v FLOW_PKT_TOSERVER = true /\ isset v FLOW_PKT_TOCLIENT = false
  | StreamClient, false | StreamServer, true =>
      isset v FLOW_PKT_TOCLIENT = true /\ isset v FLOW_PKT_TOSERVER = false
  end.

(** The reassembler of [E], in either mode, keeps consistent flows
    consistent. *)
Definition replay_preserves_consistency {A} (E : Collaborators A) : Prop :=
  forall st p s st' p' r,
    StreamTcpReassembleAppLayer E st p s = Some (st', p', r)
    \/ StreamTcpReassembleInlineAppLayer E st p s = Some (st', p', r) ->
    consistent (flow st) -> consistent (flow st').

(** ** The stream-message queues (AppLayerHandleTCPMsg) *)

Module TcpMsg.

(** Messages, flows and sessions live at addresses; a pointer is an
    address or NULL ([None]). *)
Definition Addr : Type := nat.

(** The fields of [StreamMsg] the function reads or writes. *)
Record StreamMsg : Type := mkStreamMsg {
  flow : option Addr;
  flags : Z;
  prev : option Addr;
  next : option Addr
}.

(** The four queue pointers of [TcpSession]. *)
Record Queues : Type := mkQueues {
  toserver_smsg_head : option Addr;
  toserver_smsg_tail : option Addr;
  toclient_smsg_head : option Addr;
  toclient_smsg_tail : option Addr
}.

(** The memory the function works on: [f->protoctx] of every flow, the
    queue pointers of every session, every message, and the shared pool
    of released messages. *)
Record Memory : Type := mkMemory {
  protoctx : Addr -> option Addr;
  sessions : Addr -> Queues;
  msgs : Addr -> StreamMsg;
  pool : list Addr
}.

(** A call returns, or stops on [BUG_ON], or reads through NULL. *)
Inductive Outcome (T : Type) : Type :=
| BugOn
| NullDeref
| Returns (v : T).
Arguments BugOn {T}.
Arguments NullDeref {T}.
Arguments Returns {T}.

(** A store written at one address. *)
Definition upd {T : Type} (h : Addr -> T) (a : Addr) (v : T) : Addr -> T :=
  fun x => if Nat.eqb x a then v else h x.

(** [a->next = v], [a->prev = v]. *)
Definition set_next (a : Addr) (v : option Addr) (h : Addr -> StreamMsg)
  : Addr -> StreamMsg :=
  upd h a (mkStreamMsg (flow (h a)) (flags (h a)) (prev (h a)) v).

Definition set_prev (a : Addr) (v : option Addr) (h : Addr -> StreamMsg)
  : Addr -> StreamMsg :=
  upd h a (mkStreamMsg (flow (h a)) (flags (h a)) v (next (h a))).

(** Modelled from the spec: [FlowDeReference(&smsg->flow)] ([flow.h], not
    under src/) drops the back-reference of the message to its flow. *)
Definition FlowDeReference (a : Addr) (h : Addr -> StreamMsg)
  : Addr -> StreamMsg :=
  upd h a (mkStreamMsg None (flags (h a)) (prev (h a)) (next (h a))).

(** Modelled from the spec: [msg_return_to_pool(msg)] ([stream.h], not
    under src/) gives the message back to the shared pool. *)
Definition StreamMsgReturnToPool (a : Addr) (m : Memory) : Memory :=
  mkMemory (protoctx m) (sessions m) (msgs m) (a :: pool m).

(** Lines 425-436 and 441-452, which differ only in the pair of queue
    pointers they use: put [smsg] at the end of the list [head], [tail].
    In the non-empty case the statements are [cur = tail; cur->next =
    smsg; smsg->prev = cur; smsg->next = NULL; tail = smsg]. *)
Definition put (head tail : option Addr) (smsg : Addr)
  (h : Addr -> StreamMsg)
  : Outcome (option Addr * option Addr * (Addr -> StreamMsg)) :=
  match head with
  | None =>
      Returns (Some smsg, Some smsg, set_prev smsg None (set_next smsg None h))
  | Some _ =>
      match tail with
      | None => NullDeref
      | Some cur =>
          Returns (head, Some smsg,
                   set_next smsg None
                     (set_prev smsg (Some cur)
                        (set_next cur (Some smsg) h)))
      end
  end.

(** Lines 399-468. *)
Definition AppLayerHandleTCPMsg (smsg : Addr) (m : Memory)
  : Outcome (Memory * Z) :=
  match flow (msgs m smsg) with
  | None => BugOn
  | Some f =>
      match protoctx m f with
      | Some ssn =>
          let q := sessions m ssn in
          if isset (flags (msgs m smsg)) STREAM_TOSERVER then
            match put (toserver_smsg_head q) (toserver_smsg_tail q) smsg
                    (msgs m) with
            | BugOn => BugOn
            | NullDeref => NullDeref
            | Returns (hd, tl, h) =>
                Returns
                  (mkMemory (protoctx m)
                     (upd (sessions m) ssn
                        (mkQueues hd tl (toclient_smsg_head q)
                           (toclient_smsg_tail q)))
                     (FlowDeReference smsg h) (pool m),
                   0)
            end
          else
            match put (toclient_smsg_head q) (toclient_smsg_tail q) smsg
                    (msgs m) with
            | BugOn => BugOn
            | NullDeref => NullDeref
            | Returns (hd, tl, h) =>
                Returns
                  (mkMemory (protoctx m)
                     (upd (sessions m) ssn
                        (mkQueues (toserver_smsg_head q)
                           (toserver_smsg_tail q) hd tl))
                     (FlowDeReference smsg h) (pool m),
                   0)
            end
      | None =>
          Returns
            (StreamMsgReturnToPool smsg
               (mkMemory (protoctx m) (sessions m)
                  (FlowDeReference smsg (msgs m)) (pool m)),
             0)
      end
  end.

(** The messages of [ms] handed over one after the other. *)
Fixpoint run (ms : list Addr) (m : Memory) : Outcome Memory :=
  match ms with
  | [] => Returns m
  | a :: ms' =>
      match AppLayerHandleTCPMsg a m with
      | BugOn => BugOn
      | NullDeref => NullDeref
      | Returns (m1, _) => run ms' m1
      end
  end.

(** Following [next] from a pointer, and [prev] from a pointer, for at
    most [fuel] messages. *)
Fixpoint walk_next (h : Addr -> StreamMsg) (fuel : nat) (cur : option Addr)
  : list Addr :=
  match fuel, cur with
  | S n, Some a => a :: walk_next h n (next (h a))
  | _, _ => []
  end.

Fixpoint walk_prev (h : Addr -> StreamMsg) (fuel : nat) (cur : option Addr)
  : list Addr :=
  match fuel, cur with
  | S n, Some a => a :: walk_prev h n (prev (h a))
  | _, _ => []
  end.

(** The messages of [l] are linked in this order, the first one having
    [prv] before it and the last one nothing after it. *)
Fixpoint chain (h : Addr -> StreamMsg) (prv : option Addr) (l : list Addr)
  : Prop :=
  match l with
  | [] => True
  | a :: r =>
      prev (h a) = prv /\ next (h a) = hd_error r /\ chain h (Some a) r
  end.

Fixpoint last_error (l : list Addr) : option Addr :=
  match l with
  | [] => None
  | a :: r => match last_error r with None => Some a | found => found end
  end.

(** [head], [tail] is a well-formed doubly-linked queue holding exactly
    the messages of [l], oldest first. *)
Definition queue (h : Addr -> StreamMsg) (head tail : option Addr)
  (l : list Addr) : Prop :=
  head = hd_error l /\ tail = last_error l /\ chain h None l /\ NoDup l.

Definition toserver_queue (m : Memory) (ssn : Addr) (l : list Addr) : Prop :=
  queue (msgs m) (toserver_smsg_head (sessions m ssn))
        (toserver_smsg_tail (sessions m ssn)) l.

Definition toclient_queue (m : Memory) (ssn : Addr) (l : list Addr) : Prop :=
  queue (msgs m) (toclient_smsg_head (sessions m ssn))
        (toclient_smsg_tail (sessions m ssn)) l.

(** The two queues of session [ssn] hold [lts] and [ltc] and share no
    message. *)
Definition session_queues (m : Memory) (ssn : Addr) (lts ltc : list Addr)
  : Prop :=
  toserver_queue m ssn lts /\ toclient_queue m ssn ltc
  /\ NoDup (lts ++ ltc).

(** The direction test of line 421 on a message. *)
Definition to_server (h : Addr -> StreamMsg) (a : Addr) : bool :=
  isset (flags (h a)) STREAM_TOSERVER.

(** A memory with one flow (at 0) attached to one session (at 0) whose
    queues are empty, and messages 1, 2, 3 referring to that flow: 1 and
    3 travel to the server, 2 to the client. *)
Definition memory0 : Memory :=
  mkMemory (fun f => if Nat.eqb f 0 then Some 0%nat else None)
           (fun _ => mkQueues None None None None)
           (fun a => mkStreamMsg (Some 0%nat)
                       (if Nat.eqb a 2 then STREAM_TOCLIENT
                        else STREAM_TOSERVER)
                       None None)
           [].

(** [memory0] after message 1 has been queued to the server. *)
Definition memory1 : Memory :=
  mkMemory (protoctx memory0)
           (upd (sessions memory0) 0%nat
              (mkQueues (Some 1%nat) (Some 1%nat) None None))
           (FlowDeReference 1%nat
              (set_prev 1%nat None (set_next 1%nat None (msgs memory0))))
           [].

(** The same with the flow detached from any session. *)
Definition memory_no_session : Memory :=
  mkMemory (fun _ => None) (sessions memory0) (msgs memory0) [].

End TcpMsg.

(** ** More vocabulary *)

(** How many times a log records the detector, and the reassembler. *)
Definition detector_calls (cs : list Call) : nat :=
  List.length
    (filter (fun c => match c with CallAlpdGetProto _ _ _ _ => true
                              | _ => false end) cs).

Definition reassembler_calls (cs : list Call) : nat :=
  List.length
    (filter (fun c => match c with CallReassemble _ _ _ => true
                              | _ => false end) cs).

(** The reassembler of [E], in either mode, never turns a known
    per-direction protocol into UNKNOWN. *)
Definition replay_keeps_known {A} (E : Collaborators A) : Prop :=
  forall st p s st' p' r (slot : Slot),
    StreamTcpReassembleAppLayer E st p s = Some (st', p', r)
    \/ StreamTcpReassembleInlineAppLayer E st p s = Some (st', p', r) ->
    deref (flow st) slot <> ALPROTO_UNKNOWN ->
    deref (flow st') slot <> ALPROTO_UNKNOWN.

(** What a stretch of the dispatcher that does not call the reassembler
    may do to the packet, the log and data_first_seen_dir: it leaves
    [p->flowflags] and the payload alone, appends at most [n] events,
    logs no reassembler call, and writes data_first_seen_dir, if at all,
    with the sentinel. *)
Definition own_writes_only {A} (n : nat) (st : State A) (p : Packet)
  (st' : State A) (p' : Packet) : Prop :=
  flowflags p' = flowflags p
  /\ payload p' = payload p
  /\ payload_len p' = payload_len p
  /\ (exists evs,
         app_layer_events p' = app_layer_events p ++ evs
         /\ (List.length evs <= n)%nat)
  /\ reassembler_calls (calls st') = reassembler_calls (calls st)
  /\ (data_first_seen_dir (ssn st') = data_first_seen_dir (ssn st)
      \/ data_first_seen_dir (ssn st')
         = APP_LAYER_DATA_ALREADY_SENT_TO_APP_LAYER).

(** A UDP flow on which detection will not run again. *)
Definition udp_settled {A} (f : Flow A) : Prop :=
  alproto f <> ALPROTO_UNKNOWN
  \/ isset (f_flags f) FLOW_ALPROTO_DETECT_DONE = true.

(** ** Where calls of the scenarios end *)

Module Traces.

Import Scenario.

(** After a request to the server on a fresh session on which data was
    first seen to the server. *)
Definition state_http_parsed : State unit :=
  mkState (mkFlow IPPROTO_TCP 0 ALPROTO_HTTP ALPROTO_HTTP ALPROTO_UNKNOWN
                  (0, 0) tt)
          (mkSession
             (mkStream STREAMTCP_STREAM_FLAG_APPPROTO_DETECTION_COMPLETED)
             (mkStream 0)
             APP_LAYER_DATA_ALREADY_SENT_TO_APP_LAYER false false)
          [CallAlpParseL7Data ALPROTO_HTTP flags_B GET 0 5;
           CallAlpdGetProto GET 5 IPPROTO_TCP flags_B].

(** Where [banner_then_request] ends from [state_ssh_seen]. *)
Definition state_ssh_won : State unit :=
  mkState (mkFlow IPPROTO_TCP 0 ALPROTO_SSH ALPROTO_SSH ALPROTO_SSH (0, 0) tt)
          (mkSession
             (mkStream STREAMTCP_STREAM_FLAG_APPPROTO_DETECTION_COMPLETED)
             (mkStream STREAMTCP_STREAM_FLAG_APPPROTO_DETECTION_COMPLETED)
             APP_LAYER_DATA_ALREADY_SENT_TO_APP_LAYER false false)
          [CallAlpParseL7Data ALPROTO_SSH flags_B GET 0 5;
           CallAlpdGetProto GET 5 IPPROTO_TCP flags_B;
           CallAlpParseL7Data ALPROTO_SSH flags_A SSH_banner 0 7].

Definition results_ssh_won : list (Packet * Z) :=
  [(pkt FLOW_PKT_TOSERVER, 0);
   (mkPacket FLOW_PKT_TOCLIENT [] 0
      [APPLAYER_MISMATCH_PROTOCOL_BOTH_DIRECTIONS], 0)].

(** The to-server side is known as HTTP and nothing was sent to the
    application layer yet. *)
Definition state_http_unsent : State unit :=
  mkState (mkFlow IPPROTO_TCP 0 ALPROTO_HTTP ALPROTO_HTTP ALPROTO_UNKNOWN
                  (0, 0) tt)
          (ssn0 STREAM_TOSERVER) [].

(** [state_http_unsent] after unrecognised bytes to the client. *)
Definition state_http_refused : State unit :=
  mkState (mkFlow IPPROTO_TCP FLOW_NO_APPLAYER_INSPECTION
                  ALPROTO_HTTP ALPROTO_HTTP ALPROTO_UNKNOWN (0, 0) tt)
          (mkSession
             (mkStream STREAMTCP_STREAM_FLAG_APPPROTO_DETECTION_COMPLETED)
             (mkStream STREAMTCP_STREAM_FLAG_APPPROTO_DETECTION_COMPLETED)
             STREAM_TOSERVER false false)
          [CallAlpdGetProto garbage 7 IPPROTO_TCP flags_A].

(** [state_carry] after 7 unrecognised bytes to the server. *)
Definition state_carry_parsed : State unit :=
  mkState (mkFlow IPPROTO_TCP 0 ALPROTO_SSH ALPROTO_UNKNOWN ALPROTO_SSH
                  (7, 0) tt)
          (ssn state_carry)
          [CallAlpParseL7Data ALPROTO_SSH flags_B garbage 3 4;
           CallAlpdGetProto garbage 7 IPPROTO_TCP flags_B].

(** A request to the server on a fresh session on which data was first
    seen to the client, after the replay of the opposing stream failed. *)
Definition state_replay_failed : State unit :=
  mkState (mkFlow IPPROTO_TCP FLOW_NO_APPLAYER_INSPECTION
                  ALPROTO_HTTP ALPROTO_HTTP ALPROTO_UNKNOWN (0, 0) tt)
          (mkSession
             (mkStream STREAMTCP_STREAM_FLAG_APPPROTO_DETECTION_COMPLETED)
             (mkStream STREAMTCP_STREAM_FLAG_APPPROTO_DETECTION_COMPLETED)
             STREAM_TOCLIENT false false)
          [CallReassemble false StreamServer FLOW_PKT_TOSERVER;
           CallAlpdGetProto GET 5 IPPROTO_TCP flags_B].

(** A fresh session on which data was first seen to the server, with
    3 bytes of the to-server stream already scanned by detection. *)
Definition state_rescan : State unit :=
  mkState (mkFlow IPPROTO_TCP 0 ALPROTO_UNKNOWN ALPROTO_UNKNOWN
                  ALPROTO_UNKNOWN (3, 0) tt)
          (ssn0 STREAM_TOSERVER) [].

End Traces.

(** ** Bit lemmas *)

Lemma land_lor_same (x m : Z) : Z.land (Z.lor x m) m = m.
Proof.
  apply Z.bits_inj'; intros n Hn.
  rewrite Z.land_spec, Z.lor_spec.
  destruct (Z.testbit x n), (Z.testbit m n); reflexivity.
Qed.

Lemma land_clear_same (x m : Z) : Z.land (Z.land x (Z.lnot m)) m = 0.
Proof.
  apply Z.bits_inj'; intros n Hn.
  rewrite !Z.land_spec, Z.lnot_spec, Z.bits_0 by assumption.
  destruct (Z.testbit x n), (Z.testbit m n); reflexivity.
Qed.

Lemma isset_setbits (x m : Z) : m <> 0 -> isset (setbits x m) m = true.
Proof.
  intros Hm. unfold isset, setbits. rewrite land_lor_same.
  apply negb_true_iff, Z.eqb_neq, Hm.
Qed.

Lemma isset_clearbits (x m : Z) : isset (clearbits x m) m = false.
Proof.
  unfold isset, clearbits. rewrite land_clear_same. reflexivity.
Qed.

(** Case analysis on every test the goal branches on. *)
Ltac case_ifs :=
  repeat match goal with
         | |- context [if ?b then _ else _] => destruct b
         end.

(** The sentinel names neither direction. *)
Lemma sentinel_names_no_direction :
  isset APP_LAYER_DATA_ALREADY_SENT_TO_APP_LAYER
        (Z.lor STREAM_TOSERVER STREAM_TOCLIENT) = false.
Proof. reflexivity. Qed.

(** ** The early exit *)

Section EarlyExit.

Context {A : Type}.
Variable E : Collaborators A.

Lemma tcp_no_inspection (st : State A) (p : Packet) (stream : StreamSel)
  (data : list byte) (data_len flags : Z) :
  no_inspection (flow st) = true ->
  AppLayerHandleTCPData E st p stream data data_len flags = Some (st, p, 0).
Proof.
  unfold no_inspection, AppLayerHandleTCPData. intros ->. reflexivity.
Qed.

Lemma run_tcp_no_inspection (cs : list TcpCall) (st : State A) :
  no_inspection (flow st) = true ->
  run_tcp E cs st = Some (st, map (fun c => (c_pkt c, 0)) cs).
Proof.
  intros H. induction cs as [|c cs IH]; simpl.
  - reflexivity.
  - rewrite tcp_no_inspection by exact H. rewrite IH. reflexivity.
Qed.

(** The UDP dispatcher calls no collaborator exactly when the protocol is
    unknown and detection has been attempted; no other flow flag is read. *)
Lemma udp_quiet_iff (p : Packet) (f : Flow A) (cs : list Call) :
  snd (fst (AppLayerHandleUdp E p f cs)) = cs <->
  alproto f = ALPROTO_UNKNOWN /\
  isset (f_flags f) FLOW_ALPROTO_DETECT_DONE = true.
Proof.
  assert (Hcons : forall (c : Call) (l : list Call), c :: l <> l).
  { intros c l Hc. apply (f_equal (@List.length Call)) in Hc.
    simpl in Hc. lia. }
  assert (Hcons2 : forall (c d : Call) (l : list Call), c :: d :: l <> l).
  { intros c d l Hc. apply (f_equal (@List.length Call)) in Hc.
    simpl in Hc. lia. }
  unfold AppLayerHandleUdp.
  destruct (alproto f =? ALPROTO_UNKNOWN) eqn:Ha;
    destruct (isset (f_flags f) FLOW_ALPROTO_DETECT_DONE) eqn:Hd; simpl.
  - apply Z.eqb_eq in Ha. split; auto.
  - match goal with
    | |- context [if ?b then _ else _] => destruct b
    end; simpl; split; intros H.
    + exfalso. exact (Hcons2 _ _ _ H).
    + destruct H; discriminate.
    + exfalso. exact (Hcons _ _ H).
    + destruct H; discriminate.
  - apply Z.eqb_neq in Ha. split; intros H.
    + exfalso. exact (Hcons _ _ H).
    + destruct H; contradiction.
  - apply Z.eqb_neq in Ha. split; intros H.
    + exfalso. exact (Hcons _ _ H).
    + destruct H; contradiction.
Qed.

End EarlyExit.

(** C5 (as amended).  On a flow with NO_APPLAYER_INSPECTION set every TCP
    dispatch call, and so every sequence of them, returns 0 at once and
    leaves the flow, the session, the packet and the call log as they
    were: neither the detector nor the parser is invoked.  The UDP
    dispatcher does not read that flag: on such a flow it invokes no
    collaborator exactly when the protocol is UNKNOWN and
    ALPROTO_DETECT_DONE is set. *)
Theorem C5_no_inspection_gates_tcp_not_udp {A : Type} (E : Collaborators A)
  (st : State A) :
  no_inspection (flow st) = true ->
  (forall p stream data data_len flags,
      AppLayerHandleTCPData E st p stream data data_len flags
      = Some (st, p, 0))
  /\ (forall cs,
         run_tcp E cs st = Some (st, map (fun c => (c_pkt c, 0)) cs))
  /\ (forall p cs,
         snd (fst (AppLayerHandleUdp E p (flow st) cs)) = cs <->
         alproto (flow st) = ALPROTO_UNKNOWN /\
         isset (f_flags (flow st)) FLOW_ALPROTO_DETECT_DONE = true).
Proof.
  intros H. split; [|split].
  - intros. apply tcp_no_inspection, H.
  - intros. apply run_tcp_no_inspection, H.
  - intros. apply udp_quiet_iff.
Qed.

(** A TCP chunk on a flow that carries NO_APPLAYER_INSPECTION. *)
Lemma C5_no_inspection_gates_tcp_not_udp_witness :
  no_inspection (flow (mkState Scenario.udp_flow_no_inspection
                         (Scenario.ssn0 0) [])) = true
  /\ AppLayerHandleTCPData (Scenario.sniffer 0 0)
       (mkState Scenario.udp_flow_no_inspection (Scenario.ssn0 0) [])
       (Scenario.pkt FLOW_PKT_TOSERVER) StreamServer Scenario.GET 5
       (Z.lor STREAM_TOCLIENT STREAM_START)
     = Some (mkState Scenario.udp_flow_no_inspection (Scenario.ssn0 0) [],
             Scenario.pkt FLOW_PKT_TOSERVER, 0).
Proof.
  split.
  - reflexivity.
  - apply (C5_no_inspection_gates_tcp_not_udp (Scenario.sniffer 0 0)
             (mkState Scenario.udp_flow_no_inspection (Scenario.ssn0 0) [])).
    reflexivity.
Defined.

(** C5 fails as stated for UDP: on a UDP flow with NO_APPLAYER_INSPECTION
    set, a datagram is still handed to the detector and then to the
    parser. *)
Lemma C5_udp_ignores_no_inspection :
  no_inspection Scenario.udp_flow_no_inspection = true
  /\ snd (fst (AppLayerHandleUdp (Scenario.sniffer 0 0) Scenario.datagram
                 Scenario.udp_flow_no_inspection []))
     = [CallAlpParseL7Data Scenario.ALPROTO_HTTP STREAM_TOSERVER
          Scenario.GET 0 5;
        CallAlpdGetProto Scenario.GET 5 IPPROTO_UDP STREAM_TOSERVER].
Proof. split; reflexivity. Qed.

(** ** Flags raised by the dispatcher *)

Lemma no_inspection_set {A} (f : Flow A) :
  no_inspection (FlowSetSessionNoApplayerInspectionFlag f) = true.
Proof.
  unfold no_inspection, FlowSetSessionNoApplayerInspectionFlag. simpl.
  apply isset_setbits. discriminate.
Qed.

Lemma detection_completed_set (x : Z) :
  detection_completed
    (mkStream (setbits x STREAMTCP_STREAM_FLAG_APPPROTO_DETECTION_COMPLETED))
  = true.
Proof. apply isset_setbits. discriminate. Qed.


(** C6.  In Case S, when detection fails on this direction, the other
    direction is UNKNOWN too, and after the attempt PM_DONE and PP_DONE
    hold for both directions, the call sets NO_APPLAYER_INSPECTION, marks
    both streams' detection completed, sets data_first_seen_dir to the
    sentinel and returns 0; the parser is not called. *)
Theorem C6_detection_exhausted {A : Type} (E : Collaborators A)
  (st : State A) (p : Packet) (stream : StreamSel)
  (data : list byte) (data_len flags : Z) :
  let res := AlpdGetProto E (flow st) data data_len IPPROTO_TCP flags in
  let fd := touch (flow st) (fst res) in
  no_inspection (flow st) = false ->
  deref (flow st) (this_slot flags) = ALPROTO_UNKNOWN ->
  isset flags STREAM_GAP = false ->
  isset flags STREAM_START = true ->
  snd res = ALPROTO_UNKNOWN ->
  deref (flow st) (other_slot flags) = ALPROTO_UNKNOWN ->
  FLOW_IS_PM_DONE fd STREAM_TOSERVER = true ->
  FLOW_IS_PP_DONE fd STREAM_TOSERVER = true ->
  FLOW_IS_PM_DONE fd STREAM_TOCLIENT = true ->
  FLOW_IS_PP_DONE fd STREAM_TOCLIENT = true ->
  exists st',
    AppLayerHandleTCPData E st p stream data data_len flags = Some (st', p, 0)
    /\ no_inspection (flow st') = true
    /\ detection_completed (client (ssn st')) = true
    /\ detection_completed (server (ssn st')) = true
    /\ data_first_seen_dir (ssn st') = APP_LAYER_DATA_ALREADY_SENT_TO_APP_LAYER
    /\ calls st' = CallAlpdGetProto data data_len IPPROTO_TCP flags :: calls st.
Proof.
  intros res fd Hni Hthis Hgap Hstart Hdet Hother Hpm1 Hpp1 Hpm2 Hpp2.
  unfold AppLayerHandleTCPData.
  unfold no_inspection in Hni. rewrite Hni.
  unfold this_slot in Hthis. unfold other_slot in Hother.
  rewrite Hgap, Hstart.
  unfold stream_start. fold res. rewrite Hdet.
  unfold FLOW_IS_PM_DONE, FLOW_IS_PP_DONE in *.
  destruct (isset flags STREAM_TOSERVER) eqn:Hts; rewrite Hthis; simpl;
    simpl in Hother; rewrite Hother; simpl;
    unfold neither_direction_known, FLOW_IS_PM_DONE, FLOW_IS_PP_DONE;
    simpl in *; rewrite Hpm1, Hpp1, Hpm2, Hpp2; simpl;
    (eexists; split; [reflexivity|]); simpl;
    (split; [apply no_inspection_set|]);
    (split; [apply detection_completed_set|]);
    (split; [apply detection_completed_set|]);
    split; reflexivity.
Qed.

(** Unidentified to-client bytes after which the detector reports every
    strategy done in both directions. *)
Lemma C6_detection_exhausted_witness :
  exists st',
    AppLayerHandleTCPData
      (mkCollaborators Scenario.detect_exhausted (Scenario.parse 0)
         Scenario.first_data_dir Scenario.cleanup false
         (Scenario.idle 0) (Scenario.idle 0))
      (Scenario.state0 STREAM_TOCLIENT) (Scenario.pkt FLOW_PKT_TOSERVER)
      StreamServer Scenario.garbage 7 (Z.lor STREAM_TOCLIENT STREAM_START)
    = Some (st', Scenario.pkt FLOW_PKT_TOSERVER, 0)
    /\ no_inspection (flow st') = true
    /\ detection_completed (client (ssn st')) = true
    /\ detection_completed (server (ssn st')) = true
    /\ data_first_seen_dir (ssn st') = APP_LAYER_DATA_ALREADY_SENT_TO_APP_LAYER
    /\ calls st'
       = CallAlpdGetProto Scenario.garbage 7 IPPROTO_TCP
           (Z.lor STREAM_TOCLIENT STREAM_START)
         :: calls (Scenario.state0 STREAM_TOCLIENT).
Proof.
  apply (C6_detection_exhausted
           (mkCollaborators Scenario.detect_exhausted (Scenario.parse 0)
              Scenario.first_data_dir Scenario.cleanup false
              (Scenario.idle 0) (Scenario.idle 0))
           (Scenario.state0 STREAM_TOCLIENT) (Scenario.pkt FLOW_PKT_TOSERVER)
           StreamServer Scenario.garbage 7 (Z.lor STREAM_TOCLIENT STREAM_START));
    reflexivity.
Defined.

(** ** The UDP dispatcher after the first datagram *)

Section UdpLater.

Context {A : Type}.
Variable E : Collaborators A.

(** Once the protocol is known, or detection was attempted, a datagram is
    forwarded when the protocol is known and dropped otherwise; the
    detector is not called and the protocol does not change. *)
Lemma udp_settled_step (p : Packet) (f : Flow A) (cs : list Call) :
  alproto f <> ALPROTO_UNKNOWN
  \/ isset (f_flags f) FLOW_ALPROTO_DETECT_DONE = true ->
  let out := AppLayerHandleUdp E p f cs in
  alproto (fst (fst out)) = alproto f
  /\ snd (fst out) = forwarded (alproto f) p ++ cs
  /\ (alproto f = ALPROTO_UNKNOWN -> fst (fst out) = f).
Proof.
  intros H. unfold AppLayerHandleUdp, forwarded, udp_dir, setbits.
  destruct (alproto f =? ALPROTO_UNKNOWN) eqn:Ha.
  - destruct H as [H|H]; [apply Z.eqb_neq in H; congruence|].
    rewrite H. simpl. auto.
  - simpl. destruct (isset (flowflags p) FLOW_PKT_TOSERVER); simpl;
      (split; [reflexivity|split; [reflexivity|]]);
      intros Hu; apply Z.eqb_neq in Ha; contradiction.
Qed.

Lemma run_udp_settled (ps : list Packet) :
  forall (f : Flow A) (cs : list Call),
    alproto f <> ALPROTO_UNKNOWN
    \/ isset (f_flags f) FLOW_ALPROTO_DETECT_DONE = true ->
    alproto (fst (run_udp E ps f cs)) = alproto f
    /\ snd (run_udp E ps f cs)
       = flat_map (forwarded (alproto f)) (rev ps) ++ cs.
Proof.
  induction ps as [|p ps IH]; intros f cs H; simpl.
  - auto.
  - destruct (udp_settled_step p f cs H) as (Ha & Hc & Hsame).
    assert (H' : alproto (fst (fst (AppLayerHandleUdp E p f cs)))
                 <> ALPROTO_UNKNOWN
                 \/ isset (f_flags (fst (fst (AppLayerHandleUdp E p f cs))))
                      FLOW_ALPROTO_DETECT_DONE = true).
    { destruct H as [H|H].
      - left. rewrite Ha. exact H.
      - destruct (Z.eq_dec (alproto f) ALPROTO_UNKNOWN) as [Hu|Hu].
        + right. rewrite (Hsame Hu). exact H.
        + left. rewrite Ha. exact Hu. }
    destruct (IH _ (snd (fst (AppLayerHandleUdp E p f cs))) H') as (IHa & IHc).
    split.
    + rewrite IHa. exact Ha.
    + rewrite IHc, Ha, Hc, flat_map_app. simpl.
      rewrite app_nil_r, <- app_assoc. reflexivity.
Qed.

End UdpLater.

(** C7.  A UDP dispatch call on a flow whose protocol is UNKNOWN and
    whose ALPROTO_DETECT_DONE is unset runs detection once, on the
    datagram payload, with transport UDP and the packet's direction flag;
    ALPROTO_DETECT_DONE is then raised whether or not a protocol was
    found; if one was found the same payload goes to the parser for that
    protocol and the parser's return code is returned, else 0 is
    returned.  On every later call the detector is not called again and
    the payload is forwarded to the parser if and only if flow.alproto is
    not UNKNOWN. *)
Theorem C7_udp_detect_once_then_forward {A : Type} (E : Collaborators A)
  (p : Packet) (f : Flow A) (cs : list Call) :
  let detect_call :=
    CallAlpdGetProto (payload p) (payload_len p) IPPROTO_UDP (udp_dir p) in
  let res :=
    AlpdGetProto E f (payload p) (payload_len p) IPPROTO_UDP (udp_dir p) in
  let f1 :=
    set_f_flags (setbits (fst (fst res)) FLOW_ALPROTO_DETECT_DONE)
      (set_alproto (snd res) (touch f (fst res))) in
  let pr :=
    AlpParseL7Data E f1 (snd res) (udp_dir p) (payload p) 0 (payload_len p) in
  let out := AppLayerHandleUdp E p f cs in
  alproto f = ALPROTO_UNKNOWN ->
  isset (f_flags f) FLOW_ALPROTO_DETECT_DONE = false ->
  isset (f_flags f1) FLOW_ALPROTO_DETECT_DONE = true
  /\ (snd res = ALPROTO_UNKNOWN -> out = (f1, detect_call :: cs, 0))
  /\ (snd res <> ALPROTO_UNKNOWN ->
      out = (touch f1 (fst pr),
             CallAlpParseL7Data (snd res) (udp_dir p)
               (payload p) 0 (payload_len p) :: detect_call :: cs,
             snd pr))
  /\ (forall later : list Packet,
         alproto (fst (run_udp E later (fst (fst out)) (snd (fst out))))
         = snd res
         /\ snd (run_udp E later (fst (fst out)) (snd (fst out)))
            = flat_map (forwarded (snd res)) (rev later) ++ snd (fst out)).
Proof.
  intros detect_call res f1 pr out Ha Hd.
  assert (Hflags :
            (if isset (flowflags p) FLOW_PKT_TOSERVER
             then setbits 0 STREAM_TOSERVER else setbits 0 STREAM_TOCLIENT)
            = udp_dir p).
  { unfold udp_dir. destruct (isset (flowflags p) FLOW_PKT_TOSERVER);
      reflexivity. }
  assert (Hdone : isset (f_flags f1) FLOW_ALPROTO_DETECT_DONE = true).
  { unfold f1. simpl. apply isset_setbits. discriminate. }
  assert (Hfail : snd res = ALPROTO_UNKNOWN -> out = (f1, detect_call :: cs, 0)).
  { intros Hu. unfold out, AppLayerHandleUdp. rewrite Hflags. fold res.
    rewrite Ha, Hd. simpl. rewrite Hu. simpl.
    unfold f1. rewrite Hu. reflexivity. }
  assert (Hok : snd res <> ALPROTO_UNKNOWN ->
                out = (touch f1 (fst pr),
                       CallAlpParseL7Data (snd res) (udp_dir p)
                         (payload p) 0 (payload_len p) :: detect_call :: cs,
                       snd pr)).
  { intros Hu. unfold out, AppLayerHandleUdp. rewrite Hflags. fold res.
    rewrite Ha, Hd. simpl.
    apply Z.eqb_neq in Hu. rewrite Hu. simpl. reflexivity. }
  split; [exact Hdone|]. split; [exact Hfail|]. split; [exact Hok|].
  intros later.
  destruct (Z.eq_dec (snd res) ALPROTO_UNKNOWN) as [Hu|Hu].
  - rewrite (Hfail Hu). simpl.
    assert (Hf1 : alproto f1 = snd res) by reflexivity.
    rewrite <- Hf1. apply run_udp_settled. right. exact Hdone.
  - rewrite (Hok Hu). simpl.
    assert (Hf1 : alproto (touch f1 (fst pr)) = snd res) by reflexivity.
    rewrite <- Hf1. apply run_udp_settled. left. rewrite Hf1. exact Hu.
Qed.

(** The first datagram of a UDP flow, identified as HTTP. *)
Lemma C7_udp_detect_once_then_forward_witness :
  alproto Scenario.udp_flow0 = ALPROTO_UNKNOWN
  /\ isset (f_flags Scenario.udp_flow0) FLOW_ALPROTO_DETECT_DONE = false
  /\ AppLayerHandleUdp (Scenario.sniffer 0 0) Scenario.datagram
       Scenario.udp_flow0 []
     = (mkFlow IPPROTO_UDP FLOW_ALPROTO_DETECT_DONE Scenario.ALPROTO_HTTP
          ALPROTO_UNKNOWN ALPROTO_UNKNOWN (0, 0) tt,
        [CallAlpParseL7Data Scenario.ALPROTO_HTTP STREAM_TOSERVER
           Scenario.GET 0 5;
         CallAlpdGetProto Scenario.GET 5 IPPROTO_UDP STREAM_TOSERVER],
        0).
Proof.
  split; [reflexivity|]. split; [reflexivity|].
  destruct (C7_udp_detect_once_then_forward (Scenario.sniffer 0 0)
              Scenario.datagram Scenario.udp_flow0 [] eq_refl eq_refl)
    as (_ & _ & Hfound & _).
  apply Hfound. discriminate.
Defined.

(** ** Thread-context creation *)

(** When the context is allocated, a failure to obtain either handle
    returns NULL and leaves no block and no handle outstanding. *)
Lemma get_ctx_handle_failure_releases (a : ThreadCtx.Answers)
  (h : ThreadCtx.Heap) :
  ThreadCtx.SCMalloc a = true ->
  ThreadCtx.AlpdGetCtxThread a = None \/ ThreadCtx.AlpGetCtxThread a = None ->
  ThreadCtx.AppLayerGetCtxThread a h = ThreadCtx.Returns None h.
Proof.
  intros Hm Hf. unfold ThreadCtx.AppLayerGetCtxThread. rewrite Hm. simpl.
  destruct h as [b d q].
  destruct (ThreadCtx.AlpdGetCtxThread a) as [x|]; simpl.
  - destruct Hf as [Hf|Hf]; [discriminate|]. rewrite Hf. reflexivity.
  - reflexivity.
Qed.

(** C8 (the code at the failing input).  When SCMalloc returns NULL the
    error path calls AppLayerDestroyCtxThread on the null context, whose
    first statement reads a field through it: creation does not return. *)
Theorem C8_alloc_failure_dereferences_null (d q : option ThreadCtx.Handle)
  (h : ThreadCtx.Heap) :
  ThreadCtx.AppLayerGetCtxThread (ThreadCtx.mkAnswers false d q) h
  = ThreadCtx.NullDeref.
Proof. reflexivity. Qed.

(** ** Case S: the path to the direction-of-first-data check *)

Section CaseS.

Context {A : Type}.
Variable E : Collaborators A.

Lemma deref_assign_same (f : Flow A) (s : Slot) (v : AppProto) :
  deref (assign s v f) s = v.
Proof. destruct s; reflexivity. Qed.

Lemma deref_this_other (f : Flow A) (flags : Z) (v : AppProto) :
  deref (assign (this_slot flags) v f) (other_slot flags)
  = deref f (other_slot flags).
Proof.
  unfold this_slot, other_slot.
  destruct (isset flags STREAM_TOSERVER); reflexivity.
Qed.

(** A stream initializer on a flow open to inspection, whose slot for
    this direction is UNKNOWN and which carries no gap, takes Case S. *)
Lemma tcp_case_S (st : State A) (p : Packet) (stream : StreamSel)
  (data : list byte) (data_len flags : Z) :
  no_inspection (flow st) = false ->
  deref (flow st) (this_slot flags) = ALPROTO_UNKNOWN ->
  isset flags STREAM_GAP = false ->
  isset flags STREAM_START = true ->
  AppLayerHandleTCPData E st p stream data data_len flags
  = stream_start E st p stream (this_slot flags) (other_slot flags)
      (dir_of flags) data data_len flags.
Proof.
  intros Hni Hthis Hgap Hstart.
  unfold AppLayerHandleTCPData. unfold no_inspection in Hni. rewrite Hni.
  fold (this_slot flags). fold (other_slot flags). fold (dir_of flags).
  rewrite Hthis, Hgap, Hstart. reflexivity.
Qed.

(** When detection answers a protocol, the call continues at line 207
    from [detected]. *)
Lemma tcp_detected (st : State A) (p : Packet) (stream : StreamSel)
  (data : list byte) (data_len flags : Z) :
  no_inspection (flow st) = false ->
  deref (flow st) (this_slot flags) = ALPROTO_UNKNOWN ->
  isset flags STREAM_GAP = false ->
  isset flags STREAM_START = true ->
  snd (AlpdGetProto E (flow st) data data_len IPPROTO_TCP flags)
  <> ALPROTO_UNKNOWN ->
  AppLayerHandleTCPData E st p stream data data_len flags
  = after_detection E
      (fst (detected E st p stream data data_len flags))
      (snd (detected E st p stream data data_len flags))
      stream (this_slot flags) (other_slot flags) (dir_of flags)
      (carry_of (flow st) data_len flags) data data_len flags.
Proof.
  intros Hni Hthis Hgap Hstart Hd.
  rewrite tcp_case_S by assumption.
  unfold stream_start. rewrite deref_assign_same.
  apply Z.eqb_neq in Hd. rewrite Hd. reflexivity.
Qed.

(** Without a mismatch the packet is untouched and the flow carries the
    detected protocol in this direction's slot and in [alproto]. *)
Lemma detected_no_mismatch (st : State A) (p : Packet) (stream : StreamSel)
  (data : list byte) (data_len flags : Z) :
  let res := AlpdGetProto E (flow st) data data_len IPPROTO_TCP flags in
  deref (flow st) (other_slot flags) = ALPROTO_UNKNOWN
  \/ deref (flow st) (other_slot flags) = snd res ->
  detected E st p stream data data_len flags
  = (mkState
       (set_alproto (snd res)
          (assign (this_slot flags) (snd res) (touch (flow st) (fst res))))
       (StreamTcpSetStreamFlagAppProtoDetectionCompleted stream (ssn st))
       (CallAlpdGetProto data data_len IPPROTO_TCP flags :: calls st),
     p).
Proof.
  intros res H. unfold detected, resolve_mismatch. fold res.
  rewrite deref_this_other, deref_assign_same.
  assert (Hc : negb (deref (touch (flow st) (fst res)) (other_slot flags)
                     =? ALPROTO_UNKNOWN)
               && negb (deref (touch (flow st) (fst res)) (other_slot flags)
                        =? snd res) = false).
  { replace (deref (touch (flow st) (fst res)) (other_slot flags))
      with (deref (flow st) (other_slot flags))
      by (destruct (other_slot flags); reflexivity).
    destruct H as [H|H]; rewrite H.
    - reflexivity.
    - rewrite Z.eqb_refl. apply andb_false_r. }
  rewrite Hc. simpl. rewrite deref_assign_same. reflexivity.
Qed.

Lemma enters_check_after_detection (st2 : State A) (p2 : Packet)
  (stream : StreamSel) (alproto_p alproto_otherdir_p : Slot)
  (dir carry : Z) (data : list byte) (data_len flags : Z)
  (st_r : State A) (p_r : Packet) :
  enters_check E st2 p2 stream flags st_r p_r ->
  after_detection E st2 p2 stream alproto_p alproto_otherdir_p dir carry
    data data_len flags
  = first_data_check E st_r p_r stream alproto_p alproto_otherdir_p dir carry
      data data_len flags.
Proof.
  unfold enters_check, after_detection.
  intros [(Hw & -> & ->)|(Hw & ret & Hr & Hret)]; rewrite Hw.
  - reflexivity.
  - rewrite Hr. apply Z.ltb_ge in Hret. rewrite Hret. reflexivity.
Qed.

(** The wrong-direction exit of lines 281-290. *)
Lemma first_data_check_wrong_direction (st : State A) (p : Packet)
  (stream : StreamSel) (alproto_p alproto_otherdir_p : Slot)
  (dir carry : Z) (data : list byte) (data_len flags : Z) :
  let required :=
    AlpGetFirstDataDir E (proto (flow st)) (deref (flow st) alproto_p) in
  data_first_seen_dir (ssn st) <> APP_LAYER_DATA_ALREADY_SENT_TO_APP_LAYER ->
  required <> 0 ->
  isset required (data_first_seen_dir (ssn st)) = false ->
  first_data_check E st p stream alproto_p alproto_otherdir_p dir carry
    data data_len flags
  = Some (mkState (FlowSetSessionNoApplayerInspectionFlag (flow st))
            (set_data_first_seen_dir APP_LAYER_DATA_ALREADY_SENT_TO_APP_LAYER
               (both_streams_completed (ssn st)))
            (calls st),
          AppLayerDecoderEventsSetEventRaw p
            APPLAYER_WRONG_DIRECTION_FIRST_DATA,
          -1).
Proof.
  intros required Hs Hr Hd. unfold first_data_check. fold required.
  apply Z.eqb_neq in Hs, Hr. rewrite Hs, Hr, Hd. reflexivity.
Qed.


(** The parser call of lines 309-315, reached when the check passes or
    is skipped. *)
Lemma first_data_check_parse (st : State A) (p : Packet)
  (stream : StreamSel) (alproto_p alproto_otherdir_p : Slot)
  (dir carry : Z) (data : list byte) (data_len flags : Z) :
  let required :=
    AlpGetFirstDataDir E (proto (flow st)) (deref (flow st) alproto_p) in
  data_first_seen_dir (ssn st) = APP_LAYER_DATA_ALREADY_SENT_TO_APP_LAYER
  \/ required = 0
  \/ (isset required (data_first_seen_dir (ssn st)) = true
      /\ isset required flags = true) ->
  first_data_check E st p stream alproto_p alproto_otherdir_p dir carry
    data data_len flags
  = parse_detected E st p alproto_p dir carry data data_len flags.
Proof.
  intros required H. unfold first_data_check. fold required.
  destruct (data_first_seen_dir (ssn st)
            =? APP_LAYER_DATA_ALREADY_SENT_TO_APP_LAYER) eqn:Hs; simpl.
  - reflexivity.
  - destruct H as [H|[H|[H1 H2]]].
    + apply Z.eqb_eq in H. congruence.
    + rewrite H. reflexivity.
    + rewrite H1, H2. simpl. rewrite !andb_false_r. reflexivity.
Qed.

End CaseS.

(** ** Wrong direction first, and the retry reset *)

(** C1 (as amended).  Call B of the scenario: the flow is open to
    inspection with both slots UNKNOWN, data was first seen TOCLIENT, B
    arrives TOSERVER|START and the detector answers a protocol.  The
    dispatcher forces the replay of the to-client stream.  If the replay
    fails, or returns with data_first_seen_dir still TOCLIENT while the
    parser of the detected protocol wants TOSERVER data first, call B
    does not invoke the parser, sets NO_APPLAYER_INSPECTION, marks both
    streams' detection completed and returns -1; in the second case it
    emits WRONG_DIRECTION_FIRST_DATA on its packet and sets
    data_first_seen_dir to the sentinel: the general rule applies. *)
Theorem C1_wrong_direction_first_fails {A : Type} (E : Collaborators A)
  (st : State A) (p : Packet) (stream : StreamSel)
  (data : list byte) (data_len : Z)
  (st_r : State A) (p_r : Packet) (ret : Z) :
  let flags := Z.lor STREAM_TOSERVER STREAM_START in
  no_inspection (flow st) = false ->
  alproto_ts (flow st) = ALPROTO_UNKNOWN ->
  alproto_tc (flow st) = ALPROTO_UNKNOWN ->
  data_first_seen_dir (ssn st) = STREAM_TOCLIENT ->
  snd (AlpdGetProto E (flow st) data data_len IPPROTO_TCP flags)
  <> ALPROTO_UNKNOWN ->
  replay_opposing E (fst (detected E st p stream data data_len flags)) p stream
  = Some (st_r, p_r, ret) ->
  ret < 0
  \/ (data_first_seen_dir (ssn st_r) = STREAM_TOCLIENT
      /\ AlpGetFirstDataDir E (proto (flow st_r)) (alproto_ts (flow st_r))
         = STREAM_TOSERVER) ->
  exists st' p',
    AppLayerHandleTCPData E st p stream data data_len flags
    = Some (st', p', -1)
    /\ calls st' = calls st_r
    /\ no_inspection (flow st') = true
    /\ detection_completed (client (ssn st')) = true
    /\ detection_completed (server (ssn st')) = true
    /\ (0 <= ret ->
        app_layer_events p'
        = app_layer_events p_r ++ [APPLAYER_WRONG_DIRECTION_FIRST_DATA]
        /\ data_first_seen_dir (ssn st')
           = APP_LAYER_DATA_ALREADY_SENT_TO_APP_LAYER).
Proof.
  intros flags Hni Hts Htc Hseen Hd Hrep Hcase.
  assert (Hpkt : snd (detected E st p stream data data_len flags) = p).
  { rewrite detected_no_mismatch; [reflexivity|]. left. exact Htc. }
  rewrite (tcp_detected E st p stream data data_len flags Hni Hts
             eq_refl eq_refl Hd).
  rewrite Hpkt. unfold after_detection.
  assert (Hw : replay_wanted
                 (ssn (fst (detected E st p stream data data_len flags)))
                 flags = true).
  { unfold replay_wanted. simpl.
    replace (data_first_seen_dir
               (StreamTcpSetStreamFlagAppProtoDetectionCompleted stream
                  (ssn st)))
      with (data_first_seen_dir (ssn st)) by (destruct stream; reflexivity).
    rewrite Hseen. reflexivity. }
  rewrite Hw, Hrep.
  destruct (ret <? 0) eqn:Hret.
  - eexists. eexists. split; [reflexivity|]. simpl.
    split; [reflexivity|]. split; [apply no_inspection_set|].
    split; [apply detection_completed_set|].
    split; [apply detection_completed_set|].
    intros Hge. apply Z.ltb_lt in Hret. lia.
  - destruct Hcase as [Hneg|[Hseen_r Hreq]];
      [apply Z.ltb_ge in Hret; lia|].
    change (this_slot flags) with SlotTS.
    rewrite first_data_check_wrong_direction.
    + eexists. eexists. split; [reflexivity|]. simpl.
      split; [reflexivity|]. split; [apply no_inspection_set|].
      split; [apply detection_completed_set|].
      split; [apply detection_completed_set|].
      intros _. split; reflexivity.
    + rewrite Hseen_r. discriminate.
    + simpl. rewrite Hreq. discriminate.
    + simpl. rewrite Hreq, Hseen_r. reflexivity.
Qed.

(** Call B of the scenario with a reassembler that has nothing to
    replay. *)
Lemma C1_wrong_direction_first_fails_witness :
  exists st' p',
    Scenario.call_B (Scenario.sniffer 0 0) = Some (st', p', -1)
    /\ no_inspection (flow st') = true
    /\ app_layer_events p' = [APPLAYER_WRONG_DIRECTION_FIRST_DATA].
Proof.
  destruct (C1_wrong_direction_first_fails (Scenario.sniffer 0 0)
              Scenario.state_after_A (Scenario.pkt FLOW_PKT_TOCLIENT)
              StreamClient Scenario.GET 5
              (log (CallReassemble false StreamServer FLOW_PKT_TOSERVER)
                 (fst (detected (Scenario.sniffer 0 0) Scenario.state_after_A
                         (Scenario.pkt FLOW_PKT_TOCLIENT) StreamClient
                         Scenario.GET 5 Scenario.flags_B)))
              (Scenario.pkt FLOW_PKT_TOCLIENT) 0
              eq_refl eq_refl eq_refl eq_refl
              ltac:(discriminate) eq_refl
              (or_intror (conj eq_refl eq_refl)))
    as (st' & p' & Hcall & _ & Hni & _ & _ & Hev).
  exists st', p'. split; [exact Hcall|]. split; [exact Hni|].
  destruct (Hev ltac:(lia)) as [Hev' _]. exact Hev'.
Defined.

(** C1 fails as stated.  Data first seen to the client, the parser for
    HTTP wants to-server data first.  Call A (to-client, unidentified)
    leaves both slots UNKNOWN and data_first_seen_dir = TOCLIENT; call B
    (to-server, identified as HTTP) emits WRONG_DIRECTION_FIRST_DATA,
    calls no parser and returns -1, whether the reassembler has nothing
    to replay or re-enters the dispatcher with the to-client bytes. *)
Lemma C1_call_B_emits_event_and_fails :
  Scenario.call_A (Scenario.sniffer 0 0)
  = Some (Scenario.state_after_A, Scenario.pkt FLOW_PKT_TOSERVER, 0)
  /\ alproto_ts (flow Scenario.state_after_A) = ALPROTO_UNKNOWN
  /\ alproto_tc (flow Scenario.state_after_A) = ALPROTO_UNKNOWN
  /\ data_first_seen_dir (ssn Scenario.state_after_A) = STREAM_TOCLIENT
  /\ Scenario.first_data_dir IPPROTO_TCP Scenario.ALPROTO_HTTP
     = STREAM_TOSERVER
  /\ Scenario.call_B (Scenario.sniffer 0 0)
     = Some (mkState
               (mkFlow IPPROTO_TCP FLOW_NO_APPLAYER_INSPECTION
                  Scenario.ALPROTO_HTTP Scenario.ALPROTO_HTTP ALPROTO_UNKNOWN
                  (0, 0) tt)
               (mkSession
                  (mkStream STREAMTCP_STREAM_FLAG_APPPROTO_DETECTION_COMPLETED)
                  (mkStream STREAMTCP_STREAM_FLAG_APPPROTO_DETECTION_COMPLETED)
                  APP_LAYER_DATA_ALREADY_SENT_TO_APP_LAYER false false)
               [CallReassemble false StreamServer FLOW_PKT_TOSERVER;
                CallAlpdGetProto Scenario.GET 5 IPPROTO_TCP Scenario.flags_B;
                CallAlpdGetProto Scenario.garbage 7 IPPROTO_TCP
                  Scenario.flags_A],
             mkPacket FLOW_PKT_TOCLIENT [] 0
               [APPLAYER_WRONG_DIRECTION_FIRST_DATA],
             -1)
  /\ Scenario.call_B (Scenario.sniffer_reentrant Scenario.garbage)
     = Some (mkState
               (mkFlow IPPROTO_TCP FLOW_NO_APPLAYER_INSPECTION
                  Scenario.ALPROTO_HTTP Scenario.ALPROTO_HTTP ALPROTO_UNKNOWN
                  (0, 0) tt)
               (mkSession
                  (mkStream STREAMTCP_STREAM_FLAG_APPPROTO_DETECTION_COMPLETED)
                  (mkStream STREAMTCP_STREAM_FLAG_APPPROTO_DETECTION_COMPLETED)
                  APP_LAYER_DATA_ALREADY_SENT_TO_APP_LAYER false false)
               [CallAlpdGetProto Scenario.garbage 7 IPPROTO_TCP
                  Scenario.flags_A;
                CallReassemble false StreamServer FLOW_PKT_TOSERVER;
                CallAlpdGetProto Scenario.GET 5 IPPROTO_TCP Scenario.flags_B;
                CallAlpdGetProto Scenario.garbage 7 IPPROTO_TCP
                  Scenario.flags_A],
             mkPacket FLOW_PKT_TOCLIENT [] 0
               [APPLAYER_WRONG_DIRECTION_FIRST_DATA],
             -1).
Proof. repeat split; reflexivity. Qed.






(** ** Mismatch between the two directions *)

(** C3 (as amended).  In Case S, when detection answers a protocol that
    differs from the known protocol of the other direction, the
    dispatcher emits MISMATCH_PROTOCOL_BOTH_DIRECTIONS on the packet
    before anything else.  If data_first_seen_dir is already the sentinel
    it sets this direction's slot and flow.alproto to the other
    direction's protocol, hands the chunk to the parser under that
    protocol and returns the parser's return code (0 when the parser
    succeeds): the mismatch itself is not an error. *)
Theorem C3_mismatch_other_direction_wins {A : Type} (E : Collaborators A)
  (st : State A) (p : Packet) (stream : StreamSel)
  (data : list byte) (data_len flags : Z) :
  let res := AlpdGetProto E (flow st) data data_len IPPROTO_TCP flags in
  let o := deref (flow st) (other_slot flags) in
  let p1 :=
    AppLayerDecoderEventsSetEventRaw p
      APPLAYER_MISMATCH_PROTOCOL_BOTH_DIRECTIONS in
  let carry := carry_of (flow st) data_len flags in
  let len := wrap32 (data_len - carry) in
  let f3 :=
    set_alproto o (assign (this_slot flags) o (touch (flow st) (fst res))) in
  let pr := AlpParseL7Data E f3 o flags data carry len in
  no_inspection (flow st) = false ->
  deref (flow st) (this_slot flags) = ALPROTO_UNKNOWN ->
  isset flags STREAM_GAP = false ->
  isset flags STREAM_START = true ->
  snd res <> ALPROTO_UNKNOWN ->
  o <> ALPROTO_UNKNOWN ->
  o <> snd res ->
  AppLayerHandleTCPData E st p stream data data_len flags
  = after_detection E (fst (detected E st p stream data data_len flags)) p1
      stream (this_slot flags) (other_slot flags) (dir_of flags) carry
      data data_len flags
  /\ (data_first_seen_dir (ssn st) = APP_LAYER_DATA_ALREADY_SENT_TO_APP_LAYER ->
      exists st',
        AppLayerHandleTCPData E st p stream data data_len flags
        = Some (st', p1, snd pr)
        /\ alproto (flow st') = o
        /\ deref (flow st') (this_slot flags) = o
        /\ deref (flow st') (other_slot flags) = o
        /\ data_first_seen_dir (ssn st')
           = APP_LAYER_DATA_ALREADY_SENT_TO_APP_LAYER
        /\ calls st'
           = CallAlpParseL7Data o flags data carry len
             :: CallAlpdGetProto data data_len IPPROTO_TCP flags :: calls st).
Proof.
  intros res o p1 carry len f3 pr Hni Hthis Hgap Hstart Hd Ho Hneq.
  assert (Hmis : negb (deref (assign (this_slot flags) (snd res)
                                (touch (flow st) (fst res)))
                         (other_slot flags) =? ALPROTO_UNKNOWN)
                 && negb (deref (assign (this_slot flags) (snd res)
                                   (touch (flow st) (fst res)))
                            (other_slot flags)
                          =? deref (assign (this_slot flags) (snd res)
                                      (touch (flow st) (fst res)))
                               (this_slot flags)) = true).
  { rewrite deref_this_other, deref_assign_same.
    replace (deref (touch (flow st) (fst res)) (other_slot flags)) with o
      by (unfold o; destruct (other_slot flags); reflexivity).
    apply Z.eqb_neq in Ho, Hneq. rewrite Ho, Hneq. reflexivity. }
  assert (Hpkt : snd (detected E st p stream data data_len flags) = p1).
  { unfold detected, resolve_mismatch. fold res. rewrite Hmis.
    destruct (data_first_seen_dir (ssn st)
              =? APP_LAYER_DATA_ALREADY_SENT_TO_APP_LAYER);
      [|destruct (isset flags STREAM_TOCLIENT)]; reflexivity. }
  rewrite (tcp_detected E st p stream data data_len flags Hni Hthis
             Hgap Hstart Hd).
  rewrite Hpkt. split; [reflexivity|].
  intros Hs.
  unfold after_detection, detected, resolve_mismatch. fold res.
  rewrite Hmis, Hs.
  replace (replay_wanted _ flags) with false
    by (unfold replay_wanted; destruct stream; simpl; rewrite Hs; reflexivity).
  rewrite first_data_check_parse
    by (left; destruct stream; simpl; exact Hs).
  subst pr f3 len carry o.
  unfold parse_detected, carry_of, this_slot, other_slot, dir_of.
  destruct (isset flags STREAM_TOSERVER); unfold set_alproto; simpl;
    (eexists; split; [reflexivity|]); simpl; repeat split; reflexivity.
Qed.

(** SSH already parsed to the client, HTTP detected to the server, and
    a parser that accepts the bytes. *)
Lemma C3_mismatch_other_direction_wins_witness :
  exists st',
    AppLayerHandleTCPData (Scenario.sniffer 0 0) Scenario.state_ssh_seen
      (Scenario.pkt FLOW_PKT_TOCLIENT) StreamClient Scenario.GET 5
      Scenario.flags_B
    = Some (st',
            mkPacket FLOW_PKT_TOCLIENT [] 0
              [APPLAYER_MISMATCH_PROTOCOL_BOTH_DIRECTIONS],
            0)
    /\ alproto (flow st') = Scenario.ALPROTO_SSH
    /\ alproto_ts (flow st') = Scenario.ALPROTO_SSH.
Proof.
  edestruct (C3_mismatch_other_direction_wins (Scenario.sniffer 0 0)
               Scenario.state_ssh_seen (Scenario.pkt FLOW_PKT_TOCLIENT)
               StreamClient Scenario.GET 5 Scenario.flags_B) as [_ Hsent].
  1-4: reflexivity.
  1-3: discriminate.
  destruct (Hsent eq_refl) as (st' & Hcall & Ha & Hslot & _).
  exists st'. repeat split; assumption.
Defined.

(** C3 fails as stated.  The to-client direction was detected as SSH and
    parsed; the to-server bytes are detected as HTTP.  The event is
    emitted and the flow is canonicalized to SSH, but the parser rejects
    the bytes and the call returns the parser's -1, not 0. *)
Lemma C3_returns_parser_code :
  data_first_seen_dir (ssn Scenario.state_ssh_seen)
  = APP_LAYER_DATA_ALREADY_SENT_TO_APP_LAYER
  /\ AppLayerHandleTCPData (Scenario.sniffer (-1) 0) Scenario.state_ssh_seen
       (Scenario.pkt FLOW_PKT_TOCLIENT) StreamClient Scenario.GET 5
       Scenario.flags_B
     = Some (mkState
               (mkFlow IPPROTO_TCP 0 Scenario.ALPROTO_SSH
                  Scenario.ALPROTO_SSH Scenario.ALPROTO_SSH (0, 0) tt)
               (mkSession
                  (mkStream STREAMTCP_STREAM_FLAG_APPPROTO_DETECTION_COMPLETED)
                  (mkStream STREAMTCP_STREAM_FLAG_APPPROTO_DETECTION_COMPLETED)
                  APP_LAYER_DATA_ALREADY_SENT_TO_APP_LAYER false false)
               [CallAlpParseL7Data Scenario.ALPROTO_SSH Scenario.flags_B
                  Scenario.GET 0 5;
                CallAlpdGetProto Scenario.GET 5 IPPROTO_TCP Scenario.flags_B],
             mkPacket FLOW_PKT_TOCLIENT [] 0
               [APPLAYER_MISMATCH_PROTOCOL_BOTH_DIRECTIONS],
             -1).
Proof. split; reflexivity. Qed.

(** ** The replay of the opposing stream *)

Lemma land_pow2 (v k : Z) :
  0 <= k -> Z.land v (2 ^ k) = if Z.testbit v k then 2 ^ k else 0.
Proof.
  intros Hk. apply Z.bits_inj'; intros n Hn.
  rewrite Z.land_spec, Z.pow2_bits_eqb by assumption.
  destruct (Z.eqb_spec k n) as [->|Hne].
  - destruct (Z.testbit v n) eqn:Hv.
    + rewrite Z.pow2_bits_eqb, Z.eqb_refl by assumption. reflexivity.
    + rewrite Z.bits_0. reflexivity.
  - rewrite andb_false_r. destruct (Z.testbit v k).
    + rewrite Z.pow2_bits_eqb by assumption.
      symmetry. apply Z.eqb_neq. exact Hne.
    + rewrite Z.bits_0. reflexivity.
Qed.

Lemma isset_pow2 (v k : Z) : 0 <= k -> isset v (2 ^ k) = Z.testbit v k.
Proof.
  intros Hk. unfold isset. rewrite land_pow2 by assumption.
  destruct (Z.testbit v k).
  - apply negb_true_iff, Z.eqb_neq. apply Z.pow_nonzero; lia.
  - reflexivity.
Qed.

(** Setting bit [b] and clearing bit [a], then clearing [b] and setting
    [a], gives back a word that had [a] set and [b] clear. *)
Lemma set_back_bits (v a b : Z) :
  0 <= a -> 0 <= b ->
  isset v (2 ^ a) = true -> isset v (2 ^ b) = false ->
  setbits (clearbits (setbits (clearbits v (2 ^ a)) (2 ^ b)) (2 ^ b)) (2 ^ a)
  = v.
Proof.
  intros Ha Hb Hsa Hsb. rewrite isset_pow2 in Hsa, Hsb by assumption.
  unfold setbits, clearbits. apply Z.bits_inj'; intros n Hn.
  rewrite !Z.lor_spec, !Z.land_spec, !Z.lor_spec, !Z.land_spec,
    !Z.lnot_spec, !Z.pow2_bits_eqb by assumption.
  destruct (Z.eqb_spec a n) as [->|Hna];
    destruct (Z.eqb_spec b n) as [->|Hnb]; simpl.
  - congruence.
  - rewrite Hsa. apply orb_true_r.
  - rewrite Hsb. reflexivity.
  - rewrite !andb_true_r, !orb_false_r. reflexivity.
Qed.

Lemma restore_flip (stream : StreamSel) (inline : bool) (v : Z) :
  carries_stream_direction stream inline v ->
  restore_flowflags stream inline (flip_flowflags stream inline v) = v.
Proof.
  unfold carries_stream_direction, restore_flowflags, flip_flowflags.
  destruct stream, inline; intros [H1 H2].
  - apply (set_back_bits v 0 1); [lia|lia|exact H1|exact H2].
  - apply (set_back_bits v 1 0); [lia|lia|exact H1|exact H2].
  - apply (set_back_bits v 1 0); [lia|lia|exact H1|exact H2].
  - apply (set_back_bits v 0 1); [lia|lia|exact H1|exact H2].
Qed.

Section Replay.

Context {A : Type}.
Variable E : Collaborators A.

Lemma detected_flowflags (st : State A) (p : Packet) (stream : StreamSel)
  (data : list byte) (data_len flags : Z) :
  flowflags (snd (detected E st p stream data data_len flags)) = flowflags p.
Proof.
  unfold detected, resolve_mismatch.
  case_ifs; reflexivity.
Qed.

Lemma detected_first_seen (st : State A) (p : Packet) (stream : StreamSel)
  (data : list byte) (data_len flags : Z) :
  data_first_seen_dir (ssn (fst (detected E st p stream data data_len flags)))
  = data_first_seen_dir (ssn st).
Proof. destruct stream; reflexivity. Qed.

(** Nothing after the replay writes [p->flowflags]. *)
Lemma first_data_check_flowflags (st : State A) (p : Packet)
  (stream : StreamSel) (alproto_p alproto_otherdir_p : Slot)
  (dir carry : Z) (data : list byte) (data_len flags : Z)
  (st' : State A) (p' : Packet) (r : Z) :
  first_data_check E st p stream alproto_p alproto_otherdir_p dir carry
    data data_len flags = Some (st', p', r) ->
  flowflags p' = flowflags p.
Proof.
  unfold first_data_check, parse_detected, failure.
  case_ifs; intros H; inversion H; reflexivity.
Qed.

End Replay.

(** Setting bits does not change the others. *)
Lemma isset_setbits_other (x m k : Z) :
  Z.land m k = 0 -> isset (setbits x m) k = isset x k.
Proof.
  intros H. unfold isset, setbits.
  rewrite Z.land_lor_distr_l, H, Z.lor_0_r. reflexivity.
Qed.

(** Lines 237-253 leave the two direction bits as those of a packet that
    travels in the direction of the stream. *)
Lemma restore_direction_bits (stream : StreamSel) (inline : bool)
  (v w : Z) :
  carries_stream_direction stream inline v ->
  isset (restore_flowflags stream inline w) FLOW_PKT_TOSERVER
  = isset v FLOW_PKT_TOSERVER
  /\ isset (restore_flowflags stream inline w) FLOW_PKT_TOCLIENT
     = isset v FLOW_PKT_TOCLIENT.
Proof.
  unfold carries_stream_direction, restore_flowflags.
  destruct stream, inline; intros [H1 H2]; rewrite H1, H2; split;
    first [apply isset_setbits; discriminate
          |rewrite isset_setbits_other by reflexivity;
           apply isset_clearbits].
Qed.

(** C4.  In Case S, whenever the dispatcher performs the opposing-stream
    replay on a packet that travels in the direction lines 210-253
    presuppose for its stream (toward the client for the client stream
    and toward the server for the server stream when sniffing, the
    reverse inline), the packet's two direction flags have their
    original value when the call returns, on the success and on the
    failure continuation and whatever the reassembler did to them; no
    other bit of p->flowflags is written by the dispatcher, so the word
    leaves as it came when the reassembler left it alone.  If the replay
    returns a negative result the dispatcher sets NO_APPLAYER_INSPECTION,
    marks both streams' detection completed and returns -1. *)
Theorem C4_replay_sets_direction_back {A : Type} (E : Collaborators A)
  (st : State A) (p : Packet) (stream : StreamSel)
  (data : list byte) (data_len flags : Z)
  (st_r : State A) (p_r : Packet) (ret : Z) :
  let inline := StreamTcpInlineMode E in
  let dp := detected E st p stream data data_len flags in
  let flipped := flip_flowflags stream inline (flowflags p) in
  let replay :=
    if inline then StreamTcpReassembleInlineAppLayer E
    else StreamTcpReassembleAppLayer E in
  let call := AppLayerHandleTCPData E st p stream data data_len flags in
  no_inspection (flow st) = false ->
  deref (flow st) (this_slot flags) = ALPROTO_UNKNOWN ->
  isset flags STREAM_GAP = false ->
  isset flags STREAM_START = true ->
  snd (AlpdGetProto E (flow st) data data_len IPPROTO_TCP flags)
  <> ALPROTO_UNKNOWN ->
  replay_wanted (ssn st) flags = true ->
  carries_stream_direction stream inline (flowflags p) ->
  replay (log (CallReassemble inline (opposing_of stream) flipped) (fst dp))
         (set_flowflags flipped (snd dp)) (opposing_of stream)
  = Some (st_r, p_r, ret) ->
  (forall st' p' r,
      call = Some (st', p', r) ->
      isset (flowflags p') FLOW_PKT_TOSERVER
      = isset (flowflags p) FLOW_PKT_TOSERVER
      /\ isset (flowflags p') FLOW_PKT_TOCLIENT
         = isset (flowflags p) FLOW_PKT_TOCLIENT
      /\ flowflags p' = restore_flowflags stream inline (flowflags p_r)
      /\ (flowflags p_r = flipped -> flowflags p' = flowflags p))
  /\ (ret < 0 ->
      exists st',
        call = Some (st',
                     set_flowflags
                       (restore_flowflags stream inline (flowflags p_r)) p_r,
                     -1)
        /\ no_inspection (flow st') = true
        /\ detection_completed (client (ssn st')) = true
        /\ detection_completed (server (ssn st')) = true
        /\ calls st' = calls st_r)
  /\ (0 <= ret ->
      call
      = first_data_check E st_r
          (set_flowflags
             (restore_flowflags stream inline (flowflags p_r)) p_r)
          stream (this_slot flags) (other_slot flags) (dir_of flags)
          (carry_of (flow st) data_len flags) data data_len flags).
Proof.
  intros inline dp flipped replay call Hni Hthis Hgap Hstart Hd Hw Hdir Hrep.
  assert (Hcall :
            call
            = if ret <? 0 then
                failure
                  (set_ssn
                     (StreamTcpSetStreamFlagAppProtoDetectionCompleted
                        StreamServer
                        (StreamTcpSetStreamFlagAppProtoDetectionCompleted
                           StreamClient (ssn st_r)))
                     (set_flow
                        (FlowSetSessionNoApplayerInspectionFlag (flow st_r))
                        st_r))
                  (set_flowflags
                     (restore_flowflags stream inline (flowflags p_r)) p_r)
              else
                first_data_check E st_r
                  (set_flowflags
                     (restore_flowflags stream inline (flowflags p_r)) p_r)
                  stream (this_slot flags) (other_slot flags) (dir_of flags)
                  (carry_of (flow st) data_len flags) data data_len flags).
  { unfold call.
    rewrite (tcp_detected E st p stream data data_len flags Hni Hthis
               Hgap Hstart Hd).
    unfold after_detection. fold dp.
    replace (replay_wanted (ssn (fst dp)) flags) with true
      by (unfold replay_wanted in *; unfold dp;
          rewrite detected_first_seen; symmetry; exact Hw).
    unfold replay_opposing. fold inline.
    replace (flowflags (snd dp)) with (flowflags p)
      by (symmetry; apply detected_flowflags).
    fold flipped. cbv zeta.
    change (flowflags (set_flowflags flipped (snd dp))) with flipped.
    unfold replay in Hrep. destruct inline; rewrite Hrep; reflexivity. }
  rewrite Hcall. split; [|split].
  - intros st' p' r Hout.
    assert (Hp' : flowflags p'
                  = restore_flowflags stream inline (flowflags p_r)).
    { destruct (ret <? 0).
      - inversion Hout. reflexivity.
      - apply first_data_check_flowflags in Hout. exact Hout. }
    destruct (restore_direction_bits stream inline (flowflags p)
                (flowflags p_r) Hdir) as [Hts Htc].
    rewrite Hp'.
    split; [exact Hts|]. split; [exact Htc|]. split; [reflexivity|].
    intros Hkeep. rewrite Hkeep. apply restore_flip, Hdir.
  - intros Hneg. apply Z.ltb_lt in Hneg. rewrite Hneg.
    eexists. split; [reflexivity|]. simpl.
    split; [apply no_inspection_set|].
    split; [apply detection_completed_set|].
    split; [apply detection_completed_set|reflexivity].
  - intros Hpos. apply Z.ltb_ge in Hpos. rewrite Hpos. reflexivity.
Qed.

(** A sniffed packet travelling to the client brings to-server data of
    the client stream: it leaves as it came. *)
Lemma C4_replay_sets_direction_back_witness :
  exists st' p' r,
    AppLayerHandleTCPData (Scenario.sniffer 0 0)
      (Scenario.state0 STREAM_TOCLIENT) (Scenario.pkt FLOW_PKT_TOCLIENT)
      StreamClient Scenario.SSH_banner 7 Scenario.flags_B
    = Some (st', p', r)
    /\ flowflags p' = flowflags (Scenario.pkt FLOW_PKT_TOCLIENT).
Proof.
  edestruct (C4_replay_sets_direction_back (Scenario.sniffer 0 0)
               (Scenario.state0 STREAM_TOCLIENT)
               (Scenario.pkt FLOW_PKT_TOCLIENT)
               StreamClient Scenario.SSH_banner 7 Scenario.flags_B
               (log (CallReassemble false StreamServer FLOW_PKT_TOSERVER)
                  (fst (detected (Scenario.sniffer 0 0)
                          (Scenario.state0 STREAM_TOCLIENT)
                          (Scenario.pkt FLOW_PKT_TOCLIENT) StreamClient
                          Scenario.SSH_banner 7 Scenario.flags_B)))
               (Scenario.pkt FLOW_PKT_TOSERVER) 0) as [Hflags _].
  1-4: reflexivity.
  1: discriminate.
  1: reflexivity.
  1: split; reflexivity.
  1: reflexivity.
  eexists. eexists. eexists. split; [reflexivity|].
  eapply Hflags; reflexivity.
Defined.

(** The pairing of packet and stream is needed.  The engine is sniffing,
    the chunk is to-server data of the client stream, data was first seen
    to the client, and the packet handed in travels to the server, which
    is not the direction lines 210-253 presuppose.  The replay is
    performed and succeeds, the call returns 0, and the packet leaves
    travelling to the client: lines 242-243 set the direction of the
    stream, they do not put back a saved value. *)
Remark unpaired_packet_leaves_redirected :
  ~ carries_stream_direction StreamClient false
      (flowflags (Scenario.pkt FLOW_PKT_TOSERVER))
  /\ AppLayerHandleTCPData (Scenario.sniffer 0 0)
       (Scenario.state0 STREAM_TOCLIENT) (Scenario.pkt FLOW_PKT_TOSERVER)
       StreamClient Scenario.SSH_banner 7 Scenario.flags_B
     = Some (mkState
               (mkFlow IPPROTO_TCP 0 Scenario.ALPROTO_SSH
                  Scenario.ALPROTO_SSH ALPROTO_UNKNOWN (0, 0) tt)
               (mkSession
                  (mkStream STREAMTCP_STREAM_FLAG_APPPROTO_DETECTION_COMPLETED)
                  (mkStream 0)
                  APP_LAYER_DATA_ALREADY_SENT_TO_APP_LAYER false false)
               [CallAlpParseL7Data Scenario.ALPROTO_SSH Scenario.flags_B
                  Scenario.SSH_banner 0 7;
                CallReassemble false StreamServer FLOW_PKT_TOSERVER;
                CallAlpdGetProto Scenario.SSH_banner 7 IPPROTO_TCP
                  Scenario.flags_B],
             mkPacket FLOW_PKT_TOCLIENT [] 0 [],
             0).
Proof.
  split; [|reflexivity].
  intros [H _]. discriminate H.
Qed.

(** ** What the parser is handed in Case S *)

Section Carry.

Context {A : Type}.
Variable E : Collaborators A.

Lemma arr_get_set (a : Z * Z) (dir v : Z) : arr_get (arr_set a dir v) dir = v.
Proof. unfold arr_get, arr_set. destruct (dir =? 0) eqn:H; simpl; reflexivity. Qed.

(** Lines 278-315 either leave the log alone or push one parser call,
    for the chunk from offset [carry] on, and then reset the carry. *)
Lemma first_data_check_calls (st : State A) (p : Packet)
  (stream : StreamSel) (alproto_p alproto_otherdir_p : Slot)
  (dir carry : Z) (data : list byte) (data_len flags : Z)
  (st' : State A) (p' : Packet) (r : Z) :
  first_data_check E st p stream alproto_p alproto_otherdir_p dir carry
    data data_len flags = Some (st', p', r) ->
  calls st' = calls st
  \/ (calls st'
      = CallAlpParseL7Data (deref (flow st) alproto_p) flags data carry
          (wrap32 (data_len - carry)) :: calls st
      /\ arr_get (data_al_so_far (flow st')) dir = 0).
Proof.
  unfold first_data_check, parse_detected, failure.
  case_ifs; intros H; inversion H; simpl;
    first [left; reflexivity
          |right; split; [reflexivity|apply arr_get_set]].
Qed.

Lemma after_detection_calls (st2 : State A) (p2 : Packet)
  (stream : StreamSel) (alproto_p alproto_otherdir_p : Slot)
  (dir carry : Z) (data : list byte) (data_len flags : Z)
  (st' : State A) (p' : Packet) (r : Z) :
  after_detection E st2 p2 stream alproto_p alproto_otherdir_p dir carry
    data data_len flags = Some (st', p', r) ->
  exists st_r,
    (st_r = st2
     \/ exists p_r ret,
         replay_opposing E st2 p2 stream = Some (st_r, p_r, ret))
    /\ (calls st' = calls st_r
        \/ (calls st'
            = CallAlpParseL7Data (deref (flow st_r) alproto_p) flags data
                carry (wrap32 (data_len - carry)) :: calls st_r
            /\ arr_get (data_al_so_far (flow st')) dir = 0)).
Proof.
  unfold after_detection.
  destruct (replay_wanted (ssn st2) flags).
  - destruct (replay_opposing E st2 p2 stream) as [[[st_r p_r] ret]|] eqn:Hr;
      [|discriminate].
    destruct (ret <? 0).
    + intros H. inversion H. exists st_r. split.
      * right. exists p_r, ret. congruence.
      * left. reflexivity.
    + intros H. exists st_r. split.
      * right. exists p_r, ret. congruence.
      * eapply first_data_check_calls. exact H.
  - intros H. exists st2. split; [left; reflexivity|].
    eapply first_data_check_calls. exact H.
Qed.

(** Lines 317-358 either fail before the parser is called, or push one
    parser call for the chunk from offset [carry] on and record the carry
    for the next call. *)
Lemma other_direction_known_calls (st : State A) (p : Packet)
  (stream : StreamSel) (alproto_otherdir_p : Slot)
  (dir carry : Z) (data : list byte) (data_len flags : Z)
  (st' : State A) (p' : Packet) (r : Z) :
  other_direction_known E st p stream alproto_otherdir_p dir carry
    data data_len flags = Some (st', p', r) ->
  calls st' = calls st
  \/ (calls st'
      = CallAlpParseL7Data (deref (flow st) alproto_otherdir_p) flags data
          carry (wrap32 (data_len - carry)) :: calls st
      /\ arr_get (data_al_so_far (flow st')) dir
         = if FLOW_IS_PM_DONE (flow st') flags
              && FLOW_IS_PP_DONE (flow st') flags
           then 0 else data_len).
Proof.
  unfold other_direction_known, failure.
  match goal with
  | |- context [if ?b then Some _ else _] => destruct b
  end.
  - intros H. inversion H. left. reflexivity.
  - match goal with
    | |- context [if ?b then Some (set_ssn _ _, _, _) else _] =>
        destruct b eqn:Hdone
    end; intros H; inversion H; right;
      (split; [destruct (data_len >? 0); reflexivity|]);
      unfold FLOW_IS_PM_DONE, FLOW_IS_PP_DONE in *; simpl in *;
      rewrite Hdone; apply arr_get_set.
Qed.

End Carry.

(** ** Direction-protocol consistency *)

Section Consistency.

Context {A : Type}.
Variable E : Collaborators A.

Lemma consistent_same_protos (f g : Flow A) :
  alproto_ts g = alproto_ts f ->
  alproto_tc g = alproto_tc f ->
  alproto g = alproto f ->
  consistent f -> consistent g.
Proof. unfold consistent. intros -> -> ->. auto. Qed.

Lemma consistent_slot_unknown (f : Flow A) (s : Slot) :
  deref f s = ALPROTO_UNKNOWN -> consistent f.
Proof.
  unfold consistent. destruct s; simpl; intros H H1 H2; contradiction.
Qed.

(** Whatever the flow looked like before, the state handed to line 207
    is consistent: a mismatch has been resolved to one value on both
    slots, and [alproto] is this direction's slot. *)
Lemma detected_consistent (st : State A) (p : Packet) (stream : StreamSel)
  (data : list byte) (data_len flags : Z) :
  consistent (flow (fst (detected E st p stream data data_len flags))).
Proof.
  unfold detected, resolve_mismatch, consistent, this_slot, other_slot.
  destruct (isset flags STREAM_TOSERVER); simpl;
    match goal with
    | |- context [negb (?o =? ALPROTO_UNKNOWN) && negb (?o =? ?d)] =>
        destruct (Z.eqb_spec o ALPROTO_UNKNOWN);
        [|destruct (Z.eqb_spec o d);
          [|simpl;
            destruct (data_first_seen_dir (ssn st)
                      =? APP_LAYER_DATA_ALREADY_SENT_TO_APP_LAYER);
            [|destruct (isset flags STREAM_TOCLIENT)]]]
    end; simpl; intros; split; congruence.
Qed.

Lemma first_data_check_consistent (st : State A) (p : Packet)
  (stream : StreamSel) (flags : Z) (dir carry : Z)
  (data : list byte) (data_len : Z)
  (st' : State A) (p' : Packet) (r : Z) :
  consistent (flow st) ->
  first_data_check E st p stream (this_slot flags) (other_slot flags)
    dir carry data data_len flags = Some (st', p', r) ->
  consistent (flow st').
Proof.
  intros Hc. unfold first_data_check, parse_detected, failure,
    FLOW_RESET_PM_DONE, FLOW_RESET_PP_DONE.
  case_ifs; intros H; inversion H; simpl;
    first [ apply (consistent_same_protos (flow st));
            [reflexivity|reflexivity|reflexivity|exact Hc]
          | apply (consistent_slot_unknown _ (this_slot flags));
            apply deref_assign_same ].
Qed.

Lemma replay_opposing_consistent (st : State A) (p : Packet)
  (stream : StreamSel) (st_r : State A) (p_r : Packet) (ret : Z) :
  replay_preserves_consistency E ->
  consistent (flow st) ->
  replay_opposing E st p stream = Some (st_r, p_r, ret) ->
  consistent (flow st_r).
Proof.
  intros Hrep Hc. unfold replay_opposing.
  destruct (StreamTcpInlineMode E).
  - destruct (StreamTcpReassembleInlineAppLayer E _ _ _)
      as [[[st2 p2] ret2]|] eqn:Hr; [|discriminate].
    intros H. inversion H. subst.
    refine (Hrep _ _ _ st_r p2 ret (or_intror Hr) _). exact Hc.
  - destruct (StreamTcpReassembleAppLayer E _ _ _)
      as [[[st2 p2] ret2]|] eqn:Hr; [|discriminate].
    intros H. inversion H. subst.
    refine (Hrep _ _ _ st_r p2 ret (or_introl Hr) _). exact Hc.
Qed.

Lemma after_detection_consistent (st2 : State A) (p2 : Packet)
  (stream : StreamSel) (flags : Z) (dir carry : Z)
  (data : list byte) (data_len : Z)
  (st' : State A) (p' : Packet) (r : Z) :
  replay_preserves_consistency E ->
  consistent (flow st2) ->
  after_detection E st2 p2 stream (this_slot flags) (other_slot flags)
    dir carry data data_len flags = Some (st', p', r) ->
  consistent (flow st').
Proof.
  intros Hrep Hc. unfold after_detection.
  destruct (replay_wanted (ssn st2) flags).
  - destruct (replay_opposing E st2 p2 stream) as [[[st_r p_r] ret]|] eqn:Hr;
      [|discriminate].
    assert (Hcr : consistent (flow st_r))
      by (eapply replay_opposing_consistent; eassumption).
    destruct (ret <? 0).
    + intros H. inversion H. simpl.
      apply (consistent_same_protos (flow st_r));
        [reflexivity|reflexivity|reflexivity|exact Hcr].
    + apply first_data_check_consistent. exact Hcr.
  - apply first_data_check_consistent. exact Hc.
Qed.

(** One dispatch call keeps a consistent flow consistent. *)
Lemma tcp_call_consistent (st : State A) (p : Packet) (stream : StreamSel)
  (data : list byte) (data_len flags : Z)
  (st' : State A) (p' : Packet) (r : Z) :
  replay_preserves_consistency E ->
  consistent (flow st) ->
  AppLayerHandleTCPData E st p stream data data_len flags
  = Some (st', p', r) ->
  consistent (flow st').
Proof.
  intros Hrep Hc. unfold AppLayerHandleTCPData.
  fold (this_slot flags). fold (other_slot flags). fold (dir_of flags).
  destruct (isset (f_flags (flow st)) FLOW_NO_APPLAYER_INSPECTION).
  { intros H. inversion H. subst. exact Hc. }
  destruct ((deref (flow st) (this_slot flags) =? ALPROTO_UNKNOWN)
            && isset flags STREAM_GAP).
  { intros H. inversion H. simpl. exact Hc. }
  destruct ((deref (flow st) (this_slot flags) =? ALPROTO_UNKNOWN)
            && isset flags STREAM_START).
  - unfold stream_start. rewrite deref_assign_same.
    destruct (Z.eqb_spec
                (snd (AlpdGetProto E (flow st) data data_len IPPROTO_TCP
                        flags)) ALPROTO_UNKNOWN) as [Hu|Hu]; simpl negb;
      cbv iota.
    + assert (Hslot : forall f : Flow A,
                 deref (assign (this_slot flags) ALPROTO_UNKNOWN f)
                       (this_slot flags) = ALPROTO_UNKNOWN)
        by (intros; apply deref_assign_same).
      rewrite Hu.
      destruct (negb (deref _ (other_slot flags) =? ALPROTO_UNKNOWN)).
      * unfold other_direction_known, failure.
        case_ifs; intros H; inversion H; simpl;
          apply (consistent_slot_unknown _ (this_slot flags));
          unfold this_slot; destruct (isset flags STREAM_TOSERVER);
          reflexivity.
      * unfold neither_direction_known.
        case_ifs; intros H; inversion H; simpl;
          apply (consistent_slot_unknown _ (this_slot flags));
          unfold this_slot; destruct (isset flags STREAM_TOSERVER);
          reflexivity.
    + apply (after_detection_consistent
               (fst (detected E st p stream data data_len flags))
               (snd (detected E st p stream data data_len flags))).
      * exact Hrep.
      * apply detected_consistent.
  - destruct (negb (alproto (flow st) =? ALPROTO_UNKNOWN));
      intros H; inversion H; simpl.
    + apply (consistent_same_protos (flow st));
        [reflexivity|reflexivity|reflexivity|exact Hc].
    + subst. exact Hc.
Qed.

Lemma run_tcp_consistent (cs : list TcpCall) :
  replay_preserves_consistency E ->
  forall (st st' : State A) (rs : list (Packet * Z)),
    consistent (flow st) ->
    run_tcp E cs st = Some (st', rs) ->
    consistent (flow st').
Proof.
  intros Hrep. induction cs as [|c cs IH]; intros st st' rs Hc; simpl.
  - intros H. inversion H. subst. exact Hc.
  - destruct (AppLayerHandleTCPData E st (c_pkt c) (c_stream c) (c_data c)
                (c_data_len c) (c_flags c)) as [[[st1 p1] r1]|] eqn:Hcall;
      [|discriminate].
    destruct (run_tcp E cs st1) as [[st2 rs2]|] eqn:Hrun; [|discriminate].
    intros H. inversion H. subst.
    apply (IH st1 st' rs2).
    + eapply tcp_call_consistent; eassumption.
    + exact Hrun.
Qed.

End Consistency.

(** C10.  Starting from a flow whose alproto, alproto_ts and alproto_tc
    are all UNKNOWN, after any sequence of AppLayerHandleTCPData calls:
    whenever alproto_ts and alproto_tc are both known they are equal to
    each other and to flow.alproto.  The reassembler, which re-enters
    the dispatcher for the opposing stream, is taken to keep consistent
    flows consistent. *)
Theorem C10_direction_protocols_agree {A : Type} (E : Collaborators A)
  (cs : list TcpCall) (st0 st' : State A) (rs : list (Packet * Z)) :
  replay_preserves_consistency E ->
  alproto (flow st0) = ALPROTO_UNKNOWN ->
  alproto_ts (flow st0) = ALPROTO_UNKNOWN ->
  alproto_tc (flow st0) = ALPROTO_UNKNOWN ->
  run_tcp E cs st0 = Some (st', rs) ->
  alproto_ts (flow st') <> ALPROTO_UNKNOWN ->
  alproto_tc (flow st') <> ALPROTO_UNKNOWN ->
  alproto_ts (flow st') = alproto_tc (flow st')
  /\ alproto_ts (flow st') = alproto (flow st').
Proof.
  intros Hrep Ha Hts Htc Hrun.
  change (consistent (flow st')).
  apply (run_tcp_consistent E cs Hrep st0 st' rs); [|exact Hrun].
  apply (consistent_slot_unknown _ SlotTS). exact Hts.
Qed.

Lemma idle_preserves_consistency (parse_ret replay_ret : Z) :
  replay_preserves_consistency (Scenario.sniffer parse_ret replay_ret).
Proof.
  intros st p s st' p' r [H|H] Hc; simpl in H; unfold Scenario.idle in H;
    inversion H; subst; exact Hc.
Qed.

(** A reassembler that replays by re-entering the dispatcher keeps
    consistent flows consistent, whatever reassembler the nested call
    itself uses, provided that one does. *)
Lemma reenter_keeps_consistent (E0 : Collaborators unit)
  (queued : list byte) (st : State unit) (p : Packet) (s : StreamSel)
  (st' : State unit) (p' : Packet) (r : Z) :
  replay_preserves_consistency E0 ->
  Scenario.reenter E0 queued st p s = Some (st', p', r) ->
  consistent (flow st) -> consistent (flow st').
Proof.
  intros H0 Hre Hc. unfold Scenario.reenter in Hre.
  match type of Hre with
  | match ?call with Some _ => _ | None => None end = _ =>
      destruct call as [[[st1 p1] r1]|] eqn:Hcall; [|discriminate]
  end.
  inversion Hre. subst.
  eapply tcp_call_consistent; [exact H0|exact Hc|exact Hcall].
Qed.

Lemma reenter_preserves_consistency (queued : list byte) :
  replay_preserves_consistency (Scenario.sniffer_reentrant queued).
Proof.
  intros st p s st' p' r H Hc.
  apply (reenter_keeps_consistent (Scenario.sniffer 0 0) queued st p s
           st' p' r).
  - apply idle_preserves_consistency.
  - destruct H as [H|H]; exact H.
  - exact Hc.
Qed.

(** The banner and the request with a re-entrant reassembler: both
    slots end as SSH, and so does flow.alproto. *)
Lemma C10_direction_protocols_agree_witness :
  run_tcp (Scenario.sniffer_reentrant Scenario.GET)
    Scenario.banner_then_request (Scenario.state0 STREAM_TOSERVER)
  = Some (Scenario.state_agreed, Scenario.results_agreed)
  /\ alproto_ts (flow Scenario.state_agreed)
     = alproto_tc (flow Scenario.state_agreed)
  /\ alproto_ts (flow Scenario.state_agreed)
     = alproto (flow Scenario.state_agreed).
Proof.
  split; [vm_compute; reflexivity|].
  apply (C10_direction_protocols_agree
           (Scenario.sniffer_reentrant Scenario.GET)
           Scenario.banner_then_request (Scenario.state0 STREAM_TOSERVER)
           Scenario.state_agreed Scenario.results_agreed).
  - apply reenter_preserves_consistency.
  - reflexivity.
  - reflexivity.
  - reflexivity.
  - vm_compute; reflexivity.
  - discriminate.
  - discriminate.
Defined.

(** * Further properties of the code *)

(** ** The stream-message queues *)

Section MsgQueues.

Import TcpMsg.

Lemma upd_same {T : Type} (h : Addr -> T) (a : Addr) (v : T) :
  upd h a v a = v.
Proof. unfold upd. rewrite Nat.eqb_refl. reflexivity. Qed.

Lemma upd_other {T : Type} (h : Addr -> T) (a x : Addr) (v : T) :
  x <> a -> upd h a v x = h x.
Proof.
  intros H. unfold upd. apply Nat.eqb_neq in H. rewrite H. reflexivity.
Qed.

Lemma last_error_snoc (l : list Addr) (a : Addr) :
  last_error (l ++ [a]) = Some a.
Proof.
  induction l as [|x r IH]; simpl; [reflexivity|]. rewrite IH. reflexivity.
Qed.

Lemma last_error_in (l : list Addr) (x : Addr) :
  last_error l = Some x -> In x l.
Proof.
  induction l as [|y r IH]; simpl; [discriminate|].
  destruct (last_error r) as [z|].
  - intros H. right. apply IH. exact H.
  - intros H. left. congruence.
Qed.

Lemma last_error_none (l : list Addr) : last_error l = None -> l = [].
Proof.
  destruct l as [|y r]; simpl; [reflexivity|].
  destruct (last_error r); discriminate.
Qed.

(** Links that are not written keep a chain. *)
Lemma chain_frame (h h' : Addr -> StreamMsg) (l : list Addr) :
  forall prv,
    (forall x, In x l ->
               prev (h' x) = prev (h x) /\ next (h' x) = next (h x)) ->
    chain h prv l -> chain h' prv l.
Proof.
  induction l as [|a r IH]; intros prv Hsame Hc; simpl in *.
  - exact I.
  - destruct Hc as (Hp & Hn & Hr).
    destruct (Hsame a (or_introl eq_refl)) as [Hp' Hn'].
    rewrite Hp', Hn'. repeat split; try assumption.
    apply IH; [|exact Hr]. intros x Hx. apply Hsame. right. exact Hx.
Qed.

(** Linking [a] behind the last message of a chain. *)
Lemma chain_snoc (h h' : Addr -> StreamMsg) (a : Addr) (l : list Addr) :
  forall prv,
    NoDup l ->
    chain h prv l ->
    (forall x, In x l -> prev (h' x) = prev (h x)) ->
    (forall x, In x l -> last_error l <> Some x -> next (h' x) = next (h x)) ->
    (forall x, last_error l = Some x -> next (h' x) = Some a) ->
    prev (h' a) = match last_error l with Some x => Some x | None => prv end ->
    next (h' a) = None ->
    chain h' prv (l ++ [a]).
Proof.
  induction l as [|x r IH]; intros prv Hnd Hc Hprev Hnext Hlast Hpa Hna.
  - simpl in *. auto.
  - simpl in Hc. destruct Hc as (Hp & Hn & Hr).
    apply NoDup_cons_iff in Hnd. destruct Hnd as [Hxr Hndr].
    simpl in Hnext, Hlast, Hpa.
    simpl. split; [|split].
    + rewrite Hprev by (left; reflexivity). exact Hp.
    + destruct (last_error r) as [z|] eqn:Hz.
      * rewrite Hnext.
        -- rewrite Hn. destruct r; [discriminate|reflexivity].
        -- left; reflexivity.
        -- intros Heq. inversion Heq; subst. apply Hxr.
           apply last_error_in. exact Hz.
      * apply last_error_none in Hz. subst r. simpl.
        apply Hlast. reflexivity.
    + apply IH.
      * exact Hndr.
      * exact Hr.
      * intros y Hy. apply Hprev. right. exact Hy.
      * intros y Hy Hne. apply Hnext; [right; exact Hy|].
        destruct (last_error r); [exact Hne|].
        intros Heq. inversion Heq; subst. contradiction.
      * intros y Hy. apply Hlast. rewrite Hy. reflexivity.
      * rewrite Hpa. destruct (last_error r); reflexivity.
      * exact Hna.
Qed.

(** Walking a chain forward from its first message lists it. *)
Lemma chain_walk_next (h : Addr -> StreamMsg) (l : list Addr) :
  forall prv fuel,
    chain h prv l -> (List.length l <= fuel)%nat ->
    walk_next h fuel (hd_error l) = l.
Proof.
  induction l as [|a r IH]; intros prv fuel Hc Hf.
  - destruct fuel; reflexivity.
  - simpl in Hc. destruct Hc as (_ & Hn & Hr).
    destruct fuel as [|n]; [simpl in Hf; lia|].
    simpl. rewrite Hn. f_equal. apply (IH (Some a)); [exact Hr|].
    simpl in Hf. lia.
Qed.

(** Walking it backward from its last message lists it in reverse and
    goes on with whatever precedes the chain. *)
Lemma chain_walk_prev (h : Addr -> StreamMsg) (l : list Addr) :
  forall prv k,
    chain h prv l ->
    walk_prev h (List.length l + k)
      (match last_error l with Some x => Some x | None => prv end)
    = rev l ++ walk_prev h k prv.
Proof.
  induction l as [|a r IH]; intros prv k Hc.
  - reflexivity.
  - simpl in Hc. destruct Hc as (Hp & _ & Hr).
    specialize (IH (Some a) (S k) Hr).
    change (last_error (a :: r))
      with (match last_error r with None => Some a | found => found end).
    replace (List.length (a :: r) + k)%nat with (List.length r + S k)%nat
      by (simpl; lia).
    replace (match
                match last_error r with None => Some a | found => found end
              with Some x => Some x | None => prv end)
      with (match last_error r with Some x => Some x | None => Some a end)
      by (destruct (last_error r); reflexivity).
    rewrite IH. simpl. rewrite Hp, <- app_assoc. reflexivity.
Qed.

(** Lines 425-436 / 441-452 on a well-formed queue that does not hold the
    message: the message becomes the last one. *)
Lemma put_appends (h : Addr -> StreamMsg) (head tail : option Addr)
  (l : list Addr) (smsg : Addr) :
  queue h head tail l -> ~ In smsg l ->
  exists hd tl h',
    put head tail smsg h = Returns (hd, tl, h')
    /\ queue h' hd tl (l ++ [smsg])
    /\ (forall x, flow (h' x) = flow (h x) /\ flags (h' x) = flags (h x))
    /\ (forall x, x <> smsg -> last_error l <> Some x -> h' x = h x).
Proof.
  intros (Hhd & Htl & Hc & Hnd) Hnin. unfold put.
  assert (Hnd' : NoDup (l ++ [smsg])).
  { apply NoDup_app; [exact Hnd|repeat constructor; intros []|].
    intros x Hx [Hx'|[]]. subst. contradiction. }
  destruct l as [|a r].
  - simpl in Hhd, Htl. subst head tail.
    eexists. eexists. eexists. split; [reflexivity|].
    split; [|split].
    + split; [reflexivity|]. split; [reflexivity|]. split; [|exact Hnd'].
      simpl. unfold set_prev, set_next. rewrite !upd_same. simpl. auto.
    + intros x. unfold set_prev, set_next.
      destruct (Nat.eq_dec x smsg) as [->|Hx].
      * rewrite !upd_same. simpl. auto.
      * rewrite !upd_other by exact Hx. auto.
    + intros x Hx _. unfold set_prev, set_next.
      rewrite !upd_other by exact Hx. reflexivity.
  - assert (Hl : exists cur, last_error (a :: r) = Some cur).
    { simpl. destruct (last_error r); eexists; reflexivity. }
    destruct Hl as [cur Hcur].
    assert (Hcin : In cur (a :: r)) by (apply last_error_in; exact Hcur).
    assert (Hcs : cur <> smsg) by (intros ->; contradiction).
    rewrite Hhd, Htl, Hcur. simpl hd_error. cbv iota.
    eexists. eexists. eexists. split; [reflexivity|].
    split; [|split].
    + split; [reflexivity|]. split; [symmetry; apply last_error_snoc|].
      split; [|exact Hnd'].
      apply (chain_snoc h); try assumption.
      * intros x Hx. unfold set_prev, set_next.
        assert (x <> smsg) by (intros ->; contradiction).
        rewrite !upd_other by assumption.
        destruct (Nat.eq_dec x cur) as [->|Hxc].
        -- rewrite upd_same. reflexivity.
        -- rewrite upd_other by exact Hxc. reflexivity.
      * intros x Hx Hne. unfold set_prev, set_next.
        assert (x <> smsg) by (intros ->; contradiction).
        rewrite !upd_other by assumption.
        rewrite upd_other; [reflexivity|].
        intros ->. apply Hne. first [exact Hcur|reflexivity].
      * intros x Hx. rewrite Hcur in Hx. inversion Hx; subst.
        unfold set_prev, set_next.
        rewrite !upd_other by exact Hcs. rewrite upd_same. reflexivity.
      * rewrite Hcur. unfold set_prev, set_next.
        rewrite upd_same. simpl. rewrite upd_same. reflexivity.
      * unfold set_prev, set_next. rewrite upd_same. reflexivity.
    + intros x. unfold set_prev, set_next.
      destruct (Nat.eq_dec x smsg) as [->|Hx].
      * rewrite upd_same. simpl. rewrite upd_same. simpl.
        rewrite upd_other by (intros Heq; apply Hcs; symmetry; exact Heq).
        auto.
      * rewrite !upd_other by exact Hx.
        destruct (Nat.eq_dec x cur) as [->|Hxc].
        -- rewrite upd_same. simpl. auto.
        -- rewrite upd_other by exact Hxc. auto.
    + intros x Hx Hne. unfold set_prev, set_next.
      rewrite !upd_other by exact Hx.
      rewrite upd_other; [reflexivity|].
      intros ->. apply Hne. first [exact Hcur|reflexivity].
Qed.

Lemma queue_frame (h h' : Addr -> StreamMsg) (head tail : option Addr)
  (l : list Addr) :
  (forall x, In x l -> prev (h' x) = prev (h x) /\ next (h' x) = next (h x)) ->
  queue h head tail l -> queue h' head tail l.
Proof.
  intros Hsame (Hhd & Htl & Hc & Hnd).
  repeat split; try assumption. apply (chain_frame h); assumption.
Qed.

Lemma nodup_app_disjoint (l l' : list Addr) :
  NoDup (l ++ l') -> forall a, In a l -> ~ In a l'.
Proof.
  induction l as [|x r IH]; simpl; intros Hnd a Ha; [contradiction|].
  apply NoDup_cons_iff in Hnd. destruct Hnd as [Hx Hr].
  destruct Ha as [->|Ha].
  - intros Hin. apply Hx. apply in_or_app. right. exact Hin.
  - apply IH; assumption.
Qed.

Lemma nodup_insert (l l' : list Addr) (a : Addr) :
  NoDup (l ++ l') -> ~ In a (l ++ l') -> NoDup (l ++ a :: l').
Proof.
  induction l as [|x r IH]; simpl; intros Hnd Ha.
  - constructor; assumption.
  - apply NoDup_cons_iff in Hnd. destruct Hnd as [Hx Hr].
    constructor.
    + intros Hin. apply in_app_or in Hin.
      destruct Hin as [Hin|[Hin|Hin]].
      * apply Hx. apply in_or_app. left. exact Hin.
      * apply Ha. left. symmetry. exact Hin.
      * apply Hx. apply in_or_app. right. exact Hin.
    + apply IH; [exact Hr|]. intros Hin. apply Ha. right. exact Hin.
Qed.

(** One message handed over for a flow with a session whose queues are
    well-formed and do not hold it. *)
Lemma handle_msg_enqueue (m : Memory) (smsg f ssn : Addr)
  (lts ltc : list Addr) :
  flow (msgs m smsg) = Some f ->
  protoctx m f = Some ssn ->
  session_queues m ssn lts ltc ->
  ~ In smsg (lts ++ ltc) ->
  exists m',
    AppLayerHandleTCPMsg smsg m = Returns (m', 0)
    /\ session_queues m' ssn
         (lts ++ (if to_server (msgs m) smsg then [smsg] else []))
         (ltc ++ (if to_server (msgs m) smsg then [] else [smsg]))
    /\ flow (msgs m' smsg) = None
    /\ pool m' = pool m
    /\ protoctx m' = protoctx m
    /\ (forall x, flags (msgs m' x) = flags (msgs m x))
    /\ (forall x, x <> smsg -> flow (msgs m' x) = flow (msgs m x)).
Proof.
  intros Hf Hs (Hts & Htc & Hnd) Hnin.
  assert (Hn1 : ~ In smsg lts)
    by (intros H; apply Hnin, in_or_app; left; exact H).
  assert (Hn2 : ~ In smsg ltc)
    by (intros H; apply Hnin, in_or_app; right; exact H).
  assert (Hderef : forall (h : Addr -> StreamMsg) x,
             prev (FlowDeReference smsg h x) = prev (h x)
             /\ next (FlowDeReference smsg h x) = next (h x)
             /\ flags (FlowDeReference smsg h x) = flags (h x)
             /\ (x <> smsg -> flow (FlowDeReference smsg h x) = flow (h x))
             /\ flow (FlowDeReference smsg h smsg) = None).
  { intros h x. unfold FlowDeReference.
    destruct (Nat.eq_dec x smsg) as [->|Hx].
    - rewrite upd_same. simpl. repeat split; try reflexivity.
      intros Hc; contradiction.
    - rewrite upd_other by exact Hx. rewrite upd_same. simpl.
      repeat split; reflexivity. }
  unfold AppLayerHandleTCPMsg, to_server. rewrite Hf, Hs.
  destruct (isset (flags (msgs m smsg)) STREAM_TOSERVER).
  - destruct (put_appends _ _ _ _ smsg Hts Hn1)
      as (hd & tl & h' & Hput & Hq & Hkeep & Hsame).
    unfold toserver_queue, toclient_queue in *. rewrite Hput.
    eexists. split; [reflexivity|]. unfold session_queues, toserver_queue,
      toclient_queue. simpl. rewrite !upd_same. simpl.
    split; [split; [|split]|].
    + apply (queue_frame h'); [|exact Hq]. intros x _.
      destruct (Hderef h' x) as (H1 & H2 & _). auto.
    + rewrite app_nil_r. apply (queue_frame (msgs m)); [|exact Htc].
      intros x Hx. destruct (Hderef h' x) as (H1 & H2 & _).
      rewrite H1, H2. rewrite Hsame; [auto| |].
      * intros ->. contradiction.
      * intros Hl. apply last_error_in in Hl.
        exact (nodup_app_disjoint _ _ Hnd x Hl Hx).
    + rewrite app_nil_r, <- app_assoc. simpl.
      apply nodup_insert; assumption.
    + destruct (Hderef h' smsg) as (_ & _ & _ & _ & H5).
      split; [exact H5|]. split; [reflexivity|]. split; [reflexivity|].
      split.
      * intros x. destruct (Hderef h' x) as (_ & _ & H3 & _).
        rewrite H3. apply Hkeep.
      * intros x Hx. destruct (Hderef h' x) as (_ & _ & _ & H4 & _).
        rewrite (H4 Hx). apply Hkeep.
  - destruct (put_appends _ _ _ _ smsg Htc Hn2)
      as (hd & tl & h' & Hput & Hq & Hkeep & Hsame).
    unfold toserver_queue, toclient_queue in *. rewrite Hput.
    eexists. split; [reflexivity|]. unfold session_queues, toserver_queue,
      toclient_queue. simpl. rewrite !upd_same. simpl.
    split; [split; [|split]|].
    + rewrite app_nil_r. apply (queue_frame (msgs m)); [|exact Hts].
      intros x Hx. destruct (Hderef h' x) as (H1 & H2 & _).
      rewrite H1, H2. rewrite Hsame; [auto| |].
      * intros ->. contradiction.
      * intros Hl. apply last_error_in in Hl.
        exact (nodup_app_disjoint _ _ Hnd x Hx Hl).
    + apply (queue_frame h'); [|exact Hq]. intros x _.
      destruct (Hderef h' x) as (H1 & H2 & _). auto.
    + rewrite app_nil_r, app_assoc.
      replace ((lts ++ ltc) ++ [smsg]) with ((lts ++ ltc) ++ smsg :: [])
        by reflexivity.
      apply nodup_insert; rewrite app_nil_r; assumption.
    + destruct (Hderef h' smsg) as (_ & _ & _ & _ & H5).
      split; [exact H5|]. split; [reflexivity|]. split; [reflexivity|].
      split.
      * intros x. destruct (Hderef h' x) as (_ & _ & H3 & _).
        rewrite H3. apply Hkeep.
      * intros x Hx. destruct (Hderef h' x) as (_ & _ & _ & H4 & _).
        rewrite (H4 Hx). apply Hkeep.
Qed.

(** Messages handed over one after the other for flows of one session. *)
Lemma run_enqueue (ms : list Addr) :
  forall (m : Memory) (ssn : Addr) (lts ltc : list Addr),
    (forall a, In a ms ->
               exists f, flow (msgs m a) = Some f
                         /\ protoctx m f = Some ssn) ->
    NoDup (ms ++ lts ++ ltc) ->
    session_queues m ssn lts ltc ->
    exists m',
      run ms m = Returns m'
      /\ session_queues m' ssn
           (lts ++ filter (to_server (msgs m)) ms)
           (ltc ++ filter (fun a => negb (to_server (msgs m) a)) ms)
      /\ (forall a, In a ms -> flow (msgs m' a) = None)
      /\ (forall x, ~ In x ms -> flow (msgs m' x) = flow (msgs m x))
      /\ (forall x, flags (msgs m' x) = flags (msgs m x))
      /\ protoctx m' = protoctx m
      /\ pool m' = pool m.
Proof.
  induction ms as [|a ms IH]; intros m ssn lts ltc Hfl Hnd Hq.
  - exists m. simpl. rewrite !app_nil_r.
    split; [reflexivity|]. split; [exact Hq|].
    split; [intros a []|]. repeat split; reflexivity.
  - simpl in Hnd. apply NoDup_cons_iff in Hnd. destruct Hnd as [Ha Hnd].
    destruct (Hfl a (or_introl eq_refl)) as (f & Hf & Hs).
    assert (Hna : ~ In a (lts ++ ltc))
      by (intros H; apply Ha, in_or_app; right; exact H).
    assert (Hnm : ~ In a ms)
      by (intros H; apply Ha, in_or_app; left; exact H).
    destruct (handle_msg_enqueue m a f ssn lts ltc Hf Hs Hq Hna)
      as (m1 & Hcall & Hq1 & Hnone & Hpool & Hctx & Hflags & Hflow).
    assert (Hfl1 : forall x, In x ms ->
                     exists f', flow (msgs m1 x) = Some f'
                                /\ protoctx m1 f' = Some ssn).
    { intros x Hx. destruct (Hfl x (or_intror Hx)) as (f' & Hf' & Hs').
      exists f'. rewrite Hctx. split; [|exact Hs'].
      rewrite Hflow; [exact Hf'|]. intros ->. contradiction. }
    assert (Hnd1 : NoDup
                     (ms ++ (lts ++ (if to_server (msgs m) a then [a] else []))
                         ++ (ltc ++ (if to_server (msgs m) a then []
                                     else [a])))).
    { apply NoDup_app.
      - apply (NoDup_app_remove_r _ _ Hnd).
      - destruct Hq1 as (_ & _ & H). exact H.
      - intros x Hx Hin.
        assert (Hxa : x <> a) by (intros ->; contradiction).
        apply (nodup_app_disjoint _ _ Hnd x Hx).
        destruct (to_server (msgs m) a);
          rewrite ?app_nil_r in Hin;
          apply in_app_or in Hin; destruct Hin as [Hin|Hin];
          try (apply in_app_or in Hin; destruct Hin as [Hin|[Hin|[]]];
               [|congruence]);
          apply in_or_app; auto. }
    destruct (IH m1 ssn _ _ Hfl1 Hnd1 Hq1)
      as (m' & Hrun & Hq' & Hnone' & Hflow' & Hflags' & Hctx' & Hpool').
    assert (Hts : forall x, to_server (msgs m1) x = to_server (msgs m) x)
      by (intros x; unfold to_server; rewrite Hflags; reflexivity).
    exists m'. simpl. rewrite Hcall. split; [exact Hrun|]. split.
    + rewrite (filter_ext _ _ Hts) in Hq'.
      rewrite (filter_ext (fun x => negb (to_server (msgs m1) x))
                 (fun x => negb (to_server (msgs m) x))) in Hq'
        by (intros x; rewrite Hts; reflexivity).
      destruct (to_server (msgs m) a); simpl;
        rewrite ?app_nil_r, <- ?app_assoc in Hq'; exact Hq'.
    + split; [|split; [|split; [|split]]].
      * intros x [->|Hx]; [|apply Hnone'; exact Hx].
        rewrite Hflow' by exact Hnm. exact Hnone.
      * intros x Hx. rewrite Hflow'.
        -- apply Hflow. intros ->. apply Hx. left. reflexivity.
        -- intros Hin. apply Hx. right. exact Hin.
      * intros x. rewrite Hflags'. apply Hflags.
      * rewrite Hctx'. exact Hctx.
      * rewrite Hpool'. exact Hpool.
Qed.

End MsgQueues.

(** X1.  Handing over a message whose flow has a session appends it to
    the queue of its direction (to-server when the TOSERVER bit of its
    flags is set, to-client otherwise), provided the two queues are
    well-formed and do not hold the message yet: both queues stay
    well-formed, the other queue keeps its contents, the message loses
    its reference to the flow, nothing goes to the pool, and the call
    returns 0. *)
Theorem X1_enqueue_appends_at_tail (m : TcpMsg.Memory)
  (smsg f ssn : TcpMsg.Addr) (lts ltc : list TcpMsg.Addr) :
  TcpMsg.flow (TcpMsg.msgs m smsg) = Some f ->
  TcpMsg.protoctx m f = Some ssn ->
  TcpMsg.session_queues m ssn lts ltc ->
  ~ In smsg (lts ++ ltc) ->
  exists m',
    TcpMsg.AppLayerHandleTCPMsg smsg m = TcpMsg.Returns (m', 0)
    /\ TcpMsg.session_queues m' ssn
         (lts ++ (if TcpMsg.to_server (TcpMsg.msgs m) smsg
                  then [smsg] else []))
         (ltc ++ (if TcpMsg.to_server (TcpMsg.msgs m) smsg
                  then [] else [smsg]))
    /\ TcpMsg.flow (TcpMsg.msgs m' smsg) = None
    /\ TcpMsg.pool m' = TcpMsg.pool m.
Proof.
  intros Hf Hs Hq Hn.
  destruct (handle_msg_enqueue m smsg f ssn lts ltc Hf Hs Hq Hn)
    as (m' & H1 & H2 & H3 & H4 & _).
  exists m'. auto.
Qed.

(** A to-client message handed over after one to-server message. *)
Lemma X1_enqueue_appends_at_tail_witness :
  TcpMsg.AppLayerHandleTCPMsg 1%nat TcpMsg.memory0
  = TcpMsg.Returns (TcpMsg.memory1, 0)
  /\ exists m2,
      TcpMsg.AppLayerHandleTCPMsg 2%nat TcpMsg.memory1
      = TcpMsg.Returns (m2, 0)
      /\ TcpMsg.session_queues m2 0%nat [1%nat] [2%nat].
Proof.
  split; [reflexivity|].
  destruct (X1_enqueue_appends_at_tail TcpMsg.memory1
              2%nat 0%nat 0%nat [1%nat] [])
    as (m2 & Hcall & Hq & _).
  - reflexivity.
  - reflexivity.
  - split; [|split].
    + repeat split; try reflexivity. constructor; [intros []|constructor].
    + repeat split; try reflexivity. constructor.
    + constructor; [intros []|constructor].
  - simpl. intros [H|[]]. discriminate.
  - exists m2. split; [exact Hcall|exact Hq].
Defined.

(** X2.  Messages handed over one after the other for flows of one
    session, all distinct and none queued yet, end up in the two queues
    in arrival order behind what was queued: following [next] from the
    head until NULL lists each queue oldest first, following [prev] from
    the tail until NULL lists it newest first (the walks stop by
    themselves: any bound on the number of steps that is at least the
    length of the queue gives the same list), and every message has lost
    its reference to the flow. *)
Theorem X2_queues_keep_arrival_order (ms : list TcpMsg.Addr)
  (m : TcpMsg.Memory) (ssn : TcpMsg.Addr) (lts ltc : list TcpMsg.Addr) :
  let ts := lts ++ filter (TcpMsg.to_server (TcpMsg.msgs m)) ms in
  let tc :=
    ltc ++ filter (fun a => negb (TcpMsg.to_server (TcpMsg.msgs m) a)) ms in
  (forall a, In a ms ->
             exists f, TcpMsg.flow (TcpMsg.msgs m a) = Some f
                       /\ TcpMsg.protoctx m f = Some ssn) ->
  NoDup (ms ++ lts ++ ltc) ->
  TcpMsg.session_queues m ssn lts ltc ->
  exists m',
    TcpMsg.run ms m = TcpMsg.Returns m'
    /\ (forall fuel, (List.length ts <= fuel)%nat ->
          TcpMsg.walk_next (TcpMsg.msgs m') fuel
            (TcpMsg.toserver_smsg_head (TcpMsg.sessions m' ssn)) = ts
          /\ TcpMsg.walk_prev (TcpMsg.msgs m') fuel
               (TcpMsg.toserver_smsg_tail (TcpMsg.sessions m' ssn)) = rev ts)
    /\ (forall fuel, (List.length tc <= fuel)%nat ->
          TcpMsg.walk_next (TcpMsg.msgs m') fuel
            (TcpMsg.toclient_smsg_head (TcpMsg.sessions m' ssn)) = tc
          /\ TcpMsg.walk_prev (TcpMsg.msgs m') fuel
               (TcpMsg.toclient_smsg_tail (TcpMsg.sessions m' ssn)) = rev tc)
    /\ (forall a, In a ms -> TcpMsg.flow (TcpMsg.msgs m' a) = None)
    /\ TcpMsg.pool m' = TcpMsg.pool m.
Proof.
  intros ts tc Hfl Hnd Hq.
  destruct (run_enqueue ms m ssn lts ltc Hfl Hnd Hq)
    as (m' & Hrun & (Hts & Htc & _) & Hnone & _ & _ & _ & Hpool).
  fold ts in Hts. fold tc in Htc.
  assert (Hwalk : forall h hd tl l fuel,
             TcpMsg.queue h hd tl l ->
             (List.length l <= fuel)%nat ->
             TcpMsg.walk_next h fuel hd = l
             /\ TcpMsg.walk_prev h fuel tl = rev l).
  { intros h hd tl l fuel (Hhd & Htl & Hc & _) Hfuel. split.
    - rewrite Hhd. apply (chain_walk_next h l None); [exact Hc|exact Hfuel].
    - pose proof (chain_walk_prev h l None (fuel - List.length l)%nat Hc)
        as Hp.
      replace (List.length l + (fuel - List.length l))%nat with fuel in Hp
        by lia.
      rewrite Htl.
      replace (match TcpMsg.last_error l with
               | Some x => Some x | None => None end)
        with (TcpMsg.last_error l) in Hp
        by (destruct (TcpMsg.last_error l); reflexivity).
      rewrite Hp.
      destruct (fuel - List.length l)%nat; simpl; apply app_nil_r. }
  exists m'.
  split; [exact Hrun|].
  split; [intros fuel Hfuel; exact (Hwalk _ _ _ _ fuel Hts Hfuel)|].
  split; [intros fuel Hfuel; exact (Hwalk _ _ _ _ fuel Htc Hfuel)|].
  split; assumption.
Qed.

(** Three messages, to the server, to the client, to the server; the
    walks are given room for ten steps. *)
Lemma X2_queues_keep_arrival_order_witness :
  exists m',
    TcpMsg.run [1%nat; 2%nat; 3%nat] TcpMsg.memory0 = TcpMsg.Returns m'
    /\ TcpMsg.walk_next (TcpMsg.msgs m') 10
         (TcpMsg.toserver_smsg_head (TcpMsg.sessions m' 0%nat))
       = [1%nat; 3%nat]
    /\ TcpMsg.walk_prev (TcpMsg.msgs m') 10
         (TcpMsg.toserver_smsg_tail (TcpMsg.sessions m' 0%nat))
       = [3%nat; 1%nat]
    /\ TcpMsg.walk_next (TcpMsg.msgs m') 10
         (TcpMsg.toclient_smsg_head (TcpMsg.sessions m' 0%nat))
       = [2%nat]
    /\ TcpMsg.walk_prev (TcpMsg.msgs m') 10
         (TcpMsg.toclient_smsg_tail (TcpMsg.sessions m' 0%nat))
       = [2%nat].
Proof.
  destruct (X2_queues_keep_arrival_order [1%nat; 2%nat; 3%nat]
              TcpMsg.memory0 0%nat [] [])
    as (m' & Hrun & Hts & Htc & _).
  - intros a Ha. exists 0%nat.
    destruct Ha as [<-|[<-|[<-|[]]]]; split; reflexivity.
  - simpl. repeat constructor; simpl; intuition discriminate.
  - repeat split; try reflexivity; constructor.
  - destruct (Hts 10%nat) as [H1 H2]; [simpl; lia|].
    destruct (Htc 10%nat) as [H3 H4]; [simpl; lia|].
    exists m'. split; [exact Hrun|]. split; [exact H1|].
    split; [exact H2|]. split; [exact H3|exact H4].
Defined.

(** X3.  A message is consumed once: whenever the call returns it
    returns 0 and the message has lost its reference to the flow, so
    handing the same message over again stops on the assertion of line
    414.  When the flow has no session the message goes to the head of
    the pool and no queue pointer and no link is written. *)
Theorem X3_message_consumed_once (smsg : TcpMsg.Addr)
  (m m' : TcpMsg.Memory) (r : Z) :
  TcpMsg.AppLayerHandleTCPMsg smsg m = TcpMsg.Returns (m', r) ->
  r = 0
  /\ TcpMsg.flow (TcpMsg.msgs m' smsg) = None
  /\ TcpMsg.AppLayerHandleTCPMsg smsg m' = TcpMsg.BugOn
  /\ (forall f,
         TcpMsg.flow (TcpMsg.msgs m smsg) = Some f ->
         TcpMsg.protoctx m f = None ->
         TcpMsg.pool m' = smsg :: TcpMsg.pool m
         /\ TcpMsg.sessions m' = TcpMsg.sessions m
         /\ forall x,
             TcpMsg.prev (TcpMsg.msgs m' x) = TcpMsg.prev (TcpMsg.msgs m x)
             /\ TcpMsg.next (TcpMsg.msgs m' x)
                = TcpMsg.next (TcpMsg.msgs m x))
  /\ (forall f ssn,
         TcpMsg.flow (TcpMsg.msgs m smsg) = Some f ->
         TcpMsg.protoctx m f = Some ssn ->
         TcpMsg.pool m' = TcpMsg.pool m).
Proof.
  intros Hcall.
  assert (Hnone : forall h, TcpMsg.flow (TcpMsg.FlowDeReference smsg h smsg)
                            = None).
  { intros h. unfold TcpMsg.FlowDeReference. rewrite upd_same. reflexivity. }
  assert (H : r = 0 /\ TcpMsg.flow (TcpMsg.msgs m' smsg) = None
              /\ (forall f, TcpMsg.flow (TcpMsg.msgs m smsg) = Some f ->
                            TcpMsg.protoctx m f = None ->
                            m' = TcpMsg.StreamMsgReturnToPool smsg
                                   (TcpMsg.mkMemory (TcpMsg.protoctx m)
                                      (TcpMsg.sessions m)
                                      (TcpMsg.FlowDeReference smsg
                                         (TcpMsg.msgs m)) (TcpMsg.pool m)))
              /\ (forall f ssn,
                     TcpMsg.flow (TcpMsg.msgs m smsg) = Some f ->
                     TcpMsg.protoctx m f = Some ssn ->
                     TcpMsg.pool m' = TcpMsg.pool m)).
  { unfold TcpMsg.AppLayerHandleTCPMsg in Hcall.
    destruct (TcpMsg.flow (TcpMsg.msgs m smsg)) as [f|]; [|discriminate].
    destruct (TcpMsg.protoctx m f) as [ssn|] eqn:Hctx.
    - destruct (isset _ _);
        match type of Hcall with
        | match ?x with _ => _ end = _ =>
            destruct x as [| |[[hd tl] h]]; try discriminate
        end; inversion Hcall; subst; simpl;
        (split; [reflexivity|]); (split; [apply Hnone|]);
        (split; [intros f0 Hf0 Hc; inversion Hf0; subst; congruence|]);
        intros; reflexivity.
    - inversion Hcall; subst; simpl.
      split; [reflexivity|]. split; [apply Hnone|].
      split; [intros; reflexivity|].
      intros f0 ssn Hf0 Hc. inversion Hf0; subst. congruence. }
  destruct H as (Hr & Hflow & Hpool & Hkeep).
  split; [exact Hr|]. split; [exact Hflow|]. split; [|split].
  - unfold TcpMsg.AppLayerHandleTCPMsg. rewrite Hflow. reflexivity.
  - intros f Hf Hc. rewrite (Hpool f Hf Hc). simpl.
    split; [reflexivity|]. split; [reflexivity|].
    intros x. unfold TcpMsg.FlowDeReference.
    destruct (Nat.eq_dec x smsg) as [->|Hx].
    + rewrite upd_same. simpl. auto.
    + rewrite upd_other by exact Hx. auto.
  - exact Hkeep.
Qed.

(** A message of a flow without session. *)
Lemma X3_message_consumed_once_witness :
  exists m',
    TcpMsg.AppLayerHandleTCPMsg 1%nat TcpMsg.memory_no_session
    = TcpMsg.Returns (m', 0)
    /\ TcpMsg.pool m' = [1%nat]
    /\ TcpMsg.AppLayerHandleTCPMsg 1%nat m' = TcpMsg.BugOn.
Proof.
  eexists. split; [reflexivity|].
  edestruct (X3_message_consumed_once 1%nat TcpMsg.memory_no_session)
    as (_ & _ & Hagain & Hpool & _).
  - reflexivity.
  - split; [|exact Hagain].
    destruct (Hpool 0%nat eq_refl eq_refl) as [Hp _]. exact Hp.
Defined.

(** ** Thread contexts: creation and destruction together *)

(** X4.  A context that creation returned holds exactly the two handles
    the subsystems answered, and destroying it gives back the heap as
    it was before the creation: no block and no handle stays
    outstanding. *)
Theorem X4_create_then_destroy_restores_heap (a : ThreadCtx.Answers)
  (h h' : ThreadCtx.Heap) (ctx : ThreadCtx.AppLayerCtxThread) :
  ThreadCtx.AppLayerGetCtxThread a h = ThreadCtx.Returns (Some ctx) h' ->
  ThreadCtx.SCMalloc a = true
  /\ ThreadCtx.alpd_tctx ctx = ThreadCtx.AlpdGetCtxThread a
  /\ ThreadCtx.alp_tctx ctx = ThreadCtx.AlpGetCtxThread a
  /\ ThreadCtx.alpd_tctx ctx <> None
  /\ ThreadCtx.alp_tctx ctx <> None
  /\ ThreadCtx.AppLayerDestroyCtxThread (Some ctx) h'
     = ThreadCtx.Returns tt h.
Proof.
  unfold ThreadCtx.AppLayerGetCtxThread.
  destruct (ThreadCtx.SCMalloc a); simpl; [|discriminate].
  destruct h as [b d q].
  destruct (ThreadCtx.AlpdGetCtxThread a) as [x|]; simpl; [|discriminate].
  destruct (ThreadCtx.AlpGetCtxThread a) as [y|]; simpl; [|discriminate].
  intros H. inversion H. subst. simpl.
  repeat split; try reflexivity; discriminate.
Qed.

(** Both subsystems answer a handle. *)
Lemma X4_create_then_destroy_restores_heap_witness :
  ThreadCtx.AppLayerGetCtxThread
    (ThreadCtx.mkAnswers true (Some 7) (Some 9)) (ThreadCtx.mkHeap 0 0 0)
  = ThreadCtx.Returns (Some (ThreadCtx.mkCtx (Some 7) (Some 9)))
      (ThreadCtx.mkHeap 1 1 1)
  /\ ThreadCtx.AppLayerDestroyCtxThread
       (Some (ThreadCtx.mkCtx (Some 7) (Some 9))) (ThreadCtx.mkHeap 1 1 1)
     = ThreadCtx.Returns tt (ThreadCtx.mkHeap 0 0 0).
Proof.
  split; [reflexivity|].
  apply (X4_create_then_destroy_restores_heap
           (ThreadCtx.mkAnswers true (Some 7) (Some 9))
           (ThreadCtx.mkHeap 0 0 0) (ThreadCtx.mkHeap 1 1 1)
           (ThreadCtx.mkCtx (Some 7) (Some 9))).
  reflexivity.
Defined.

(** X5.  Once the context block is allocated, creation is all or
    nothing and never reads through NULL: it returns NULL exactly when
    one of the two handles cannot be obtained, and then the heap is as
    before the call (a detector handle already obtained has been
    destroyed and the block freed); otherwise it returns the context and
    one block and one handle of each kind are outstanding. *)
Theorem X5_creation_all_or_nothing (a : ThreadCtx.Answers)
  (h : ThreadCtx.Heap) :
  ThreadCtx.SCMalloc a = true ->
  (ThreadCtx.AlpdGetCtxThread a = None \/ ThreadCtx.AlpGetCtxThread a = None ->
   ThreadCtx.AppLayerGetCtxThread a h = ThreadCtx.Returns None h)
  /\ (forall d q,
         ThreadCtx.AlpdGetCtxThread a = Some d ->
         ThreadCtx.AlpGetCtxThread a = Some q ->
         ThreadCtx.AppLayerGetCtxThread a h
         = ThreadCtx.Returns (Some (ThreadCtx.mkCtx (Some d) (Some q)))
             (ThreadCtx.mkHeap (S (ThreadCtx.ctx_blocks h))
                (S (ThreadCtx.alpd_handles h))
                (S (ThreadCtx.alp_handles h))))
  /\ ThreadCtx.AppLayerGetCtxThread a h <> ThreadCtx.NullDeref.
Proof.
  intros Hm. unfold ThreadCtx.AppLayerGetCtxThread. rewrite Hm. simpl.
  destruct h as [b d0 q0].
  destruct (ThreadCtx.AlpdGetCtxThread a) as [x|];
    destruct (ThreadCtx.AlpGetCtxThread a) as [y|]; simpl;
    (split; [|split]); try discriminate.
  all: try (intros [H|H]; discriminate).
  all: try (intros _; reflexivity).
  all: try (intros d q Hd Hq; inversion Hd; inversion Hq; reflexivity).
  all: try (intros d q Hd Hq; discriminate).
Qed.

(** The parser handle cannot be obtained after the detector's was. *)
Lemma X5_creation_all_or_nothing_witness :
  ThreadCtx.AppLayerGetCtxThread
    (ThreadCtx.mkAnswers true (Some 7) None) (ThreadCtx.mkHeap 2 3 4)
  = ThreadCtx.Returns None (ThreadCtx.mkHeap 2 3 4).
Proof.
  apply (X5_creation_all_or_nothing
           (ThreadCtx.mkAnswers true (Some 7) None) (ThreadCtx.mkHeap 2 3 4)).
  - reflexivity.
  - right. reflexivity.
Defined.

(** ** The UDP dispatcher over a whole flow *)

Section UdpOnce.

Context {A : Type}.
Variable E : Collaborators A.

Lemma detector_calls_forwarded (a : AppProto) (ps : list Packet)
  (cs : list Call) :
  detector_calls (flat_map (forwarded a) ps ++ cs) = detector_calls cs.
Proof.
  induction ps as [|p ps IH]; simpl; [reflexivity|].
  unfold forwarded at 1. destruct (a =? ALPROTO_UNKNOWN); simpl; exact IH.
Qed.

(** The first datagram of a flow on which detection may still run. *)
Lemma udp_first_step (p : Packet) (f : Flow A) (cs : list Call) :
  ~ udp_settled f ->
  udp_settled (fst (fst (AppLayerHandleUdp E p f cs)))
  /\ detector_calls (snd (fst (AppLayerHandleUdp E p f cs)))
     = S (detector_calls cs).
Proof.
  intros Hn. unfold udp_settled in *.
  assert (Ha : (alproto f =? ALPROTO_UNKNOWN) = true).
  { destruct (Z.eqb_spec (alproto f) ALPROTO_UNKNOWN); [reflexivity|].
    exfalso. apply Hn. left. assumption. }
  assert (Hd : isset (f_flags f) FLOW_ALPROTO_DETECT_DONE = false).
  { destruct (isset (f_flags f) FLOW_ALPROTO_DETECT_DONE); [|reflexivity].
    exfalso. apply Hn. right. reflexivity. }
  unfold AppLayerHandleUdp. rewrite Ha, Hd. simpl.
  match goal with
  | |- context [if negb (?x =? ALPROTO_UNKNOWN) then _ else _] =>
      destruct (Z.eqb_spec x ALPROTO_UNKNOWN) as [Hu|Hu]
  end; simpl.
  - split; [|reflexivity]. right. apply isset_setbits. discriminate.
  - split; [|reflexivity]. left. exact Hu.
Qed.

Lemma udp_settled_dec (f : Flow A) : udp_settled f \/ ~ udp_settled f.
Proof.
  unfold udp_settled.
  destruct (Z.eq_dec (alproto f) ALPROTO_UNKNOWN) as [Hu|Hu]; [|auto].
  destruct (isset (f_flags f) FLOW_ALPROTO_DETECT_DONE); [auto|].
  right. intros [H|H]; [contradiction|discriminate].
Qed.

End UdpOnce.

(** X6.  Over any sequence of datagrams of one flow, from any state of
    the flow, the UDP dispatcher calls the detector at most once, and
    not at all when the protocol is already known or ALPROTO_DETECT_DONE
    is already set. *)
Theorem X6_udp_detects_at_most_once {A : Type} (E : Collaborators A)
  (ps : list Packet) (f : Flow A) (cs : list Call) :
  (detector_calls (snd (run_udp E ps f cs)) <= S (detector_calls cs))%nat
  /\ (udp_settled f ->
      detector_calls (snd (run_udp E ps f cs)) = detector_calls cs).
Proof.
  assert (Hs : forall ps' f' cs',
             udp_settled f' ->
             detector_calls (snd (run_udp E ps' f' cs'))
             = detector_calls cs').
  { intros ps' f' cs' H.
    destruct (run_udp_settled E ps' f' cs' H) as [_ Hc].
    rewrite Hc. apply detector_calls_forwarded. }
  split; [|apply Hs].
  destruct (udp_settled_dec f) as [H|H].
  - rewrite Hs by exact H. lia.
  - destruct ps as [|p ps]; simpl; [lia|].
    destruct (udp_first_step E p f cs H) as [Hset Hcount].
    rewrite Hs by exact Hset. rewrite Hcount. lia.
Qed.

(** Three datagrams on a fresh flow. *)
Lemma X6_udp_detects_at_most_once_witness :
  (detector_calls
     (snd (run_udp (Scenario.sniffer 0 0)
             [Scenario.datagram; Scenario.datagram; Scenario.datagram]
             Scenario.udp_flow0 [])) <= 1)%nat.
Proof.
  apply (proj1 (X6_udp_detects_at_most_once (Scenario.sniffer 0 0)
                  [Scenario.datagram; Scenario.datagram; Scenario.datagram]
                  Scenario.udp_flow0 [])).
Defined.

(** ** What the TCP dispatcher writes when it does not force a replay *)

Ltac own_solve evs :=
  unfold own_writes_only; simpl;
  split; [reflexivity|];
  split; [reflexivity|];
  split; [reflexivity|];
  split; [exists evs; split;
          [first [reflexivity|symmetry; apply app_nil_r]|simpl; lia]|];
  split; [reflexivity|];
  first [left; reflexivity|right; reflexivity].

Section OwnWrites.

Context {A : Type}.
Variable E : Collaborators A.

Lemma own_writes_refl (n : nat) (st : State A) (p : Packet) :
  own_writes_only n st p st p.
Proof. own_solve (@nil AppLayerEvent). Qed.

Lemma own_writes_trans (a b : nat) (st st1 st2 : State A)
  (p p1 p2 : Packet) :
  own_writes_only a st p st1 p1 ->
  own_writes_only b st1 p1 st2 p2 ->
  own_writes_only (a + b) st p st2 p2.
Proof.
  unfold own_writes_only.
  intros (F1 & P1 & L1 & (e1 & Ev1 & N1) & R1 & D1)
         (F2 & P2 & L2 & (e2 & Ev2 & N2) & R2 & D2).
  split; [congruence|]. split; [congruence|]. split; [congruence|].
  split.
  { exists (e1 ++ e2). split.
    - rewrite Ev2, Ev1, app_assoc. reflexivity.
    - rewrite length_app. lia. }
  split; [congruence|].
  destruct D2 as [D2|D2]; [|right; exact D2].
  destruct D1 as [D1|D1]; [left|right]; congruence.
Qed.

Lemma own_writes_weaken (a b : nat) (st st1 : State A) (p p1 : Packet) :
  (a <= b)%nat ->
  own_writes_only a st p st1 p1 -> own_writes_only b st p st1 p1.
Proof.
  unfold own_writes_only.
  intros Hab (F1 & P1 & L1 & (e1 & Ev1 & N1) & R1 & D1).
  repeat (split; [assumption|]).
  split; [|split; assumption].
  exists e1. split; [assumption|lia].
Qed.

(** Lines 278-315. *)
Lemma first_data_check_own (st : State A) (p : Packet)
  (stream : StreamSel) (alproto_p alproto_otherdir_p : Slot)
  (dir carry : Z) (data : list byte) (data_len flags : Z)
  (st' : State A) (p' : Packet) (r : Z) :
  first_data_check E st p stream alproto_p alproto_otherdir_p dir carry
    data data_len flags = Some (st', p', r) ->
  own_writes_only 1 st p st' p'.
Proof.
  unfold first_data_check, parse_detected, failure.
  case_ifs; intros H; inversion H; destruct stream;
    first [own_solve (@nil AppLayerEvent)
          |own_solve [APPLAYER_WRONG_DIRECTION_FIRST_DATA]].
Qed.

(** Lines 317-358. *)
Lemma other_direction_known_own (st : State A) (p : Packet)
  (stream : StreamSel) (alproto_otherdir_p : Slot)
  (dir carry : Z) (data : list byte) (data_len flags : Z)
  (st' : State A) (p' : Packet) (r : Z) :
  other_direction_known E st p stream alproto_otherdir_p dir carry
    data data_len flags = Some (st', p', r) ->
  own_writes_only 1 st p st' p'.
Proof.
  unfold other_direction_known, failure.
  case_ifs; intros H; inversion H; destruct stream;
    first [own_solve (@nil AppLayerEvent)
          |own_solve [APPLAYER_DETECT_PROTOCOL_ONLY_ONE_DIRECTION]].
Qed.

(** Lines 360-366. *)
Lemma neither_direction_known_own (st : State A) (p : Packet)
  (st' : State A) (p' : Packet) (r : Z) :
  neither_direction_known st p = Some (st', p', r) ->
  own_writes_only 0 st p st' p'.
Proof.
  unfold neither_direction_known.
  case_ifs; intros H; inversion H; own_solve (@nil AppLayerEvent).
Qed.

(** Lines 164-205. *)
Lemma detected_own (st : State A) (p : Packet) (stream : StreamSel)
  (data : list byte) (data_len flags : Z) :
  own_writes_only 1 st p
    (fst (detected E st p stream data data_len flags))
    (snd (detected E st p stream data data_len flags)).
Proof.
  unfold detected, resolve_mismatch.
  case_ifs; destruct stream;
    first [own_solve (@nil AppLayerEvent)
          |own_solve [APPLAYER_MISMATCH_PROTOCOL_BOTH_DIRECTIONS]].
Qed.

Lemma replay_wanted_detected (st : State A) (p : Packet) (stream : StreamSel)
  (data : list byte) (data_len flags : Z) :
  replay_wanted (ssn (fst (detected E st p stream data data_len flags))) flags
  = replay_wanted (ssn st) flags.
Proof. unfold replay_wanted. rewrite detected_first_seen. reflexivity. Qed.

(** One call that forces no replay. *)
Lemma tcp_call_own (st : State A) (p : Packet) (stream : StreamSel)
  (data : list byte) (data_len flags : Z)
  (st' : State A) (p' : Packet) (r : Z) :
  replay_wanted (ssn st) flags = false ->
  AppLayerHandleTCPData E st p stream data data_len flags
  = Some (st', p', r) ->
  own_writes_only 2 st p st' p'.
Proof.
  intros Hw.
  destruct (no_inspection (flow st)) eqn:Hni.
  { rewrite tcp_no_inspection by exact Hni.
    intros H. inversion H. apply own_writes_refl. }
  destruct (Z.eq_dec (deref (flow st) (this_slot flags)) ALPROTO_UNKNOWN)
    as [Hthis|Hthis].
  - destruct (isset flags STREAM_GAP) eqn:Hgap.
    { unfold AppLayerHandleTCPData. unfold no_inspection in Hni. rewrite Hni.
      fold (this_slot flags). rewrite Hthis, Hgap. simpl.
      unfold StreamTcpSetSessionNoReassemblyFlag.
      intros H. inversion H.
      destruct stream; destruct (isset flags STREAM_TOSERVER); simpl;
        own_solve (@nil AppLayerEvent). }
    destruct (isset flags STREAM_START) eqn:Hstart.
    + destruct (Z.eq_dec
                  (snd (AlpdGetProto E (flow st) data data_len IPPROTO_TCP
                          flags)) ALPROTO_UNKNOWN) as [Hd|Hd].
      * rewrite tcp_case_S by assumption.
        unfold stream_start. rewrite deref_assign_same, Hd. simpl.
        match goal with
        | |- context [if ?b then _ else _] => destruct b
        end; intros H.
        -- apply other_direction_known_own in H.
           apply (own_writes_weaken 1 2); [lia|].
           revert H. unfold own_writes_only. simpl. exact (fun x => x).
        -- apply neither_direction_known_own in H.
           apply (own_writes_weaken 0 2); [lia|].
           revert H. unfold own_writes_only. simpl. exact (fun x => x).
      * rewrite tcp_detected by assumption.
        unfold after_detection. rewrite replay_wanted_detected, Hw.
        intros H. apply first_data_check_own in H.
        exact (own_writes_trans 1 1 _ _ _ _ _ _
                 (detected_own st p stream data data_len flags) H).
    + unfold AppLayerHandleTCPData. unfold no_inspection in Hni. rewrite Hni.
      fold (this_slot flags). rewrite Hthis, Hgap, Hstart. simpl.
      case_ifs; intros H; inversion H; own_solve (@nil AppLayerEvent).
  - apply Z.eqb_neq in Hthis.
    unfold AppLayerHandleTCPData. unfold no_inspection in Hni. rewrite Hni.
    fold (this_slot flags). rewrite Hthis. simpl.
    case_ifs; intros H; inversion H; own_solve (@nil AppLayerEvent).
Qed.

Lemma sentinel_no_replay (s : TcpSession) (flags : Z) :
  data_first_seen_dir s = APP_LAYER_DATA_ALREADY_SENT_TO_APP_LAYER ->
  replay_wanted s flags = false.
Proof. intros H. unfold replay_wanted. rewrite H. reflexivity. Qed.

End OwnWrites.

(** X7.  A call that forces no replay of the opposing stream (data was
    first seen in this call's direction, or the bytes were already sent
    to the application layer) leaves the packet's direction flags and
    payload as they were, appends at most two events to it, never calls
    the reassembler, and changes data_first_seen_dir, if at all, to
    the sentinel. *)
Theorem X7_without_replay_only_own_writes {A : Type} (E : Collaborators A)
  (st : State A) (p : Packet) (stream : StreamSel)
  (data : list byte) (data_len flags : Z)
  (st' : State A) (p' : Packet) (r : Z) :
  replay_wanted (ssn st) flags = false ->
  AppLayerHandleTCPData E st p stream data data_len flags
  = Some (st', p', r) ->
  own_writes_only 2 st p st' p'.
Proof. apply tcp_call_own. Qed.

(** A request to the server on a fresh session on which data was first
    seen to the server. *)
Lemma X7_without_replay_only_own_writes_witness :
  own_writes_only 2
    (Scenario.state0 STREAM_TOSERVER) (Scenario.pkt FLOW_PKT_TOCLIENT)
    Traces.state_http_parsed (Scenario.pkt FLOW_PKT_TOCLIENT).
Proof.
  apply (X7_without_replay_only_own_writes (Scenario.sniffer 0 0)
           (Scenario.state0 STREAM_TOSERVER) (Scenario.pkt FLOW_PKT_TOCLIENT)
           StreamClient Scenario.GET 5 Scenario.flags_B
           Traces.state_http_parsed (Scenario.pkt FLOW_PKT_TOCLIENT) 0).
  - reflexivity.
  - reflexivity.
Defined.

(** X8.  Once data_first_seen_dir holds the sentinel it holds it after
    every further call, however many follow: the reassembler is never
    called again from the dispatcher, and every packet leaves with the
    direction flags it came with. *)
Theorem X8_sentinel_is_final {A : Type} (E : Collaborators A)
  (cs : list TcpCall) (st st' : State A) (rs : list (Packet * Z)) :
  data_first_seen_dir (ssn st) = APP_LAYER_DATA_ALREADY_SENT_TO_APP_LAYER ->
  run_tcp E cs st = Some (st', rs) ->
  data_first_seen_dir (ssn st') = APP_LAYER_DATA_ALREADY_SENT_TO_APP_LAYER
  /\ reassembler_calls (calls st') = reassembler_calls (calls st)
  /\ map (fun x => flowflags (fst x)) rs
     = map (fun c => flowflags (c_pkt c)) cs.
Proof.
  revert st st' rs.
  induction cs as [|c cs IH]; intros st st' rs Hs Hrun; simpl in Hrun.
  - inversion Hrun. subst. repeat split; [exact Hs].
  - destruct (AppLayerHandleTCPData E st (c_pkt c) (c_stream c) (c_data c)
                (c_data_len c) (c_flags c)) as [[[st1 p1] r1]|] eqn:Hcall;
      [|discriminate].
    destruct (run_tcp E cs st1) as [[st2 rs2]|] eqn:Hrest; [|discriminate].
    inversion Hrun. subst.
    apply tcp_call_own in Hcall;
      [|apply sentinel_no_replay; exact Hs].
    destruct Hcall as (F1 & _ & _ & _ & R1 & D1).
    assert (Hs1 : data_first_seen_dir (ssn st1)
                  = APP_LAYER_DATA_ALREADY_SENT_TO_APP_LAYER)
      by (destruct D1; congruence).
    destruct (IH st1 st' rs2 Hs1 Hrest) as (D2 & R2 & M2).
    split; [exact D2|]. split; [congruence|].
    simpl. rewrite F1, M2. reflexivity.
Qed.

(** The to-client bytes were already sent; a banner and a request
    follow, the request being detected as another protocol. *)
Lemma X8_sentinel_is_final_witness :
  data_first_seen_dir (ssn Traces.state_ssh_won)
  = APP_LAYER_DATA_ALREADY_SENT_TO_APP_LAYER
  /\ reassembler_calls (calls Traces.state_ssh_won) = 0%nat
  /\ map (fun x => flowflags (fst x)) Traces.results_ssh_won
     = [FLOW_PKT_TOSERVER; FLOW_PKT_TOCLIENT].
Proof.
  apply (X8_sentinel_is_final (Scenario.sniffer 0 0)
           Scenario.banner_then_request Scenario.state_ssh_seen
           Traces.state_ssh_won Traces.results_ssh_won).
  - reflexivity.
  - reflexivity.
Defined.

(** ** A gap before detection, and calls after detection *)

(** X9.  A gap reported while this direction's protocol is still
    UNKNOWN ends detection for the stream and disables reassembly for the
    direction, whether or not the chunk is also a stream initializer: the
    call returns 0, calls no collaborator, and leaves the flow, the
    packet, the opposing stream, the other direction's reassembly and
    data_first_seen_dir as they were. *)
Theorem X9_gap_before_detection {A : Type} (E : Collaborators A)
  (st : State A) (p : Packet) (stream : StreamSel)
  (data : list byte) (data_len flags : Z) :
  no_inspection (flow st) = false ->
  deref (flow st) (this_slot flags) = ALPROTO_UNKNOWN ->
  isset flags STREAM_GAP = true ->
  exists s',
    AppLayerHandleTCPData E st p stream data data_len flags
    = Some (mkState (flow st) s' (calls st), p, 0)
    /\ detection_completed (get_stream stream s') = true
    /\ get_stream (opposing_of stream) s'
       = get_stream (opposing_of stream) (ssn st)
    /\ data_first_seen_dir s' = data_first_seen_dir (ssn st)
    /\ (if isset flags STREAM_TOSERVER
        then noreassembly_ts s' = true
             /\ noreassembly_tc s' = noreassembly_tc (ssn st)
        else noreassembly_tc s' = true
             /\ noreassembly_ts s' = noreassembly_ts (ssn st)).
Proof.
  intros Hni Hthis Hgap.
  unfold AppLayerHandleTCPData. unfold no_inspection in Hni. rewrite Hni.
  fold (this_slot flags). rewrite Hthis, Hgap. simpl.
  eexists. split; [reflexivity|].
  unfold StreamTcpSetSessionNoReassemblyFlag, detection_completed.
  destruct stream; destruct (isset flags STREAM_TOSERVER); simpl;
    (split; [apply isset_setbits; discriminate|]);
    repeat split; reflexivity.
Qed.

(** A gap on a stream initializer to the server. *)
Lemma X9_gap_before_detection_witness :
  exists s',
    AppLayerHandleTCPData (Scenario.sniffer 0 0)
      (Scenario.state0 STREAM_TOSERVER) (Scenario.pkt FLOW_PKT_TOCLIENT)
      StreamClient Scenario.GET 5
      (Z.lor Scenario.flags_B STREAM_GAP)
    = Some (mkState Scenario.flow0 s' [], Scenario.pkt FLOW_PKT_TOCLIENT, 0)
    /\ detection_completed (client s') = true
    /\ server s' = mkStream 0
    /\ data_first_seen_dir s' = STREAM_TOSERVER
    /\ noreassembly_ts s' = true
    /\ noreassembly_tc s' = false.
Proof.
  destruct (X9_gap_before_detection (Scenario.sniffer 0 0)
              (Scenario.state0 STREAM_TOSERVER)
              (Scenario.pkt FLOW_PKT_TOCLIENT) StreamClient Scenario.GET 5
              (Z.lor Scenario.flags_B STREAM_GAP))
    as (s' & Hcall & Hc & Ho & Hd & Hr).
  - reflexivity.
  - reflexivity.
  - reflexivity.
  - exists s'. simpl in Hr. destruct Hr as [Hr1 Hr2].
    repeat split; assumption.
Defined.

(** X10.  On a flow open to inspection, a chunk that is neither a gap
    nor a stream initializer, or any chunk in a direction whose protocol
    is known, goes to the parser of [f->alproto] whole (offset 0, all
    [data_len] bytes, whatever the stored carry-over is) and the call
    returns the parser's code; when [f->alproto] is UNKNOWN the chunk is
    dropped and the call returns 0.  The session, the packet, the
    direction slots and the carry-over are not written. *)
Theorem X10_steady_state {A : Type} (E : Collaborators A)
  (st : State A) (p : Packet) (stream : StreamSel)
  (data : list byte) (data_len flags : Z) :
  no_inspection (flow st) = false ->
  deref (flow st) (this_slot flags) <> ALPROTO_UNKNOWN
  \/ (isset flags STREAM_GAP = false /\ isset flags STREAM_START = false) ->
  AppLayerHandleTCPData E st p stream data data_len flags
  = if alproto (flow st) =? ALPROTO_UNKNOWN then Some (st, p, 0)
    else
      let pr := AlpParseL7Data E (flow st) (alproto (flow st)) flags
                  data 0 data_len in
      Some (mkState (touch (flow st) (fst pr)) (ssn st)
              (CallAlpParseL7Data (alproto (flow st)) flags data 0 data_len
                 :: calls st),
            p, snd pr).
Proof.
  intros Hni H.
  unfold AppLayerHandleTCPData. unfold no_inspection in Hni. rewrite Hni.
  fold (this_slot flags).
  assert (Hg : (deref (flow st) (this_slot flags) =? ALPROTO_UNKNOWN)
               && isset flags STREAM_GAP = false).
  { destruct H as [H|[H _]].
    - apply Z.eqb_neq in H. rewrite H. reflexivity.
    - rewrite H. apply andb_false_r. }
  assert (Hs : (deref (flow st) (this_slot flags) =? ALPROTO_UNKNOWN)
               && isset flags STREAM_START = false).
  { destruct H as [H|[_ H]].
    - apply Z.eqb_neq in H. rewrite H. reflexivity.
    - rewrite H. apply andb_false_r. }
  rewrite Hg, Hs.
  destruct (alproto (flow st) =? ALPROTO_UNKNOWN); reflexivity.
Qed.

(** A later to-server chunk of 7 bytes with a carry-over of 3 stored. *)
Lemma X10_steady_state_witness :
  AppLayerHandleTCPData (Scenario.sniffer 5 0) Scenario.state_carry
    (Scenario.pkt FLOW_PKT_TOCLIENT) StreamClient Scenario.garbage 7
    STREAM_TOSERVER
  = Some (mkState (flow Scenario.state_carry) (ssn Scenario.state_carry)
            [CallAlpParseL7Data Scenario.ALPROTO_SSH STREAM_TOSERVER
               Scenario.garbage 0 7],
          Scenario.pkt FLOW_PKT_TOCLIENT, 5).
Proof.
  apply (X10_steady_state (Scenario.sniffer 5 0) Scenario.state_carry
           (Scenario.pkt FLOW_PKT_TOCLIENT) StreamClient Scenario.garbage 7
           STREAM_TOSERVER).
  - reflexivity.
  - right. split; reflexivity.
Defined.

Section Settled.

Context {A : Type}.
Variable E : Collaborators A.

(** One call on a flow whose two direction slots are known. *)
Lemma tcp_call_settled (st : State A) (p : Packet) (stream : StreamSel)
  (data : list byte) (data_len flags : Z) :
  alproto_ts (flow st) <> ALPROTO_UNKNOWN ->
  alproto_tc (flow st) <> ALPROTO_UNKNOWN ->
  exists st' r,
    AppLayerHandleTCPData E st p stream data data_len flags
    = Some (st', p, r)
    /\ ssn st' = ssn st
    /\ alproto (flow st') = alproto (flow st)
    /\ alproto_ts (flow st') = alproto_ts (flow st)
    /\ alproto_tc (flow st') = alproto_tc (flow st)
    /\ data_al_so_far (flow st') = data_al_so_far (flow st)
    /\ detector_calls (calls st') = detector_calls (calls st)
    /\ reassembler_calls (calls st') = reassembler_calls (calls st).
Proof.
  intros Hts Htc.
  unfold AppLayerHandleTCPData.
  destruct (isset (f_flags (flow st)) FLOW_NO_APPLAYER_INSPECTION).
  { exists st, 0. repeat split; reflexivity. }
  assert (Hthis : (deref (flow st)
                     (if isset flags STREAM_TOSERVER then SlotTS else SlotTC)
                   =? ALPROTO_UNKNOWN) = false).
  { apply Z.eqb_neq. destruct (isset flags STREAM_TOSERVER); assumption. }
  rewrite Hthis. simpl.
  destruct (alproto (flow st) =? ALPROTO_UNKNOWN); simpl.
  - exists st, 0. repeat split; reflexivity.
  - eexists. eexists. split; [reflexivity|]. repeat split; reflexivity.
Qed.

End Settled.

(** X11.  Once both direction slots of a flow are known, no sequence of
    further calls stops on an assertion, runs detection, calls the
    reassembler, or writes the session, the protocols, the carry-over or
    a packet: all that is left is forwarding to the parser. *)
Theorem X11_settled_flow_only_parses {A : Type} (E : Collaborators A)
  (cs : list TcpCall) (st : State A) :
  alproto_ts (flow st) <> ALPROTO_UNKNOWN ->
  alproto_tc (flow st) <> ALPROTO_UNKNOWN ->
  exists st' rs,
    run_tcp E cs st = Some (st', rs)
    /\ ssn st' = ssn st
    /\ alproto (flow st') = alproto (flow st)
    /\ alproto_ts (flow st') = alproto_ts (flow st)
    /\ alproto_tc (flow st') = alproto_tc (flow st)
    /\ data_al_so_far (flow st') = data_al_so_far (flow st)
    /\ detector_calls (calls st') = detector_calls (calls st)
    /\ reassembler_calls (calls st') = reassembler_calls (calls st)
    /\ map fst rs = map c_pkt cs.
Proof.
  revert st. induction cs as [|c cs IH]; intros st Hts Htc.
  - exists st, []. repeat split; reflexivity.
  - destruct (tcp_call_settled E st (c_pkt c) (c_stream c) (c_data c)
                (c_data_len c) (c_flags c) Hts Htc)
      as (st1 & r1 & Hcall & S1 & A1 & T1 & C1 & D1 & N1 & R1).
    destruct (IH st1) as (st2 & rs & Hrun & S2 & A2 & T2 & C2 & D2 & N2 & R2
                          & M2); [congruence|congruence|].
    exists st2, ((c_pkt c, r1) :: rs). simpl. rewrite Hcall, Hrun.
    split; [reflexivity|].
    repeat (split; [congruence|]).
    simpl. rewrite M2. reflexivity.
Qed.

(** Both directions agreed on SSH; a banner and a request follow. *)
Lemma X11_settled_flow_only_parses_witness :
  exists st' rs,
    run_tcp (Scenario.sniffer 0 0) Scenario.banner_then_request
      Scenario.state_agreed = Some (st', rs)
    /\ ssn st' = ssn Scenario.state_agreed
    /\ alproto (flow st') = Scenario.ALPROTO_SSH
    /\ alproto_ts (flow st') = Scenario.ALPROTO_SSH
    /\ alproto_tc (flow st') = Scenario.ALPROTO_SSH
    /\ data_al_so_far (flow st') = (0, 0)
    /\ detector_calls (calls st') = 2%nat
    /\ reassembler_calls (calls st') = 1%nat
    /\ map fst rs = map c_pkt Scenario.banner_then_request.
Proof.
  apply (X11_settled_flow_only_parses (Scenario.sniffer 0 0)
           Scenario.banner_then_request Scenario.state_agreed);
    discriminate.
Defined.

(** ** Detection on a stream initializer: the remaining paths *)

Section Paths.

Context {A : Type}.
Variable E : Collaborators A.

Lemma deref_set_alproto (f : Flow A) (v : AppProto) (s : Slot) :
  deref (set_alproto v f) s = deref f s.
Proof. destruct s; reflexivity. Qed.

Lemma deref_touch (f : Flow A) (x : Z * A) (s : Slot) :
  deref (touch f x) s = deref f s.
Proof. destruct s; reflexivity. Qed.

Lemma first_seen_completed (stream : StreamSel) (s : TcpSession) :
  data_first_seen_dir
    (StreamTcpSetStreamFlagAppProtoDetectionCompleted stream s)
  = data_first_seen_dir s.
Proof. destruct stream; reflexivity. Qed.

End Paths.

(** X12.  The success path of detection.  When the detector answers a
    protocol that the other direction does not contradict, no replay is
    forced and the parser's direction of first data is met (or not
    checked), the call records the protocol in this direction's slot and
    in [f->alproto], marks detection completed on the stream, sets
    data_first_seen_dir to the sentinel, hands the chunk from the
    carry-over on to the parser, clears the carry-over, leaves the packet
    alone and returns the parser's code. *)
Theorem X12_detected_and_parsed {A : Type} (E : Collaborators A)
  (st : State A) (p : Packet) (stream : StreamSel)
  (data : list byte) (data_len flags : Z) :
  let res := AlpdGetProto E (flow st) data data_len IPPROTO_TCP flags in
  let f2 :=
    set_alproto (snd res)
      (assign (this_slot flags) (snd res) (touch (flow st) (fst res))) in
  let required := AlpGetFirstDataDir E (proto (flow st)) (snd res) in
  let carry := carry_of (flow st) data_len flags in
  let len := wrap32 (data_len - carry) in
  let pr := AlpParseL7Data E f2 (snd res) flags data carry len in
  no_inspection (flow st) = false ->
  deref (flow st) (this_slot flags) = ALPROTO_UNKNOWN ->
  isset flags STREAM_GAP = false ->
  isset flags STREAM_START = true ->
  snd res <> ALPROTO_UNKNOWN ->
  deref (flow st) (other_slot flags) = ALPROTO_UNKNOWN
  \/ deref (flow st) (other_slot flags) = snd res ->
  replay_wanted (ssn st) flags = false ->
  data_first_seen_dir (ssn st) = APP_LAYER_DATA_ALREADY_SENT_TO_APP_LAYER
  \/ required = 0
  \/ (isset required (data_first_seen_dir (ssn st)) = true
      /\ isset required flags = true) ->
  AppLayerHandleTCPData E st p stream data data_len flags
  = Some (mkState
            (set_data_al_so_far (dir_of flags) 0 (touch f2 (fst pr)))
            (set_data_first_seen_dir APP_LAYER_DATA_ALREADY_SENT_TO_APP_LAYER
               (StreamTcpSetStreamFlagAppProtoDetectionCompleted stream
                  (ssn st)))
            (CallAlpParseL7Data (snd res) flags data carry len
               :: CallAlpdGetProto data data_len IPPROTO_TCP flags
               :: calls st),
          p, snd pr).
Proof.
  intros res f2 required carry len pr Hni Hthis Hgap Hstart Hd Ho Hw Hreq.
  rewrite tcp_detected by assumption.
  unfold after_detection. rewrite replay_wanted_detected, Hw.
  rewrite detected_no_mismatch by exact Ho. fold res. fold f2. simpl.
  assert (Hslot : deref f2 (this_slot flags) = snd res).
  { unfold f2. rewrite deref_set_alproto. apply deref_assign_same. }
  rewrite first_data_check_parse.
  - unfold parse_detected. simpl. rewrite Hslot. reflexivity.
  - simpl. rewrite first_seen_completed, Hslot.
    replace (proto (assign (this_slot flags) (snd res)
                      (touch (flow st) (fst res))))
      with (proto (flow st))
      by (destruct (this_slot flags); reflexivity).
    exact Hreq.
Qed.

(** A request to the server on a fresh session on which data was first
    seen to the server. *)
Lemma X12_detected_and_parsed_witness :
  AppLayerHandleTCPData (Scenario.sniffer 0 0)
    (Scenario.state0 STREAM_TOSERVER) (Scenario.pkt FLOW_PKT_TOCLIENT)
    StreamClient Scenario.GET 5 Scenario.flags_B
  = Some (Traces.state_http_parsed, Scenario.pkt FLOW_PKT_TOCLIENT, 0).
Proof.
  apply (X12_detected_and_parsed (Scenario.sniffer 0 0)
           (Scenario.state0 STREAM_TOSERVER) (Scenario.pkt FLOW_PKT_TOCLIENT)
           StreamClient Scenario.GET 5 Scenario.flags_B).
  1-4: reflexivity.
  - discriminate.
  - left. reflexivity.
  - reflexivity.
  - right. right. split; reflexivity.
Defined.

Section OtherKnown.

Context {A : Type}.
Variable E : Collaborators A.

(** Writing UNKNOWN into a slot that holds UNKNOWN changes nothing. *)
Lemma assign_unknown_touch (f : Flow A) (x : Z * A) (s : Slot) :
  deref f s = ALPROTO_UNKNOWN ->
  assign s ALPROTO_UNKNOWN (touch f x) = touch f x.
Proof.
  destruct s; simpl; intros H; unfold assign, touch; simpl;
    rewrite H; reflexivity.
Qed.

(** When detection fails and the other direction is known, the call
    continues at line 318 on the flow as the detector left it. *)
Lemma tcp_other_direction_known (st : State A) (p : Packet)
  (stream : StreamSel) (data : list byte) (data_len flags : Z) :
  let res := AlpdGetProto E (flow st) data data_len IPPROTO_TCP flags in
  no_inspection (flow st) = false ->
  deref (flow st) (this_slot flags) = ALPROTO_UNKNOWN ->
  isset flags STREAM_GAP = false ->
  isset flags STREAM_START = true ->
  snd res = ALPROTO_UNKNOWN ->
  deref (flow st) (other_slot flags) <> ALPROTO_UNKNOWN ->
  AppLayerHandleTCPData E st p stream data data_len flags
  = other_direction_known E
      (mkState (touch (flow st) (fst res)) (ssn st)
         (CallAlpdGetProto data data_len IPPROTO_TCP flags :: calls st))
      p stream (other_slot flags) (dir_of flags)
      (carry_of (flow st) data_len flags) data data_len flags.
Proof.
  intros res Hni Hthis Hgap Hstart Hd Ho.
  rewrite tcp_case_S by assumption.
  unfold stream_start. fold res. rewrite Hd.
  rewrite assign_unknown_touch by exact Hthis.
  rewrite deref_touch, Hthis. simpl.
  rewrite deref_touch. apply Z.eqb_neq in Ho. rewrite Ho. reflexivity.
Qed.

End OtherKnown.

(** X13.  Detection fails on a stream initializer while the other
    direction's protocol is known, nothing was sent to the application
    layer yet, and that protocol wants its first data in a direction this
    chunk does not travel in: the call returns -1 without calling the
    parser, sets NO_APPLAYER_INSPECTION and marks detection completed on
    both streams; it raises no event and leaves data_first_seen_dir as it
    was. *)
Theorem X13_other_direction_known_wrong_direction {A : Type}
  (E : Collaborators A) (st : State A) (p : Packet) (stream : StreamSel)
  (data : list byte) (data_len flags : Z) :
  let res := AlpdGetProto E (flow st) data data_len IPPROTO_TCP flags in
  let o := deref (flow st) (other_slot flags) in
  let required := AlpGetFirstDataDir E (proto (flow st)) o in
  no_inspection (flow st) = false ->
  deref (flow st) (this_slot flags) = ALPROTO_UNKNOWN ->
  isset flags STREAM_GAP = false ->
  isset flags STREAM_START = true ->
  snd res = ALPROTO_UNKNOWN ->
  o <> ALPROTO_UNKNOWN ->
  data_first_seen_dir (ssn st) <> APP_LAYER_DATA_ALREADY_SENT_TO_APP_LAYER ->
  required <> 0 ->
  isset required flags = false ->
  AppLayerHandleTCPData E st p stream data data_len flags
  = Some (mkState
            (FlowSetSessionNoApplayerInspectionFlag
               (touch (flow st) (fst res)))
            (both_streams_completed (ssn st))
            (CallAlpdGetProto data data_len IPPROTO_TCP flags :: calls st),
          p, -1).
Proof.
  intros res o required Hni Hthis Hgap Hstart Hd Ho Hs Hr Hf.
  rewrite tcp_other_direction_known by assumption. fold res.
  unfold other_direction_known. simpl. rewrite deref_touch.
  fold o. fold required.
  apply Z.eqb_neq in Hs, Hr. rewrite Hs, Hr, Hf. reflexivity.
Qed.

(** The to-server side is known as HTTP, nothing was sent yet, and
    unrecognised bytes to the client open their stream. *)
Lemma X13_other_direction_known_wrong_direction_witness :
  AppLayerHandleTCPData (Scenario.sniffer 0 0) Traces.state_http_unsent
    (Scenario.pkt FLOW_PKT_TOSERVER) StreamServer Scenario.garbage 7
    Scenario.flags_A
  = Some (Traces.state_http_refused, Scenario.pkt FLOW_PKT_TOSERVER, -1).
Proof.
  apply (X13_other_direction_known_wrong_direction (Scenario.sniffer 0 0)
           Traces.state_http_unsent (Scenario.pkt FLOW_PKT_TOSERVER)
           StreamServer Scenario.garbage 7 Scenario.flags_A).
  1-5: reflexivity.
  1-3: discriminate.
  reflexivity.
Defined.

(** X14.  Detection fails on a stream initializer while the other
    direction's protocol is known and its direction of first data is met
    or no longer checked: the chunk from the carry-over on goes to the
    parser of the other direction's protocol and the call returns the
    parser's code.  data_first_seen_dir becomes the sentinel only for a
    non-empty chunk.  When both detection strategies are then done for
    this direction the call raises DETECT_PROTOCOL_ONLY_ONE_DIRECTION,
    marks detection completed on the stream and clears the carry-over;
    otherwise it stores [data_len] as the carry-over. *)
Theorem X14_other_direction_known_parsed {A : Type}
  (E : Collaborators A) (st : State A) (p : Packet) (stream : StreamSel)
  (data : list byte) (data_len flags : Z) :
  let res := AlpdGetProto E (flow st) data data_len IPPROTO_TCP flags in
  let o := deref (flow st) (other_slot flags) in
  let required := AlpGetFirstDataDir E (proto (flow st)) o in
  let f1 := touch (flow st) (fst res) in
  let carry := carry_of (flow st) data_len flags in
  let len := wrap32 (data_len - carry) in
  let pr := AlpParseL7Data E f1 o flags data carry len in
  let f3 := touch f1 (fst pr) in
  let done := FLOW_IS_PM_DONE f3 flags && FLOW_IS_PP_DONE f3 flags in
  let s1 :=
    if data_len >? 0
    then set_data_first_seen_dir APP_LAYER_DATA_ALREADY_SENT_TO_APP_LAYER
           (ssn st)
    else ssn st in
  no_inspection (flow st) = false ->
  deref (flow st) (this_slot flags) = ALPROTO_UNKNOWN ->
  isset flags STREAM_GAP = false ->
  isset flags STREAM_START = true ->
  snd res = ALPROTO_UNKNOWN ->
  o <> ALPROTO_UNKNOWN ->
  data_first_seen_dir (ssn st) = APP_LAYER_DATA_ALREADY_SENT_TO_APP_LAYER
  \/ required = 0
  \/ isset required flags = true ->
  AppLayerHandleTCPData E st p stream data data_len flags
  = Some (mkState
            (set_data_al_so_far (dir_of flags)
               (if done then 0 else data_len) f3)
            (if done
             then StreamTcpSetStreamFlagAppProtoDetectionCompleted stream s1
             else s1)
            (CallAlpParseL7Data o flags data carry len
               :: CallAlpdGetProto data data_len IPPROTO_TCP flags
               :: calls st),
          (if done
           then AppLayerDecoderEventsSetEventRaw p
                  APPLAYER_DETECT_PROTOCOL_ONLY_ONE_DIRECTION
           else p),
          snd pr).
Proof.
  intros res o required f1 carry len pr f3 done s1
         Hni Hthis Hgap Hstart Hd Ho Hreq.
  rewrite tcp_other_direction_known by assumption. fold res. fold f1.
  unfold other_direction_known. simpl.
  replace (deref f1 (other_slot flags)) with o
    by (unfold f1; rewrite deref_touch; reflexivity).
  replace (proto f1) with (proto (flow st)) by reflexivity.
  fold required. fold carry. fold len. fold pr. fold f3.
  assert (Hc : negb (data_first_seen_dir (ssn st)
                     =? APP_LAYER_DATA_ALREADY_SENT_TO_APP_LAYER)
               && negb (required =? 0)
               && negb (isset required flags) = false).
  { destruct Hreq as [H|[H|H]].
    - rewrite H. reflexivity.
    - rewrite H. simpl. rewrite andb_false_r. reflexivity.
    - rewrite H. simpl. apply andb_false_r. }
  rewrite Hc. fold done.
  destruct done; destruct (data_len >? 0) eqn:Hlen;
    unfold s1; rewrite ?Hlen; reflexivity.
Qed.

(** The to-client side is known as SSH; 7 unrecognised bytes to the
    server, 3 of them seen by an earlier detection attempt. *)
Lemma X14_other_direction_known_parsed_witness :
  AppLayerHandleTCPData (Scenario.sniffer 0 0) Scenario.state_carry
    (Scenario.pkt FLOW_PKT_TOCLIENT) StreamClient Scenario.garbage 7
    Scenario.flags_B
  = Some (Traces.state_carry_parsed, Scenario.pkt FLOW_PKT_TOCLIENT, 0).
Proof.
  apply (X14_other_direction_known_parsed (Scenario.sniffer 0 0)
           Scenario.state_carry (Scenario.pkt FLOW_PKT_TOCLIENT)
           StreamClient Scenario.garbage 7 Scenario.flags_B).
  1-5: reflexivity.
  - discriminate.
  - left. reflexivity.
Defined.

(** A failed replay. *)

(** X15.  When the replay of the opposing stream, forced after a
    successful detection, returns a negative value, the call gives up the
    flow as the reassembler left it: NO_APPLAYER_INSPECTION is set,
    detection is marked completed on both streams, the call returns -1,
    and neither the direction-of-first-data check nor the parser runs on
    the chunk; data_first_seen_dir stays as the reassembler left it. *)
Theorem X15_replay_failure_gives_up {A : Type} (E : Collaborators A)
  (st : State A) (p : Packet) (stream : StreamSel)
  (data : list byte) (data_len flags : Z)
  (st_r : State A) (p_r : Packet) (ret : Z) :
  let st2 := fst (detected E st p stream data data_len flags) in
  let p2 := snd (detected E st p stream data data_len flags) in
  no_inspection (flow st) = false ->
  deref (flow st) (this_slot flags) = ALPROTO_UNKNOWN ->
  isset flags STREAM_GAP = false ->
  isset flags STREAM_START = true ->
  snd (AlpdGetProto E (flow st) data data_len IPPROTO_TCP flags)
  <> ALPROTO_UNKNOWN ->
  replay_wanted (ssn st) flags = true ->
  replay_opposing E st2 p2 stream = Some (st_r, p_r, ret) ->
  ret < 0 ->
  AppLayerHandleTCPData E st p stream data data_len flags
  = Some (mkState (FlowSetSessionNoApplayerInspectionFlag (flow st_r))
            (both_streams_completed (ssn st_r))
            (calls st_r),
          p_r, -1).
Proof.
  intros st2 p2 Hni Hthis Hgap Hstart Hd Hw Hrep Hneg.
  rewrite tcp_detected by assumption.
  unfold after_detection. rewrite replay_wanted_detected, Hw.
  fold st2. fold p2. rewrite Hrep.
  apply Z.ltb_lt in Hneg. rewrite Hneg.
  unfold failure, both_streams_completed. simpl.
  destruct (ssn st_r) as [[c] [s] d nts ntc]. reflexivity.
Qed.

(** A request to the server when data was first seen to the client and
    the reassembler fails on the opposing stream. *)
Lemma X15_replay_failure_gives_up_witness :
  AppLayerHandleTCPData (Scenario.sniffer 0 (-1))
    (Scenario.state0 STREAM_TOCLIENT) (Scenario.pkt FLOW_PKT_TOCLIENT)
    StreamClient Scenario.GET 5 Scenario.flags_B
  = Some (Traces.state_replay_failed, Scenario.pkt FLOW_PKT_TOCLIENT, -1).
Proof.
  apply (X15_replay_failure_gives_up (Scenario.sniffer 0 (-1))
           (Scenario.state0 STREAM_TOCLIENT) (Scenario.pkt FLOW_PKT_TOCLIENT)
           StreamClient Scenario.GET 5 Scenario.flags_B
           (mkState
              (mkFlow IPPROTO_TCP 0 Scenario.ALPROTO_HTTP
                 Scenario.ALPROTO_HTTP ALPROTO_UNKNOWN (0, 0) tt)
              (mkSession
                 (mkStream STREAMTCP_STREAM_FLAG_APPPROTO_DETECTION_COMPLETED)
                 (mkStream 0) STREAM_TOCLIENT false false)
              [CallReassemble false StreamServer FLOW_PKT_TOSERVER;
               CallAlpdGetProto Scenario.GET 5 IPPROTO_TCP Scenario.flags_B])
           (Scenario.pkt FLOW_PKT_TOCLIENT) (-1)).
  1-4: reflexivity.
  - discriminate.
  - reflexivity.
  - reflexivity.
  - reflexivity.
Defined.

(** ** A known direction stays known *)

Section KeepsKnown.

Context {A : Type}.
Variable E : Collaborators A.

(** Lines 278-315 write no slot but the one of this direction. *)
Lemma first_data_check_slot (st : State A) (p : Packet)
  (stream : StreamSel) (alproto_p alproto_otherdir_p : Slot)
  (dir carry : Z) (data : list byte) (data_len flags : Z)
  (st' : State A) (p' : Packet) (r : Z) (slot : Slot) :
  first_data_check E st p stream alproto_p alproto_otherdir_p dir carry
    data data_len flags = Some (st', p', r) ->
  slot <> alproto_p ->
  deref (flow st') slot = deref (flow st) slot.
Proof.
  unfold first_data_check, parse_detected, failure,
    FLOW_RESET_PM_DONE, FLOW_RESET_PP_DONE.
  case_ifs; intros H Hne; inversion H;
    destruct slot, alproto_p; try congruence; reflexivity.
Qed.

(** Lines 317-358 write no slot. *)
Lemma other_direction_known_slot (st : State A) (p : Packet)
  (stream : StreamSel) (alproto_otherdir_p : Slot)
  (dir carry : Z) (data : list byte) (data_len flags : Z)
  (st' : State A) (p' : Packet) (r : Z) (slot : Slot) :
  other_direction_known E st p stream alproto_otherdir_p dir carry
    data data_len flags = Some (st', p', r) ->
  deref (flow st') slot = deref (flow st) slot.
Proof.
  unfold other_direction_known, failure.
  case_ifs; intros H; inversion H; destruct slot; reflexivity.
Qed.

(** Lines 360-366 write no slot. *)
Lemma neither_direction_known_slot (st : State A) (p : Packet)
  (st' : State A) (p' : Packet) (r : Z) (slot : Slot) :
  neither_direction_known st p = Some (st', p', r) ->
  deref (flow st') slot = deref (flow st) slot.
Proof.
  unfold neither_direction_known.
  case_ifs; intros H; inversion H; destruct slot; reflexivity.
Qed.

(** Lines 164-205 with a protocol detected: a slot that was known is
    known afterwards. *)
Lemma detected_slot (st : State A) (p : Packet) (stream : StreamSel)
  (data : list byte) (data_len flags : Z) (slot : Slot) :
  snd (AlpdGetProto E (flow st) data data_len IPPROTO_TCP flags)
  <> ALPROTO_UNKNOWN ->
  deref (flow st) slot <> ALPROTO_UNKNOWN ->
  deref (flow (fst (detected E st p stream data data_len flags))) slot
  <> ALPROTO_UNKNOWN.
Proof.
  intros Hd Hk. unfold detected, resolve_mismatch.
  set (res := AlpdGetProto E (flow st) data data_len IPPROTO_TCP flags) in *.
  set (f1 := assign (this_slot flags) (snd res) (touch (flow st) (fst res))).
  assert (Hthis : deref f1 (this_slot flags) = snd res)
    by apply deref_assign_same.
  assert (Hother : deref f1 (other_slot flags)
                   = deref (flow st) (other_slot flags)).
  { unfold f1. rewrite deref_this_other. apply deref_touch. }
  assert (Hslot : deref f1 slot <> ALPROTO_UNKNOWN).
  { revert Hthis Hother Hk Hd. unfold this_slot, other_slot.
    destruct (isset flags STREAM_TOSERVER); destruct slot; simpl;
      intros; congruence. }
  destruct (deref f1 (other_slot flags) =? ALPROTO_UNKNOWN) eqn:Ho; simpl.
  { rewrite deref_set_alproto. exact Hslot. }
  apply Z.eqb_neq in Ho.
  destruct (deref f1 (other_slot flags) =? deref f1 (this_slot flags));
    simpl.
  { rewrite deref_set_alproto. exact Hslot. }
  assert (Hd' : deref f1 (this_slot flags) <> ALPROTO_UNKNOWN)
    by congruence.
  revert Ho Hd' Hslot. unfold this_slot, other_slot.
  case_ifs; simpl; rewrite !deref_set_alproto;
    destruct slot; simpl; intros; assumption.
Qed.

Lemma this_slot_cases (flags : Z) (slot : Slot) :
  slot = this_slot flags \/ slot <> this_slot flags.
Proof. destruct slot, (this_slot flags); auto; right; discriminate. Qed.

Lemma replay_opposing_keeps_known (st st' : State A) (p p' : Packet)
  (stream : StreamSel) (ret : Z) (slot : Slot) :
  replay_keeps_known E ->
  replay_opposing E st p stream = Some (st', p', ret) ->
  deref (flow st) slot <> ALPROTO_UNKNOWN ->
  deref (flow st') slot <> ALPROTO_UNKNOWN.
Proof.
  intros Hk. unfold replay_opposing.
  destruct (StreamTcpInlineMode E);
    match goal with
    | |- context [match ?c with None => _ | Some _ => _ end] =>
        destruct c as [[[st2 p2] r2]|] eqn:Hc
    end; try discriminate; intros H Hs; inversion H; subst;
    eapply Hk; eauto.
Qed.

(** One call. *)
Lemma tcp_call_keeps_known (st : State A) (p : Packet) (stream : StreamSel)
  (data : list byte) (data_len flags : Z)
  (st' : State A) (p' : Packet) (r : Z) (slot : Slot) :
  replay_keeps_known E ->
  AppLayerHandleTCPData E st p stream data data_len flags
  = Some (st', p', r) ->
  deref (flow st) slot <> ALPROTO_UNKNOWN ->
  deref (flow st') slot <> ALPROTO_UNKNOWN.
Proof.
  intros Hk Hcall Hs.
  destruct (no_inspection (flow st)) eqn:Hni.
  { rewrite tcp_no_inspection in Hcall by exact Hni.
    inversion Hcall. subst. exact Hs. }
  assert (Hsteady :
            deref (flow st) (this_slot flags) <> ALPROTO_UNKNOWN
            \/ (isset flags STREAM_GAP = false
                /\ isset flags STREAM_START = false) ->
            deref (flow st') slot <> ALPROTO_UNKNOWN).
  { intros H. revert Hcall.
    unfold AppLayerHandleTCPData. unfold no_inspection in Hni. rewrite Hni.
    fold (this_slot flags).
    replace ((deref (flow st) (this_slot flags) =? ALPROTO_UNKNOWN)
             && isset flags STREAM_GAP) with false.
    2:{ destruct H as [H|[H _]].
        - apply Z.eqb_neq in H. rewrite H. reflexivity.
        - rewrite H. symmetry. apply andb_false_r. }
    replace ((deref (flow st) (this_slot flags) =? ALPROTO_UNKNOWN)
             && isset flags STREAM_START) with false.
    2:{ destruct H as [H|[_ H]].
        - apply Z.eqb_neq in H. rewrite H. reflexivity.
        - rewrite H. symmetry. apply andb_false_r. }
    case_ifs; intros Hc; inversion Hc; subst; simpl;
      rewrite ?deref_touch; exact Hs. }
  destruct (Z.eq_dec (deref (flow st) (this_slot flags)) ALPROTO_UNKNOWN)
    as [Hthis|Hthis]; [|apply Hsteady; left; exact Hthis].
  assert (Hne : slot <> this_slot flags) by congruence.
  destruct (isset flags STREAM_GAP) eqn:Hgap.
  { revert Hcall.
    unfold AppLayerHandleTCPData. unfold no_inspection in Hni. rewrite Hni.
    fold (this_slot flags). rewrite Hthis, Hgap. simpl.
    intros Hc. inversion Hc. subst. exact Hs. }
  destruct (isset flags STREAM_START) eqn:Hstart;
    [|apply Hsteady; right; split; reflexivity].
  destruct (Z.eq_dec
              (snd (AlpdGetProto E (flow st) data data_len IPPROTO_TCP
                      flags)) ALPROTO_UNKNOWN) as [Hd|Hd].
  - rewrite tcp_case_S in Hcall by assumption.
    unfold stream_start in Hcall.
    rewrite deref_assign_same, Hd in Hcall. simpl in Hcall.
    rewrite assign_unknown_touch in Hcall by exact Hthis.
    match type of Hcall with
    | context [if ?b then _ else _] => destruct b
    end.
    + apply other_direction_known_slot with (slot := slot) in Hcall.
      rewrite Hcall. simpl. rewrite deref_touch. exact Hs.
    + apply neither_direction_known_slot with (slot := slot) in Hcall.
      rewrite Hcall. simpl. rewrite deref_touch. exact Hs.
  - rewrite tcp_detected in Hcall by assumption.
    pose proof (detected_slot st p stream data data_len flags slot Hd Hs)
      as Hs2.
    unfold after_detection in Hcall.
    destruct (replay_wanted _ flags).
    + destruct (replay_opposing E _ _ stream) as [[[st_r p_r] ret]|] eqn:Hrep;
        [|discriminate].
      pose proof (replay_opposing_keeps_known _ _ _ _ _ _ slot Hk Hrep Hs2)
        as Hs3.
      destruct (ret <? 0).
      * inversion Hcall. subst. simpl. destruct slot; exact Hs3.
      * apply first_data_check_slot with (slot := slot) in Hcall;
          [|exact Hne].
        rewrite Hcall. exact Hs3.
    + apply first_data_check_slot with (slot := slot) in Hcall; [|exact Hne].
      rewrite Hcall. exact Hs2.
Qed.

End KeepsKnown.

(** X16.  If the reassembler never turns a known direction protocol
    into UNKNOWN, neither does any sequence of dispatch calls: a
    direction slot that is known stays known. *)
Theorem X16_known_direction_stays_known {A : Type} (E : Collaborators A)
  (cs : list TcpCall) (st st' : State A) (rs : list (Packet * Z))
  (slot : Slot) :
  replay_keeps_known E ->
  run_tcp E cs st = Some (st', rs) ->
  deref (flow st) slot <> ALPROTO_UNKNOWN ->
  deref (flow st') slot <> ALPROTO_UNKNOWN.
Proof.
  intros Hk. revert st st' rs.
  induction cs as [|c cs IH]; intros st st' rs Hrun Hs; simpl in Hrun.
  - inversion Hrun. subst. exact Hs.
  - destruct (AppLayerHandleTCPData E st (c_pkt c) (c_stream c) (c_data c)
                (c_data_len c) (c_flags c)) as [[[st1 p1] r1]|] eqn:Hcall;
      [|discriminate].
    destruct (run_tcp E cs st1) as [[st2 rs2]|] eqn:Hrest; [|discriminate].
    inversion Hrun. subst.
    apply (IH st1 st' rs2 Hrest).
    exact (tcp_call_keeps_known E _ _ _ _ _ _ _ _ _ slot Hk Hcall Hs).
Qed.

(** A reassembler with nothing queued changes no slot. *)
Lemma idle_keeps_known (parse_ret replay_ret : Z) :
  replay_keeps_known (Scenario.sniffer parse_ret replay_ret).
Proof.
  intros st p s st' p' r slot [H|H] Hs; simpl in H;
    unfold Scenario.idle in H; inversion H; subst; exact Hs.
Qed.

(** The to-client side is known as SSH; a banner and a request follow. *)
Lemma X16_known_direction_stays_known_witness :
  run_tcp (Scenario.sniffer 0 0) Scenario.banner_then_request
    Scenario.state_ssh_seen
  = Some (Traces.state_ssh_won, Traces.results_ssh_won)
  /\ deref (flow Traces.state_ssh_won) SlotTC <> ALPROTO_UNKNOWN.
Proof.
  split; [reflexivity|].
  apply (X16_known_direction_stays_known (Scenario.sniffer 0 0)
           Scenario.banner_then_request Scenario.state_ssh_seen
           Traces.state_ssh_won Traces.results_ssh_won SlotTC).
  - apply idle_keeps_known.
  - reflexivity.
  - discriminate.
Defined.

(** ** What the parser is handed in Case S: the two call sites *)

(** C9.  In Case S with data_len > 0 the parser is handed the chunk at
    offset data_al_so_far[dir] (as stored on entry) with length
    data_len - data_al_so_far[dir] computed in uint32_t, at both call
    sites.  When detection answers a protocol and the direction of first
    data is met or not checked on the state the check is entered with,
    the call makes exactly that parser call under this direction's
    protocol, returns the parser's code and resets the carry to 0 (line
    313).  When detection fails, the other direction is known and its
    direction of first data is met or not checked, the call makes exactly
    that parser call under the other direction's protocol, returns the
    parser's code and leaves the carry 0 if both strategies are done for
    this direction and data_len otherwise (line 348).  On every returning
    path the log gains no other parser call.  With
    data_al_so_far[dir] <= data_len the length is the exact remainder;
    otherwise the subtraction wraps and the length exceeds data_len. *)
Theorem C9_parser_gets_suffix {A : Type} (E : Collaborators A)
  (st : State A) (p : Packet) (stream : StreamSel)
  (data : list byte) (data_len flags : Z) :
  let carry := arr_get (data_al_so_far (flow st)) (dir_of flags) in
  let len := wrap32 (data_len - carry) in
  let res := AlpdGetProto E (flow st) data data_len IPPROTO_TCP flags in
  let dp := detected E st p stream data data_len flags in
  let detect_call := CallAlpdGetProto data data_len IPPROTO_TCP flags in
  let call := AppLayerHandleTCPData E st p stream data data_len flags in
  no_inspection (flow st) = false ->
  deref (flow st) (this_slot flags) = ALPROTO_UNKNOWN ->
  isset flags STREAM_GAP = false ->
  isset flags STREAM_START = true ->
  0 < data_len < 2 ^ 32 ->
  0 <= carry < 2 ^ 32 ->
  (snd res <> ALPROTO_UNKNOWN ->
   forall (st_r : State A) (p_r : Packet),
     enters_check E (fst dp) (snd dp) stream flags st_r p_r ->
     let a := deref (flow st_r) (this_slot flags) in
     let required := AlpGetFirstDataDir E (proto (flow st_r)) a in
     data_first_seen_dir (ssn st_r) = APP_LAYER_DATA_ALREADY_SENT_TO_APP_LAYER
     \/ required = 0
     \/ (isset required (data_first_seen_dir (ssn st_r)) = true
         /\ isset required flags = true) ->
     exists st',
       call
       = Some (st', p_r,
               snd (AlpParseL7Data E (flow st_r) a flags data carry len))
       /\ calls st' = CallAlpParseL7Data a flags data carry len :: calls st_r
       /\ arr_get (data_al_so_far (flow st')) (dir_of flags) = 0)
  /\ (snd res = ALPROTO_UNKNOWN ->
      let o := deref (flow st) (other_slot flags) in
      let required := AlpGetFirstDataDir E (proto (flow st)) o in
      o <> ALPROTO_UNKNOWN ->
      data_first_seen_dir (ssn st) = APP_LAYER_DATA_ALREADY_SENT_TO_APP_LAYER
      \/ required = 0
      \/ isset required flags = true ->
      exists st' p',
        call
        = Some (st', p',
                snd (AlpParseL7Data E (touch (flow st) (fst res)) o flags
                       data carry len))
        /\ calls st'
           = CallAlpParseL7Data o flags data carry len
               :: detect_call :: calls st
        /\ arr_get (data_al_so_far (flow st')) (dir_of flags)
           = if FLOW_IS_PM_DONE (flow st') flags
                && FLOW_IS_PP_DONE (flow st') flags
             then 0 else data_len)
  /\ (forall st' p' r,
        call = Some (st', p', r) ->
        (snd res <> ALPROTO_UNKNOWN ->
         exists st_r,
           (st_r = fst dp
            \/ exists p_r ret,
                replay_opposing E (fst dp) (snd dp) stream
                = Some (st_r, p_r, ret))
           /\ (calls st' = calls st_r
               \/ (calls st'
                   = CallAlpParseL7Data (deref (flow st_r) (this_slot flags))
                       flags data carry len :: calls st_r
                   /\ arr_get (data_al_so_far (flow st')) (dir_of flags)
                      = 0)))
        /\ (snd res = ALPROTO_UNKNOWN ->
            calls st' = detect_call :: calls st
            \/ (deref (flow st) (other_slot flags) <> ALPROTO_UNKNOWN
                /\ calls st'
                   = CallAlpParseL7Data (deref (flow st) (other_slot flags))
                       flags data carry len :: detect_call :: calls st
                /\ arr_get (data_al_so_far (flow st')) (dir_of flags)
                   = if FLOW_IS_PM_DONE (flow st') flags
                        && FLOW_IS_PP_DONE (flow st') flags
                     then 0 else data_len)))
  /\ (carry <= data_len -> len = data_len - carry /\ 0 <= len <= data_len)
  /\ (data_len < carry ->
      len = data_len - carry + 2 ^ 32 /\ data_len < len).
Proof.
  intros carry len res dp detect_call call Hni Hthis Hgap Hstart Hlen Hcarry.
  assert (Hpow : 2 ^ 32 = 4294967296) by reflexivity.
  assert (Hc0 : carry_of (flow st) data_len flags = carry).
  { unfold carry_of. destruct (Z.eqb_spec data_len 0); [lia|reflexivity]. }
  split; [|split; [|split; [|split]]].
  - intros Hu st_r p_r Henter a required Hreq. unfold call.
    rewrite (tcp_detected E st p stream data data_len flags Hni Hthis
               Hgap Hstart Hu).
    rewrite Hc0. fold dp.
    rewrite (enters_check_after_detection E _ _ _ _ _ _ _ _ _ _ _ _ Henter).
    rewrite first_data_check_parse by exact Hreq.
    unfold parse_detected. simpl. eexists.
    split; [reflexivity|]. split; [reflexivity|]. apply arr_get_set.
  - intros Hu o required Ho Hreq. unfold call.
    rewrite tcp_other_direction_known by assumption.
    rewrite Hc0. fold res.
    unfold other_direction_known. simpl. rewrite deref_touch.
    fold o. fold required. fold len.
    assert (Hc : negb (data_first_seen_dir (ssn st)
                       =? APP_LAYER_DATA_ALREADY_SENT_TO_APP_LAYER)
                 && negb (required =? 0)
                 && negb (isset required flags) = false).
    { destruct Hreq as [H|[H|H]].
      - rewrite H. reflexivity.
      - rewrite H. simpl. rewrite andb_false_r. reflexivity.
      - rewrite H. simpl. apply andb_false_r. }
    rewrite Hc.
    match goal with
    | |- context [if ?b then Some (set_ssn _ _, _, _) else _] =>
        destruct b eqn:Hdone
    end; eexists; eexists; (split; [reflexivity|]);
      (split; [destruct (data_len >? 0); reflexivity|]);
      unfold FLOW_IS_PM_DONE, FLOW_IS_PP_DONE in *; simpl in *;
      rewrite Hdone; apply arr_get_set.
  - intros st' p' r Hcall. unfold call in Hcall. split.
    + intros Hu.
      rewrite (tcp_detected E st p stream data data_len flags Hni Hthis
                 Hgap Hstart Hu) in Hcall.
      rewrite Hc0 in Hcall.
      apply after_detection_calls in Hcall. exact Hcall.
    + intros Hu.
      rewrite tcp_case_S in Hcall by assumption.
      unfold stream_start in Hcall. fold res in Hcall.
      rewrite deref_assign_same, deref_this_other in Hcall.
      fold (carry_of (flow st) data_len flags) in Hcall.
      rewrite Hc0, Hu in Hcall. simpl negb in Hcall. cbv iota in Hcall.
      replace (deref (touch (flow st) (fst res)) (other_slot flags))
        with (deref (flow st) (other_slot flags)) in Hcall
        by (destruct (other_slot flags); reflexivity).
      destruct (Z.eqb_spec (deref (flow st) (other_slot flags))
                  ALPROTO_UNKNOWN) as [Ho|Ho];
        simpl negb in Hcall; cbv iota in Hcall.
      * left. unfold neither_direction_known in Hcall.
        destruct (_ && _) in Hcall; inversion Hcall; reflexivity.
      * apply other_direction_known_calls in Hcall.
        destruct Hcall as [Hsame|[Hparse Hc]].
        -- left. exact Hsame.
        -- right. split; [exact Ho|]. split; [|exact Hc].
           rewrite Hparse. simpl. rewrite deref_this_other.
           replace (deref (touch (flow st) (fst res)) (other_slot flags))
             with (deref (flow st) (other_slot flags))
             by (destruct (other_slot flags); reflexivity).
           reflexivity.
  - intros Hle. unfold len, wrap32.
    rewrite Z.mod_small by lia. lia.
  - intros Hgt. unfold len, wrap32.
    assert (Hm : (data_len - carry) mod 2 ^ 32 = data_len - carry + 2 ^ 32).
    { symmetry. apply (Z.mod_unique _ _ (-1)); lia. }
    rewrite Hm. lia.
Qed.

(** Both call sites with a carry of 3.  Five bytes detected as HTTP in
    the direction data was first seen in: the parser gets offset 3 and
    length 2 and the carry is reset.  Seven unrecognised bytes while the
    other direction is known as SSH: the parser gets offset 3 and length
    4. *)
Lemma C9_parser_gets_suffix_witness :
  (exists st',
      AppLayerHandleTCPData (Scenario.sniffer 0 0) Traces.state_rescan
        (Scenario.pkt FLOW_PKT_TOCLIENT) StreamClient Scenario.GET 5
        Scenario.flags_B
      = Some (st', Scenario.pkt FLOW_PKT_TOCLIENT, 0)
      /\ calls st'
         = [CallAlpParseL7Data Scenario.ALPROTO_HTTP Scenario.flags_B
              Scenario.GET 3 2;
            CallAlpdGetProto Scenario.GET 5 IPPROTO_TCP Scenario.flags_B]
      /\ arr_get (data_al_so_far (flow st')) 0 = 0)
  /\ (exists st' p',
         AppLayerHandleTCPData (Scenario.sniffer 0 0) Scenario.state_carry
           (Scenario.pkt FLOW_PKT_TOCLIENT) StreamClient Scenario.garbage 7
           Scenario.flags_B
         = Some (st', p', 0)
         /\ calls st'
            = [CallAlpParseL7Data Scenario.ALPROTO_SSH Scenario.flags_B
                 Scenario.garbage 3 4;
               CallAlpdGetProto Scenario.garbage 7 IPPROTO_TCP
                 Scenario.flags_B]
         /\ arr_get (data_al_so_far (flow st')) 0
            = if FLOW_IS_PM_DONE (flow st') Scenario.flags_B
                 && FLOW_IS_PP_DONE (flow st') Scenario.flags_B
              then 0 else 7)
  /\ (3 <= 7 -> wrap32 (7 - 3) = 7 - 3 /\ 0 <= wrap32 (7 - 3) <= 7).
Proof.
  split; [|split].
  - edestruct (C9_parser_gets_suffix (Scenario.sniffer 0 0)
                 Traces.state_rescan (Scenario.pkt FLOW_PKT_TOCLIENT)
                 StreamClient Scenario.GET 5 Scenario.flags_B)
      as (Hsite & _).
    1-4: reflexivity.
    1-2: split; vm_compute; first [reflexivity|intros Hx; discriminate Hx].
    apply (Hsite ltac:(discriminate)
             (fst (detected (Scenario.sniffer 0 0) Traces.state_rescan
                     (Scenario.pkt FLOW_PKT_TOCLIENT) StreamClient
                     Scenario.GET 5 Scenario.flags_B))
             (Scenario.pkt FLOW_PKT_TOCLIENT)).
    + left. repeat split; reflexivity.
    + right. right. split; reflexivity.
  - edestruct (C9_parser_gets_suffix (Scenario.sniffer 0 0)
                 Scenario.state_carry (Scenario.pkt FLOW_PKT_TOCLIENT)
                 StreamClient Scenario.garbage 7 Scenario.flags_B)
      as (_ & Hsite & _).
    1-4: reflexivity.
    1-2: split; vm_compute; first [reflexivity|intros Hx; discriminate Hx].
    apply Hsite.
    + reflexivity.
    + discriminate.
    + left. reflexivity.
  - edestruct (C9_parser_gets_suffix (Scenario.sniffer 0 0)
                 Scenario.state_carry (Scenario.pkt FLOW_PKT_TOCLIENT)
                 StreamClient Scenario.garbage 7 Scenario.flags_B)
      as (_ & _ & _ & Hle & _).
    1-4: reflexivity.
    1-2: split; vm_compute; first [reflexivity|intros Hx; discriminate Hx].
    exact Hle.
Defined.
